(** * Compressor: unpadded numeric sequences and leaf directories

    A shallow embedding of [find_unpadded_sequences.py] and of
    [make_cbz.py], with the properties of the specification stated and
    proved (or refuted) over it, and further properties of the code.

    Conventions of the embedding.
    - Python [int] is [Z]; [len] returns a [Z].
    - Python [str] is [string]: a sequence of code points below 256.  In
      that range the class [\d] is exactly ['0'..'9'].
    - A [Path] is the list of its components below the root of the modelled
      tree; the tree has files and directories only (no symbolic links, no
      [.] or [..] components), so that [resolve] is the identity on it.
    - [sorted] is modelled by a stable insertion sort that only uses [<],
      as Python's sort does.
    - The content of a file is a [string] of bytes.  The bytes of a zip
      archive are a function of its members [(name, data)], left abstract;
      writing a file changes the tree and is not among the logged calls,
      which are [rename] and [mkdir]. *)

From Stdlib Require Import List ZArith Lia Bool Ascii String DecimalString.
From Stdlib Require Import Sorted Permutation.
From Stdlib Require DecimalZ.
Import ListNotations.

Set Warnings "-register-all".

Local Open Scope string_scope.
Local Open Scope list_scope.
Local Open Scope Z_scope.

(* ================================================================== *)
(** ** Python builtins used by the two scripts *)

Module Py.

Definition len {A : Type} (l : list A) : Z := Z.of_nat (List.length l).

(** [len(s)] on a string. *)
Definition slen (s : string) : Z := Z.of_nat (String.length s).

(** [str(n)]. *)
Definition str (n : Z) : string := NilZero.string_of_int (Z.to_int n).

Definition digit_val (c : ascii) : Z := Z.of_nat (nat_of_ascii c) - 48.

Fixpoint int_acc (acc : Z) (s : string) : Z :=
  match s with
  | EmptyString => acc
  | String c s' => int_acc (10 * acc + digit_val c) s'
  end.

(** [int(s)], used by the scripts on matches of [\d+] only. *)
Definition int (s : string) : Z := int_acc 0 s.

Fixpoint zeros (n : nat) : string :=
  match n with
  | O => EmptyString
  | S k => String "0" (zeros k)
  end.

Definition is_sign (c : ascii) : bool :=
  (Ascii.eqb c "+" || Ascii.eqb c "-")%bool.

(** [s.zfill(width)]: no truncation; the zeros go after a leading sign. *)
Definition zfill (s : string) (width : Z) : string :=
  if width <=? slen s then s
  else
    let pad := zeros (Z.to_nat (width - slen s)) in
    match s with
    | String c s' => if is_sign c then String c (pad ++ s') else (pad ++ s)%string
    | EmptyString => pad
    end.

(** [s.startswith('.')]. *)
Definition startswith_dot (s : string) : bool :=
  match s with
  | String c _ => Ascii.eqb c "."
  | EmptyString => false
  end.

(** [s.rfind(c)]: the highest index of [c] in [s], or [-1]. *)
Fixpoint rfind (c : ascii) (s : string) : Z :=
  match s with
  | EmptyString => -1
  | String a s' =>
      let r := rfind c s' in
      if 0 <=? r then r + 1
      else if Ascii.eqb a c then 0 else -1
  end.

(** The slices [s[:n]] and [s[n:]] for [0 <= n]. *)
Fixpoint take (n : nat) (s : string) : string :=
  match n, s with
  | S k, String c s' => String c (take k s')
  | _, _ => EmptyString
  end.

Fixpoint drop (n : nat) (s : string) : string :=
  match n, s with
  | S k, String _ s' => drop k s'
  | _, _ => s
  end.

(** [min(l)] and [max(l)]; [None] stands for the [ValueError] raised on
    an empty sequence. *)
Definition min (l : list Z) : option Z :=
  match l with
  | [] => None
  | x :: l' => Some (fold_left Z.min l' x)
  end.

Definition max (l : list Z) : option Z :=
  match l with
  | [] => None
  | x :: l' => Some (fold_left Z.max l' x)
  end.

(** [list(range(a, b))]. *)
Definition range (a b : Z) : list Z :=
  map (fun i => a + Z.of_nat i) (seq 0 (Z.to_nat (b - a))).

(** [set(l)] for integers, as a duplicate-free list (its iteration order
    is never observed: the scripts sort it or take its length). *)
Definition set (l : list Z) : list Z := nodup Z.eq_dec l.

Section Sorted.
Context {A K : Type}.
Variable key : A -> K.
Variable ltb : K -> K -> bool.

Fixpoint insert (x : A) (l : list A) : list A :=
  match l with
  | [] => [x]
  | y :: l' => if ltb (key y) (key x) then y :: insert x l' else x :: y :: l'
  end.

(** [sorted(l, key=key)]: stable, comparisons through [<] only. *)
Definition sorted (l : list A) : list A := fold_right insert [] l.
End Sorted.

(** A strictly increasing list, as [sorted(set(l))] and [range(a, b)] are. *)
Definition increasing (l : list Z) : Prop := StronglySorted Z.lt l.

(** [sum(l)]. *)
Definition sum (l : list Z) : Z := fold_right Z.add 0 l.

(** [<] on the tuples [(int, str)]. *)
Definition pair_ltb (a b : Z * string) : bool :=
  ((fst a <? fst b) || ((fst a =? fst b) && String.ltb (snd a) (snd b)))%bool.

Definition list_eqb {A : Type} (eqb : A -> A -> bool) : list A -> list A -> bool :=
  fix go l1 l2 :=
    match l1, l2 with
    | [], [] => true
    | x :: l1', y :: l2' => (eqb x y && go l1' l2')%bool
    | _, _ => false
    end.

End Py.

(* ================================================================== *)
(** ** The two regular expressions *)

Module Re.

(** [\d]. *)
Definition is_digit (c : ascii) : bool :=
  ((48 <=? nat_of_ascii c)%nat && (nat_of_ascii c <=? 57)%nat)%bool.

(** The dot of a pattern compiled without [DOTALL] matches anything but
    a newline. *)
Definition is_newline (c : ascii) : bool := Ascii.eqb c "010".

Definition starts_digit (s : string) : bool :=
  match s with
  | String c _ => is_digit c
  | EmptyString => false
  end.

(** [NUM_RE.findall(s)] for [NUM_RE = (\d+)]: the maximal digit runs of
    [s], from left to right. *)
Fixpoint findall (s : string) : list string :=
  match s with
  | EmptyString => []
  | String c s' =>
      if is_digit c then
        if starts_digit s' then
          match findall s' with
          | r :: rs => String c r :: rs
          | [] => [String c EmptyString]
          end
        else String c EmptyString :: findall s'
      else findall s'
  end.

(** Whether [.*\d] matches at the start of [s]: a digit before any
    newline. *)
Fixpoint dot_star_digit (s : string) : bool :=
  match s with
  | EmptyString => false
  | String c s' => (is_digit c || (negb (is_newline c) && dot_star_digit s'))%bool
  end.

Fixpoint drop_digits (s : string) : string :=
  match s with
  | String c s' => if is_digit c then drop_digits s' else s
  | EmptyString => EmptyString
  end.

(** [re.sub(r"(\d+)(?!.*\d)", repl, s)], scanning from the left.
    At a digit the greedy [\d+] takes the whole run; the negative
    lookahead is tried at the end of the run (a shorter match is always
    followed by a digit, so backtracking cannot help).  On success the
    run is replaced and the scan resumes after it ([in_match] skips the
    rest of the run); on failure the character is copied and the scan
    moves one position on. *)
Fixpoint sub_scan (repl : string) (in_match : bool) (s : string) : string :=
  match s with
  | EmptyString => EmptyString
  | String c s' =>
      if is_digit c then
        if in_match then sub_scan repl true s'
        else if negb (dot_star_digit (drop_digits s'))
             then (repl ++ sub_scan repl true s')%string
             else String c (sub_scan repl false s')
      else String c (sub_scan repl false s')
  end.

Definition sub_last_run (repl s : string) : string := sub_scan repl false s.

(** *** Classes of strings used in the statements *)

Fixpoint all_digits (s : string) : bool :=
  match s with
  | EmptyString => true
  | String c s' => (is_digit c && all_digits s')%bool
  end.

Fixpoint no_digit (s : string) : bool :=
  match s with
  | EmptyString => true
  | String c s' => (negb (is_digit c) && no_digit s')%bool
  end.

(** The string is empty or its last character is not a digit. *)
Fixpoint ends_nondigit (s : string) : bool :=
  match s with
  | EmptyString => true
  | String c EmptyString => negb (is_digit c)
  | String _ s' => ends_nondigit s'
  end.

(** [s] is [pre ++ run ++ suf] where [run] is its last digit run. *)
Definition last_run (s pre run suf : string) : Prop :=
  s = (pre ++ run ++ suf)%string
  /\ ends_nondigit pre = true
  /\ run <> EmptyString
  /\ all_digits run = true
  /\ no_digit suf = true.

Fixpoint no_newline (s : string) : bool :=
  match s with
  | EmptyString => true
  | String c s' => (negb (is_newline c) && no_newline s')%bool
  end.

Fixpoint no_dot (s : string) : bool :=
  match s with
  | EmptyString => true
  | String c s' => (negb (Ascii.eqb c ".") && no_dot s')%bool
  end.

End Re.

(* ================================================================== *)
(** ** Paths and the file tree *)

Module Fs.

(** A pure path: its components below the root of the tree. *)
Definition Path : Type := list string.

Inductive node : Type :=
| File (data : string)
| Dir (children : list (string * node)).

(** *** pathlib's pure operations *)

Definition name (p : Path) : string := last p EmptyString.

Definition parent (p : Path) : Path := removelast p.

(** [p / n]. *)
Definition child (p : Path) (n : string) : Path := p ++ [n].

(** [p.with_name(n)]; [None] is the [ValueError] of a path with an empty
    name.  The names built by the scripts are never empty and contain no
    separator. *)
Definition with_name (p : Path) (n : string) : option Path :=
  match p with
  | [] => None
  | _ => Some (removelast p ++ [n])
  end.

Definition has_suffix (n : string) : bool :=
  let i := Py.rfind "." n in
  ((0 <? i) && (i <? Py.slen n - 1))%bool.

(** [p.suffix]: [name[i:]] for [i = name.rfind('.')] when
    [0 < i < len(name) - 1], otherwise empty (pathlib up to Python 3.13;
    [stem + suffix] is the name in every version). *)
Definition suffix (p : Path) : string :=
  let n := name p in
  if has_suffix n then Py.drop (Z.to_nat (Py.rfind "." n)) n else EmptyString.

(** [p.stem]. *)
Definition stem (p : Path) : string :=
  let n := name p in
  if has_suffix n then Py.take (Z.to_nat (Py.rfind "." n)) n else n.

(** [str(p)]. *)
Definition path_str (p : Path) : string := ("/" ++ String.concat "/" p)%string.

Definition path_eqb : Path -> Path -> bool := Py.list_eqb String.eqb.

(** [p < q]: the component lists compared as Python compares lists. *)
Fixpoint path_ltb (p q : Path) : bool :=
  match p, q with
  | [], [] => false
  | [], _ :: _ => true
  | _ :: _, [] => false
  | a :: p', b :: q' =>
      match String.compare a b with
      | Lt => true
      | Gt => false
      | Eq => path_ltb p' q'
      end
  end.

Fixpoint is_prefix (p q : Path) : bool :=
  match p, q with
  | [], _ => true
  | a :: p', b :: q' => (String.eqb a b && is_prefix p' q')%bool
  | _ :: _, [] => false
  end.

(** *** Reading the tree *)

Fixpoint assoc (n : string) (l : list (string * node)) : option node :=
  match l with
  | [] => None
  | (m, c) :: l' => if String.eqb n m then Some c else assoc n l'
  end.

Fixpoint lookup (t : node) (p : Path) : option node :=
  match p with
  | [] => Some t
  | n :: p' =>
      match t with
      | Dir ch =>
          match assoc n ch with
          | Some c => lookup c p'
          | None => None
          end
      | File _ => None
      end
  end.

Definition exists_ (fs : node) (p : Path) : bool :=
  match lookup fs p with Some _ => true | None => false end.

Definition is_dir (fs : node) (p : Path) : bool :=
  match lookup fs p with Some (Dir _) => true | _ => false end.

Definition is_file (fs : node) (p : Path) : bool :=
  match lookup fs p with Some (File _) => true | _ => false end.

(** [d.iterdir()], in the order of the directory's listing; [None] is
    the [OSError] raised when [d] is not a directory. *)
Definition iterdir (fs : node) (d : Path) : option (list Path) :=
  match lookup fs d with
  | Some (Dir ch) => Some (map (fun e => child d (fst e)) ch)
  | _ => None
  end.

(** The paths below a node, relative to it, in the order of pathlib's
    recursive glob: the entries of a directory first, then, for each of
    them in turn, what lies below it. *)
Fixpoint descendants (t : node) : list Path :=
  match t with
  | File _ => []
  | Dir ch =>
      map (fun e => [fst e]) ch
        ++ flat_map (fun e => map (cons (fst e)) (descendants (snd e))) ch
  end.

(** [p.rglob('*')]: every path below [p] (pathlib's [*] also matches
    names that start with a dot). *)
Definition rglob (fs : node) (p : Path) : list Path :=
  match lookup fs p with
  | Some t => map (app p) (descendants t)
  | None => []
  end.

Definition is_file_node (t : node) : bool :=
  match t with File _ => true | Dir _ => false end.

Definition is_dir_node (t : node) : bool :=
  match t with File _ => false | Dir _ => true end.

Definition dirnames (ch : list (string * node)) : list string :=
  map fst (filter (fun e => is_dir_node (snd e)) ch).

Definition filenames (ch : list (string * node)) : list string :=
  map fst (filter (fun e => is_file_node (snd e)) ch).

(** [os.walk(top)], top-down, on the node found at [top]: one triple
    [(dirpath, dirnames, filenames)] per directory.  The recursion enters
    every directory of [dirnames]; entering a file contributes nothing. *)
Fixpoint walk (top : Path) (t : node) : list (Path * list string * list string) :=
  match t with
  | File _ => []
  | Dir ch =>
      (top, dirnames ch, filenames ch)
        :: flat_map (fun e => walk (child top (fst e)) (snd e)) ch
  end.

(** What [os.walk(cur)] yields after the triple of [cur] itself. *)
Definition below (cur : Path) (ch : list (string * node))
  : list (Path * list string * list string) :=
  flat_map (fun e => walk (child cur (fst e)) (snd e)) ch.

Definition os_walk (fs : node) (top : Path) : list (Path * list string * list string) :=
  match lookup fs top with
  | Some t => walk top t
  | None => []
  end.

(** The invariant of a real tree: the names of a directory are pairwise
    distinct, at every level. *)
Inductive wf : node -> Prop :=
| wf_file (data : string) : wf (File data)
| wf_dir (ch : list (string * node)) :
    NoDup (map fst ch) -> Forall (fun e => wf (snd e)) ch -> wf (Dir ch).

(** *** Changing the tree *)

(** Bind [n] to [v] in a listing ([None] removes the binding); a new
    name goes to the end. *)
Fixpoint set_child (n : string) (v : option node) (ch : list (string * node))
  : list (string * node) :=
  match ch with
  | [] => match v with Some c => [(n, c)] | None => [] end
  | (m, c0) :: ch' =>
      if String.eqb n m
      then match v with Some c => (m, c) :: ch' | None => ch' end
      else (m, c0) :: set_child n v ch'
  end.

(** Put [v] at [p] ([None] unlinks [p]); the parent of [p] must be a
    directory of the tree. *)
Fixpoint alter (t : node) (p : Path) (v : option node) : option node :=
  match p with
  | [] => None
  | n :: p' =>
      match t with
      | File _ => None
      | Dir ch =>
          match p' with
          | [] => Some (Dir (set_child n v ch))
          | _ :: _ =>
              match assoc n ch with
              | Some c =>
                  match alter c p' v with
                  | Some c' => Some (Dir (set_child n (Some c') ch))
                  | None => None
                  end
              | None => None
              end
          end
      end
  end.

(** [os.rename(src, dst)] on the tree, [None] for an [OSError]: the source
    must exist, the parent of the destination must be a directory, a
    directory is not moved below itself, an existing destination is
    replaced when it is a file (by a file) or an empty directory (by a
    directory). *)
Definition rename (fs : node) (src dst : Path) : option node :=
  match src, dst with
  | [], _ | _, [] => None
  | _, _ =>
      match lookup fs src with
      | None => None
      | Some n =>
          if path_eqb src dst then Some fs
          else if is_prefix src dst then None
          else
            let move :=
              match alter fs src None with
              | Some fs1 => alter fs1 dst (Some n)
              | None => None
              end in
            match lookup fs dst, n with
            | None, _ => move
            | Some (File _), File _ => move
            | Some (Dir []), Dir _ => move
            | Some _, _ => None
            end
      end
  end.

Fixpoint chain (p : Path) : node :=
  match p with
  | [] => Dir []
  | n :: p' => Dir [(n, chain p')]
  end.

(** [p.mkdir(parents=True, exist_ok=True)]; [None] when a component of
    [p] is a file. *)
Fixpoint mkdir_parents (t : node) (p : Path) : option node :=
  match t with
  | File _ => None
  | Dir ch =>
      match p with
      | [] => Some t
      | n :: p' =>
          match assoc n ch with
          | Some c =>
              match mkdir_parents c p' with
              | Some c' => Some (Dir (set_child n (Some c') ch))
              | None => None
              end
          | None => Some (Dir (set_child n (Some (chain p')) ch))
          end
      end
  end.

End Fs.

(* ================================================================== *)
(** ** Exceptions *)

Inductive exn : Type :=
| ValueError (msg : string)
| RuntimeError (msg : string)
| OSError (msg : string)
| FileNotFoundError (msg : string).

Inductive outcome (A : Type) : Type :=
| Return (a : A)
| Raise (e : exn).

Arguments Return {A} a.
Arguments Raise {A} e.

(** [str(exc)]. *)
Definition exn_str (e : exn) : string :=
  match e with
  | ValueError m | RuntimeError m | OSError m | FileNotFoundError m => m
  end.

(* ================================================================== *)
(** ** find_unpadded_sequences.py: the functions that only read *)

Module FindUnpadded.

Import Fs.

(** [extract_number_token(name)]. *)
Definition extract_number_token (name : string) : option (Z * string) :=
  match Re.findall name with
  | [] => None
  | m => let s := last m EmptyString in Some (Py.int s, s)
  end.

(** [is_leaf_dir(d)]: the two nested loops return [False] at the first
    file found below a subdirectory. *)
Definition is_leaf_dir (fs : node) (d : Path) : bool :=
  if negb (is_dir fs d) then false
  else
    match iterdir fs d with
    | None => false (* not reached: [d] is a directory *)
    | Some subs =>
        forallb
          (fun sub =>
             if is_dir fs sub
             then negb (existsb (is_file fs) (rglob fs sub))
             else true)
          subs
    end.

(** The tuples [(path, int_value, token_str)] of [analyze_dir]. *)
Definition entry : Type := Path * Z * string.

Definition e_path (e : entry) : Path := fst (fst e).
Definition e_val (e : entry) : Z := snd (fst e).
Definition e_token (e : entry) : string := snd e.
Definition e_name (e : entry) : string := name (e_path e).

Definition visible_file (fs : node) (p : Path) : bool :=
  (is_file fs p && negb (Py.startswith_dot (name p)))%bool.

(** [[p for p in sorted(listing) if p.is_file() and not
    p.name.startswith('.')]]. *)
Definition list_files (fs : node) (listing : list Path) : list Path :=
  filter (visible_file fs) (Py.sorted (fun p => p) path_ltb listing).

(** The loop that fills [entries]. *)
Fixpoint numbered (files : list Path) : list entry :=
  match files with
  | [] => []
  | p :: rest =>
      match extract_number_token (stem p) with
      | None => numbered rest
      | Some (val, token) => (p, val, token) :: numbered rest
      end
  end.

Definition lex_order (entries : list entry) : list string :=
  map e_name (Py.sorted e_name String.ltb entries).

Definition numeric_order (entries : list entry) : list string :=
  map e_name (Py.sorted (fun e => (e_val e, e_name e)) Py.pair_ltb entries).





Definition consecutive (nums : list Z) (min_n max_n : Z) : bool :=
  let expected_count := max_n - min_n + 1 in
  let unique_nums := Py.sorted (fun n => n) Z.ltb (Py.set nums) in
  ((expected_count =? Py.len unique_nums)
   && Py.list_eqb Z.eqb unique_nums (Py.range min_n (max_n + 1)))%bool.

Definition token_lengths (entries : list entry) : list Z :=
  map (fun e => Py.slen (e_token e)) entries.

Definition fully_padded (entries : list entry) (desired_width : Z) : bool :=
  ((Py.len (Py.set (token_lengths entries)) =? 1)
   && (hd 0 (token_lengths entries) =? desired_width))%bool.

(** The dictionary returned for a flagged directory.  [r_dir] keeps the
    path itself: the script stores [str(d)] and reads it back with
    [Path(...)]. *)
Record report : Type := mkReport {
  r_dir : Path;
  r_count : Z;
  r_min : Z;
  r_max : Z;
  r_desired_width : Z;
  r_token_lengths_sample : list Z;
  r_lex_order_sample : list string;
  r_numeric_order_sample : list string
}.

(** [analyze_dir(d, min_files)].  [Return None] is the null result. *)
Definition analyze_dir (fs : node) (d : Path) (min_files : Z)
  : outcome (option report) :=
  match iterdir fs d with
  | None => Raise (OSError "iterdir")
  | Some listing =>
      let files := list_files fs listing in
      if Py.len files <? min_files then Return None
      else
        let entries := numbered files in
        if Py.len entries <? min_files then Return None
        else
          let nums := map e_val entries in
          match Py.min nums, Py.max nums with
          | Some min_n, Some max_n =>
              if negb (consecutive nums min_n max_n) then Return None
              else
                let desired_width := Py.slen (Py.str max_n) in
                if (negb (Py.list_eqb String.eqb (lex_order entries)
                                      (numeric_order entries))
                    && negb (fully_padded entries desired_width))%bool
                then
                  Return (Some {|
                    r_dir := d;
                    r_count := Py.len entries;
                    r_min := min_n;
                    r_max := max_n;
                    r_desired_width := desired_width;
                    r_token_lengths_sample :=
                      Py.sorted (fun n => n) Z.ltb (Py.set (token_lengths entries));
                    r_lex_order_sample := firstn 10 (lex_order entries);
                    r_numeric_order_sample := firstn 10 (numeric_order entries)
                  |})
                else Return None
          | _, _ => Raise (ValueError "min() arg is an empty sequence")
          end
  end.

(** The loop of [find_problem_dirs] over the candidate directories. *)
Fixpoint scan_dirs (fs : node) (min_files : Z) (dirs : list Path)
  : outcome (list report) :=
  match dirs with
  | [] => Return []
  | d :: rest =>
      if negb (is_leaf_dir fs d) then scan_dirs fs min_files rest
      else
        match analyze_dir fs d min_files with
        | Raise e => Raise e
        | Return res =>
            match scan_dirs fs min_files rest with
            | Raise e => Raise e
            | Return results =>
                match res with
                | Some r => Return (r :: results)
                | None => Return results
                end
            end
        end
  end.

(** [find_problem_dirs(root, min_files)]. *)
Definition find_problem_dirs (fs : node) (root : Path) (min_files : Z)
  : outcome (list report) :=
  let dirs := root :: filter (is_dir fs) (rglob fs root) in
  scan_dirs fs min_files dirs.

(** [make_new_name(old, width)].  [with_name] cannot fail here: a stem
    with a digit run belongs to a path that has a name. *)
Definition make_new_name (old : Path) (width : Z) : Path :=
  let stem := stem old in
  match Re.findall stem with
  | [] => old
  | m =>
      let last := last m EmptyString in
      let padded := Py.zfill last width in
      let new_stem := Re.sub_last_run padded stem in
      match with_name old (new_stem ++ suffix old)%string with
      | Some p => p
      | None => old
      end
  end.

End FindUnpadded.

(* ================================================================== *)
(** ** The world of the executor: file system, output, randomness *)

(** What the executor asks of the operating system.  [None] stands for the
    [OSError] raised by a failing call. *)
Class FileSystem (FS : Type) : Type := {
  fs_exists : FS -> Fs.Path -> bool;
  fs_resolve : FS -> Fs.Path -> Fs.Path;
  fs_rename : FS -> Fs.Path -> Fs.Path -> option FS;
  fs_mkdir_parents : FS -> Fs.Path -> option FS
}.

(** The calls that may change the file system. *)
Inductive syscall : Type :=
| SysRename (src dst : Fs.Path)
| SysMkdir (p : Fs.Path).

(** What [print] writes: a line of text, or the JSON document of a list of
    reports (its serialisation by [json.dumps] is not modelled). *)
Inductive output : Type :=
| Line (s : string)
| Json (results : list FindUnpadded.report).

Record world (FS : Type) : Type := mkWorld {
  w_fs : FS;
  w_stdout : list output;
  w_stderr : list output;
  w_uuids : nat;
  w_calls : list (syscall * bool)
}.

Arguments mkWorld {FS}.
Arguments w_fs {FS}.
Arguments w_stdout {FS}.
Arguments w_stderr {FS}.
Arguments w_uuids {FS}.
Arguments w_calls {FS}.

Module Exec.

Import Fs.

Section Monad.
Context {FS : Type} `{FileSystem FS}.

(** State and exceptions: a computation returns or raises, and leaves a
    world behind in both cases. *)
Definition M (A : Type) : Type := world FS -> outcome A * world FS.

Definition ret {A : Type} (a : A) : M A := fun w => (Return a, w).

Definition raise {A : Type} (e : exn) : M A := fun w => (Raise e, w).

Definition bind {A B : Type} (m : M A) (k : A -> M B) : M B :=
  fun w =>
    match m w with
    | (Return a, w') => k a w'
    | (Raise e, w') => (Raise e, w')
    end.

(** [try: m except Exception as exc: ...], with the exception as a value. *)
Definition attempt {A : Type} (m : M A) : M (A + exn) :=
  fun w =>
    match m w with
    | (Return a, w') => (Return (inl a), w')
    | (Raise e, w') => (Return (inr e), w')
    end.

Definition print (o : output) : M unit :=
  fun w => (Return tt,
            mkWorld (w_fs w) (w_stdout w ++ [o]) (w_stderr w) (w_uuids w) (w_calls w)).

Definition eprint (o : output) : M unit :=
  fun w => (Return tt,
            mkWorld (w_fs w) (w_stdout w) (w_stderr w ++ [o]) (w_uuids w) (w_calls w)).

Definition get_fs : M FS := fun w => (Return (w_fs w), w).

(** One system call: logged with its success, the file system replaced
    when it succeeds. *)
Definition sys (c : syscall) (r : option FS) : M unit :=
  fun w =>
    match r with
    | Some fs' =>
        (Return tt,
         mkWorld fs' (w_stdout w) (w_stderr w) (w_uuids w) (w_calls w ++ [(c, true)]))
    | None =>
        (Raise (OSError "system call failed"),
         mkWorld (w_fs w) (w_stdout w) (w_stderr w) (w_uuids w) (w_calls w ++ [(c, false)]))
    end.

(** [src.rename(dst)]. *)
Definition rename (src dst : Path) : M unit :=
  fun w => sys (SysRename src dst) (fs_rename (w_fs w) src dst) w.

(** [p.mkdir(parents=True, exist_ok=True)]. *)
Definition mkdir (p : Path) : M unit :=
  fun w => sys (SysMkdir p) (fs_mkdir_parents (w_fs w) p) w.

End Monad.

Arguments M : clear implicits.

Declare Scope exec_scope.
Delimit Scope exec_scope with exec.

Notation "x <- m ;; k" := (bind m (fun x => k))
  (at level 61, m at next level, right associativity) : exec_scope.
Notation "m ;; k" := (bind m (fun _ => k))
  (at level 61, right associativity) : exec_scope.

End Exec.

(* ================================================================== *)
(** ** find_unpadded_sequences.py: the executor and [main] *)

Module Executor.

Import Fs Exec FindUnpadded.
Local Open Scope exec_scope.

Definition path_dec : forall p q : Path, {p = q} + {p <> q} :=
  list_eq_dec string_dec.

(** [p in l] for a set or list of paths. *)
Definition path_in (p : Path) (l : list Path) : bool :=
  if in_dec path_dec p l then true else false.

(** [len(dsts) != len(set(dsts))]. *)
Definition has_duplicates (dsts : list Path) : bool :=
  negb (Py.len dsts =? Py.len (nodup path_dec dsts)).

Section PerformRenames.
Context {FS : Type} `{FileSystem FS}.

(** The source of [uuid.uuid4().hex]: the [n]-th identifier drawn. *)
Variable uuid4_hex : nat -> string.

Definition uuid4 : M FS string :=
  fun w => (Return (uuid4_hex (w_uuids w)),
            mkWorld (w_fs w) (w_stdout w) (w_stderr w) (S (w_uuids w)) (w_calls w)).

(** [src.name + f".renametmp-{u}"]. *)
Definition temp_name (src : Path) (u : string) : string :=
  (name src ++ ".renametmp-" ++ u)%string.

Definition with_name_ (p : Path) (n : string) : M FS Path :=
  match with_name p n with
  | Some q => ret q
  | None => raise (ValueError "path has an empty name")
  end.

(** [srcs = set([src.resolve() for src, _ in mapping])]. *)
Definition resolved_sources (fs : FS) (mapping : list (Path * Path)) : list Path :=
  map (fun sd => fs_resolve fs (fst sd)) mapping.

(** [dst.exists() and dst.resolve() not in srcs and not force]. *)
Definition clobbers (fs : FS) (srcs : list Path) (force : bool) (dst : Path) : bool :=
  (fs_exists fs dst && negb (path_in (fs_resolve fs dst) srcs) && negb force)%bool.

(** The pre-flight loop over the destinations. *)
Fixpoint check_destinations (srcs : list Path) (force : bool)
  (mapping : list (Path * Path)) : M FS unit :=
  match mapping with
  | [] => ret tt
  | (_, dst) :: rest =>
      fs <- get_fs ;;
      if clobbers fs srcs force dst
      then raise (RuntimeError
                    ("Destination " ++ path_str dst
                       ++ " already exists and --force not given"))
      else check_destinations srcs force rest
  end.

Fixpoint print_mapping (mapping : list (Path * Path)) : M FS unit :=
  match mapping with
  | [] => ret tt
  | (src, dst) :: rest =>
      print (Line (path_str src ++ " -> " ++ path_str dst)) ;;
      print_mapping rest
  end.

(** Phase 1: every source to a temporary name beside it. *)
Fixpoint phase1 (mapping temp_map : list (Path * Path)) : M FS (list (Path * Path)) :=
  match mapping with
  | [] => ret temp_map
  | (src, dst) :: rest =>
      u <- uuid4 ;;
      temp <- with_name_ src (temp_name src u) ;;
      rename src temp ;;
      phase1 rest (temp_map ++ [(temp, dst)])
  end.

(** One turn of the second loop, up to [succeeded += 1]. *)
Definition phase2_step (srcs : list Path) (force : bool) (temp dst : Path) : M FS unit :=
  fs <- get_fs ;;
  if clobbers fs srcs force dst
  then raise (RuntimeError ("Destination " ++ path_str dst ++ " exists; aborting"))
  else
    mkdir (parent dst) ;;
    rename temp dst.

(** Phase 2 under [try]: the value of [succeeded] when the loop ends and
    the exception that ended it, if any. *)
Fixpoint phase2 (srcs : list Path) (force : bool) (temp_map : list (Path * Path))
  (succeeded : Z) : M FS (Z * option exn) :=
  match temp_map with
  | [] => ret (succeeded, None)
  | (temp, dst) :: rest =>
      r <- attempt (phase2_step srcs force temp dst) ;;
      match r with
      | inr exc => ret (succeeded, Some exc)
      | inl _ => phase2 srcs force rest (succeeded + 1)
      end
  end.

(** The whole [try] block. *)
Definition two_phase (srcs : list Path) (force : bool) (mapping : list (Path * Path))
  : M FS (Z * option exn) :=
  r <- attempt (phase1 mapping []) ;;
  match r with
  | inr exc => ret (0, Some exc)
  | inl temp_map => phase2 srcs force temp_map 0
  end.

(** [perform_renames(mapping, dry_run, force)], returning
    [(succeeded, failed)]. *)
Definition perform_renames (mapping : list (Path * Path)) (dry_run force : bool)
  : M FS (Z * Z) :=
  let dsts := map snd mapping in
  if has_duplicates dsts
  then raise (RuntimeError
                "Duplicate destination filenames detected; aborting to avoid data loss.")
  else
    fs <- get_fs ;;
    let srcs := resolved_sources fs mapping in
    check_destinations srcs force mapping ;;
    if dry_run then
      print (Line "Dry-run mapping (no changes):") ;;
      print_mapping mapping ;;
      ret (0, 0)
    else
      r <- two_phase srcs force mapping ;;
      match r with
      | (succeeded, Some exc) =>
          eprint (Line ("Rename failed: " ++ exn_str exc)) ;;
          ret (succeeded, Py.len mapping - succeeded)
      | (succeeded, None) => ret (succeeded, 0)
      end.

(** *** The calls of a live run, for the statements about its trace *)

(** The temporary path of [src] for the identifier [u]
    ([src.with_name(src.name + ".renametmp-" + u)]); [src] itself stands
    in where [with_name] raises, and no call is made with it. *)
Definition temp_of (src : Path) (u : string) : Path :=
  match with_name src (temp_name src u) with
  | Some t => t
  | None => src
  end.

(** The triples [(src, temp, dst)] of a mapping when the next identifier
    drawn is the [i]-th. *)
Fixpoint planned (mapping : list (Path * Path)) (i : nat) : list (Path * Path * Path) :=
  match mapping with
  | [] => []
  | (src, dst) :: rest => (src, temp_of src (uuid4_hex i), dst) :: planned rest (S i)
  end.

(** The pair [(temp, dst)] that phase 1 appends to [temp_map]. *)
Definition td (x : Path * Path * Path) : Path * Path := (snd (fst x), snd x).

(** The call of phase 1 and the two calls of phase 2 for a triple. *)
Definition call1 (x : Path * Path * Path) : syscall :=
  SysRename (fst (fst x)) (snd (fst x)).

Definition calls2 (x : Path * Path * Path) : list syscall :=
  [SysMkdir (parent (snd x)); SysRename (snd (fst x)) (snd x)].

Definition ok (c : syscall) : syscall * bool := (c, true).

Definition ko (c : syscall) : syscall * bool := (c, false).

(** The file system after the successful calls of a trace. *)
Fixpoint replay (calls : list (syscall * bool)) (fs : FS) : option FS :=
  match calls with
  | [] => Some fs
  | (_, false) :: rest => replay rest fs
  | (SysRename a b, true) :: rest =>
      match fs_rename fs a b with
      | Some fs' => replay rest fs'
      | None => None
      end
  | (SysMkdir p, true) :: rest =>
      match fs_mkdir_parents fs p with
      | Some fs' => replay rest fs'
      | None => None
      end
  end.

End PerformRenames.

(** *** The modelled tree as the file system *)

#[export] Instance tree_fs : FileSystem node := {|
  fs_exists := exists_;
  fs_resolve := fun _ p => p;
  fs_rename := Fs.rename;
  fs_mkdir_parents := mkdir_parents
|}.

(** The parsed command line. *)
Record args : Type := mkArgs {
  a_root : Path;
  a_min_files : Z;
  a_json : bool;
  a_rename : bool;
  a_width : option Z;
  a_dry_run : bool;
  a_force : bool
}.

Section Main.

Variable uuid4_hex : nat -> string.

Definition lift {A : Type} (o : outcome A) : M node A :=
  match o with
  | Return a => ret a
  | Raise e => raise e
  end.

(** [', '.join(l)]. *)
Definition join_comma (l : list string) : string := String.concat ", " l.

(** The report mode: three lines for each flagged directory. *)
Fixpoint print_reports (results : list report) : M node unit :=
  match results with
  | [] => ret tt
  | r :: rest =>
      print (Line ("- " ++ path_str (r_dir r) ++ ": " ++ Py.str (r_count r)
                     ++ " files, range " ++ Py.str (r_min r) ++ "-" ++ Py.str (r_max r)
                     ++ ", suggested width=" ++ Py.str (r_desired_width r))) ;;
      print (Line ("  sample lex order : " ++ join_comma (r_lex_order_sample r))) ;;
      print (Line ("  sample numeric   : " ++ join_comma (r_numeric_order_sample r))) ;;
      print (Line "") ;;
      print_reports rest
  end.

(** The planner's inner loop: one pair for each entry whose name changes. *)
Fixpoint plan_mappings (fs : node) (entries : list entry) (width : Z)
  : list (Path * Path) :=
  match entries with
  | [] => []
  | e :: rest =>
      let src := e_path e in
      let dst := make_new_name src width in
      if negb (path_eqb (fs_resolve fs src) (fs_resolve fs dst))
      then (src, dst) :: plan_mappings fs rest width
      else plan_mappings fs rest width
  end.

Fixpoint print_pairs (mappings : list (Path * Path)) : M node unit :=
  match mappings with
  | [] => ret tt
  | (s, t) :: rest =>
      print (Line ("  " ++ name s ++ " -> " ++ name t)) ;;
      print_pairs rest
  end.

(** The planner's outer loop over the flagged directories. *)
Fixpoint plan_all (width_arg : option Z) (results : list report)
  (all_mappings : list (Path * Path)) : M node (list (Path * Path)) :=
  match results with
  | [] => ret all_mappings
  | r :: rest =>
      let d := r_dir r in
      fs <- get_fs ;;
      match iterdir fs d with
      | None => raise (OSError "iterdir")
      | Some listing =>
          let entries := numbered (list_files fs listing) in
          match Py.max (map e_val entries) with
          | None => plan_all width_arg rest all_mappings
          | Some max_n =>
              let width :=
                match width_arg with
                | Some w => w
                | None => Py.slen (Py.str max_n)
                end in
              let mappings := plan_mappings fs entries width in
              match mappings with
              | [] => plan_all width_arg rest all_mappings
              | _ :: _ =>
                  print (Line ("Directory: " ++ path_str d ++ " -> will rename "
                                 ++ Py.str (Py.len mappings) ++ " files (width="
                                 ++ Py.str width ++ ")")) ;;
                  print_pairs (firstn 10 mappings) ;;
                  (if 10 <? Py.len mappings
                   then print (Line ("  ... and " ++ Py.str (Py.len mappings - 10)
                                       ++ " more"))
                   else ret tt) ;;
                  plan_all width_arg rest (all_mappings ++ mappings)
              end
          end
      end
  end.

(** [main(argv)] after [parse_args]; the value returned is the exit
    code.  An exception that leaves [main] ends the process with a
    traceback. *)
Definition main (a : args) : M node Z :=
  fs <- get_fs ;;
  results <- lift (find_problem_dirs fs (a_root a) (a_min_files a)) ;;
  if a_json a then
    print (Json results) ;;
    ret 0
  else
    match results with
    | [] =>
        print (Line "No unpadded sequential numeric sequences found") ;;
        ret 0
    | _ :: _ =>
        if negb (a_rename a) then
          print (Line "Directories with unpadded sequential numeric filenames (need zero-padding):") ;;
          print_reports results ;;
          ret 0
        else
          all_mappings <- plan_all (a_width a) results [] ;;
          match all_mappings with
          | [] =>
              print (Line "No files require renaming") ;;
              ret 0
          | _ :: _ =>
              r <- attempt (perform_renames uuid4_hex all_mappings
                              (a_dry_run a) (a_force a)) ;;
              match r with
              | inr exc =>
                  eprint (Line ("Pre-check failed: " ++ exn_str exc)) ;;
                  ret 2
              | inl (succeeded, failed) =>
                  print (Line ("Renaming complete. succeeded=" ++ Py.str succeeded
                                 ++ ", failed=" ++ Py.str failed)) ;;
                  ret 0
              end
          end
    end.

End Main.

End Executor.

(* ================================================================== *)
(** ** make_cbz.py *)

Module MakeCbz.

Import Fs.

(** [len([f for f in filenames if not f.startswith('.')])]. *)
Definition visible_count (filenames : list string) : Z :=
  Py.len (filter (fun f => negb (Py.startswith_dot f)) filenames).

(** The inner walk that counts all the files under [cur_dir]. *)
Definition total_files (fs : node) (cur_dir : Path) : Z :=
  fold_left (fun total e => total + visible_count (snd e)) (os_walk fs cur_dir) 0.

(** The body of the outer loop: whether [cur_dir] is appended. *)
Definition keeps (fs : node) (include_empty : bool)
  (e : Path * list string * list string) : bool :=
  let cur_dir := fst (fst e) in
  let direct_files_count := visible_count (snd e) in
  if ((direct_files_count =? 0) && negb include_empty)%bool then false
  else total_files fs cur_dir =? direct_files_count.

(** [find_leaf_dirs(root, include_empty)]. *)
Definition find_leaf_dirs (fs : node) (root : Path) (include_empty : bool)
  : outcome (list Path) :=
  if negb (exists_ fs root)
  then Raise (FileNotFoundError ("Root path " ++ path_str root ++ " does not exist"))
  else Return (map (fun e => fst (fst e)) (filter (keeps fs include_empty) (os_walk fs root))).

(** *** Writing an archive *)

Import Exec.
Import (hints) Executor.
Local Open Scope exec_scope.

(** [open(p, 'wb')] and the writes up to [close]; [None] for the
    [OSError]: [p] must not be a directory, and its parent must be one. *)
Definition write_file (fs : node) (p : Path) (data : string) : option node :=
  match lookup fs p with
  | Some (Dir _) => None
  | _ => alter fs p (Some (File data))
  end.

(** [p.read_bytes()], for the paths that are files. *)
Definition read_file (fs : node) (p : Path) : string :=
  match lookup fs p with
  | Some (File data) => data
  | _ => EmptyString
  end.

(** [p.stat().st_size]. *)
Definition st_size (fs : node) (p : Path) : Z := Py.slen (read_file fs p).

(** The number of entries of a directory: how often the loop of
    [make_cbz_for_dir] can find its candidate taken. *)
Definition entries_count (fs : node) (d : Path) : nat :=
  match lookup fs d with
  | Some (Dir ch) => List.length ch
  | _ => O
  end.

(** [f"{base_name}_{counter}.cbz"]. *)
Definition numbered_name (base_name : string) (counter : Z) : string :=
  (base_name ++ "_" ++ Py.str counter ++ ".cbz")%string.

(** The loop [while candidate.exists()], for at most [fuel] turns. *)
Fixpoint next_candidate (fuel : nat) (fs : node) (dest_dir : Path) (base_name : string)
  (candidate : Path) (counter : Z) : option Path :=
  if negb (exists_ fs candidate) then Some candidate
  else
    match fuel with
    | O => None
    | S fuel' =>
        next_candidate fuel' fs dest_dir base_name
          (child dest_dir (numbered_name base_name counter)) (counter + 1)
    end.

(** The [k]-th name that the loop tries: [base.cbz], then [base_1.cbz],
    [base_2.cbz], ... *)
Definition candidate_name (base_name : string) (k : Z) : string :=
  if k =? 0 then (base_name ++ ".cbz")%string else numbered_name base_name k.

(** Nothing is lost from [fs] to [fs']: every file of [fs] is a file of
    [fs'] with the same content, every directory of [fs] is a directory of
    [fs']. *)
Definition preserved (fs fs' : node) : Prop :=
  (forall q data, lookup fs q = Some (File data) -> lookup fs' q = Some (File data))
  /\ (forall q, is_dir fs q = true -> is_dir fs' q = true).

(** [[p for p in d.iterdir() if p.is_file() and not
    p.name.startswith('.')]], in the order of the listing. *)
Definition visible_files (d : Path) : M node (list Path) :=
  fs <- get_fs ;;
  match iterdir fs d with
  | None => raise (OSError "iterdir")
  | Some listing => ret (filter (FindUnpadded.visible_file fs) listing)
  end.

(** The archive opened for writing, and closed. *)
Definition write (p : Path) (data : string) : M node unit :=
  fun w =>
    match write_file (w_fs w) p data with
    | Some fs' =>
        (Return tt, mkWorld fs' (w_stdout w) (w_stderr w) (w_uuids w) (w_calls w))
    | None => (Raise (OSError "open"), w)
    end.

Section Archive.

(** The bytes that [zipfile] writes for the members [(arcname, data)], in
    their order; the encoding itself is not modelled. *)
Variable zip_bytes : list (string * string) -> string.

(** The loop [for f in files: zf.write(f, arcname=f.name)]. *)
Fixpoint zip_members (files : list Path) (members : list (string * string))
  : M node (list (string * string)) :=
  match files with
  | [] => ret members
  | f :: rest =>
      fs <- get_fs ;;
      zip_members rest (members ++ [(name f, read_file fs f)])
  end.

(** [make_cbz_for_dir(src_dir, dest_dir)].  The loop gets as many turns as
    the destination has entries; it never needs more
    ([next_candidate_first_free]). *)
Definition make_cbz_for_dir (src_dir dest_dir : Path) : M node Path :=
  let base_name :=
    match name src_dir with
    | EmptyString => "root"
    | n => n
    end in
  fs <- get_fs ;;
  match next_candidate (entries_count fs dest_dir) fs dest_dir base_name
          (child dest_dir (base_name ++ ".cbz")) 1 with
  | None => raise (RuntimeError "no free archive name")
  | Some candidate =>
      mkdir dest_dir ;;
      files <- visible_files src_dir ;;
      write candidate EmptyString ;;
      members <- zip_members files [] ;;
      write candidate (zip_bytes members) ;;
      ret candidate
  end.

(** The parsed command line of make_cbz.py. *)
Record args : Type := mkArgs {
  c_root : Path;
  c_output : option Path;
  c_include_empty : bool;
  c_dry_run : bool;
  c_verbose : bool
}.

Fixpoint print_files (files : list Path) : M node unit :=
  match files with
  | [] => ret tt
  | f :: rest =>
      fs <- get_fs ;;
      print (Line ("    - " ++ name f ++ " (" ++ Py.str (st_size fs f) ++ " bytes)")) ;;
      print_files rest
  end.

(** The three kinds of lines printed with [--verbose]. *)
Definition print_details (files : list Path) (total_bytes : Z) : M node unit :=
  print (Line ("  Files (" ++ Py.str (Py.len files) ++ "):")) ;;
  print_files files ;;
  print (Line ("  Total bytes: " ++ Py.str total_bytes)).

(** The loop of [main] over the leaf directories. *)
Fixpoint archive_all (a : args) (leafs created : list Path) : M node (list Path) :=
  match leafs with
  | [] => ret created
  | d :: rest =>
      let dest_dir :=
        match c_output a with
        | Some output => output
        | None => parent d
        end in
      files <- visible_files d ;;
      fs <- get_fs ;;
      let total_bytes :=
        match files with
        | [] => 0
        | _ => Py.sum (map (st_size fs) files)
        end in
      if c_dry_run a then
        print (Line ("Would create archive for: " ++ path_str d ++ " -> "
                       ++ path_str (child dest_dir (name d ++ ".cbz")))) ;;
        (if c_verbose a then print_details files total_bytes else ret tt) ;;
        archive_all a rest created
      else
        (if c_verbose a then
           print (Line ("Creating archive for: " ++ path_str d ++ " -> "
                          ++ path_str (child dest_dir (name d ++ ".cbz")))) ;;
           print_details files total_bytes
         else ret tt) ;;
        r <- attempt (make_cbz_for_dir d dest_dir) ;;
        match r with
        | inl dest =>
            print (Line ("Created: " ++ path_str dest ++ "  (from " ++ path_str d ++ ")")) ;;
            archive_all a rest (created ++ [dest])
        | inr exc =>
            eprint (Line ("Failed to create archive for " ++ path_str d ++ ": "
                            ++ exn_str exc)) ;;
            archive_all a rest created
        end
  end.

(** [main(argv)] of make_cbz.py after [parse_args]; the value returned is
    the exit code. *)
Definition main (a : args) : M node Z :=
  let root := c_root a in
  fs <- get_fs ;;
  if negb (exists_ fs root) then
    eprint (Line ("Root path '" ++ path_str root ++ "' does not exist")) ;;
    ret 2
  else
    match c_output a with
    | Some output => mkdir output
    | None => ret tt
    end ;;
    fs1 <- get_fs ;;
    leafs <- Executor.lift (find_leaf_dirs fs1 root (c_include_empty a)) ;;
    match leafs with
    | [] =>
        print (Line ("No leaf directories with files found under '" ++ path_str root
                       ++ "'. Nothing to do.")) ;;
        ret 0
    | _ :: _ =>
        created <- archive_all a leafs [] ;;
        match c_output a with
        | Some output =>
            print (Line ("Done. Created " ++ Py.str (Py.len created)
                           ++ " .cbz file(s) in '" ++ path_str output ++ "'"))
        | None =>
            print (Line ("Done. Created " ++ Py.str (Py.len created)
                           ++ " .cbz file(s) alongside their source parent folders"))
        end ;;
        ret 0
    end.

End Archive.

End MakeCbz.

(* ================================================================== *)
(** ** Concrete inputs for the examples *)

Module Sample.

Import Fs.

(** A deterministic supply of identifiers. *)
Definition uuid (n : nat) : string := Py.str (Z.of_nat n).

(** A world with nothing printed and no call made yet. *)
Definition fresh (fs : node) : world node := mkWorld fs [] [] 0%nat [].

(** The line feed, and a name of two lines: [1], then [2]. *)
Definition LF : ascii := "010"%char.

Definition two_lines : string := String "1" (String LF "2").

(** A directory [d] under the root that holds the given files. *)
Definition flat (names : list string) : node :=
  Dir [("d", Dir (map (fun n => (n, File "x")) names))].

(** A readable stand-in for the bytes of an archive. *)
Definition zip (members : list (string * string)) : string :=
  String.concat ";" (map (fun m => (fst m ++ "=" ++ snd m)%string) members).

(** A library with one chapter of two pages and a hidden file, and an
    archive of an earlier run beside it. *)
Definition library : node :=
  Dir [("lib", Dir [("ch1", Dir [("p1.png", File "a"); (".thumbs", File "t");
                                  ("p2.png", File "b")]);
                    ("ch1.cbz", File "old")])].

End Sample.

(* ================================================================== *)
(** * Properties *)

Import Fs FindUnpadded Exec Executor.

(** ** The examples of the repository's tests *)

Example extract_number_token_examples :
  extract_number_token "img001" = Some (1, "001")
  /\ extract_number_token "frame_12_extra" = Some (12, "12")
  /\ extract_number_token "no_digits" = None.
Proof. repeat split; reflexivity. Qed.

Example str_examples : Py.str 0 = "0" /\ Py.str 10 = "10" /\ Py.str (-5) = "-5".
Proof. repeat split; reflexivity. Qed.

(** [test_make_new_name_and_perform_renames]: the dry run returns
    [(0, 0)] and changes nothing; the live run renames the three files,
    the one whose name does not change included. *)
Example perform_renames_test :
  let fs := Sample.flat ["img1.jpg"; "img2.jpg"; "img10.jpg"] in
  let mapping :=
    map (fun n => (["d"; n], make_new_name ["d"; n] 2))
        ["img1.jpg"; "img2.jpg"; "img10.jpg"] in
  let dry := perform_renames Sample.uuid mapping true false (Sample.fresh fs) in
  let live := perform_renames Sample.uuid mapping false false (Sample.fresh fs) in
  fst dry = Return (0, 0)
  /\ w_fs (snd dry) = fs
  /\ fst live = Return (3, 0)
  /\ w_fs (snd live) = Sample.flat ["img01.jpg"; "img02.jpg"; "img10.jpg"].
Proof. repeat split; reflexivity. Qed.

(** ** The executor: pre-flight validation and dry run *)

Lemma nodup_length_le {A : Type} (dec : forall x y : A, {x = y} + {x <> y}) (l : list A) :
  (List.length (nodup dec l) <= List.length l)%nat.
Proof.
  induction l as [|x l IH]; simpl; [lia|].
  destruct (in_dec dec x l); simpl; lia.
Qed.

Lemma nodup_length_NoDup {A : Type} (dec : forall x y : A, {x = y} + {x <> y}) (l : list A) :
  List.length (nodup dec l) = List.length l <-> NoDup l.
Proof.
  split.
  - induction l as [|x l IH]; simpl; intros E; [constructor|].
    pose proof (nodup_length_le dec l) as Hle.
    destruct (in_dec dec x l) as [Hin|Hnin]; simpl in E; [lia|].
    constructor; [exact Hnin|]. apply IH. lia.
  - intros ND. now rewrite (nodup_fixed_point dec ND).
Qed.

Lemma has_duplicates_false (dsts : list Path) :
  has_duplicates dsts = false <-> NoDup dsts.
Proof.
  unfold has_duplicates, Py.len.
  rewrite negb_false_iff, Z.eqb_eq, <- (nodup_length_NoDup path_dec).
  split; intros E; [symmetry; now apply Nat2Z.inj | now rewrite E].
Qed.

Lemma has_duplicates_true (dsts : list Path) :
  has_duplicates dsts = true <-> ~ NoDup dsts.
Proof.
  rewrite <- has_duplicates_false.
  destruct (has_duplicates dsts); intuition congruence.
Qed.

Lemma path_in_spec (p : Path) (l : list Path) : path_in p l = true <-> In p l.
Proof.
  unfold path_in. destruct (in_dec path_dec p l); intuition congruence.
Qed.

Section ExecutorFacts.
Context {FS : Type} `{FileSystem FS}.
Variable uuid4_hex : nat -> string.

(** The loop over the destinations only reads the file system. *)
Lemma check_destinations_passes srcs force mapping (w : world FS) :
  (forall sd, In sd mapping -> clobbers (w_fs w) srcs force (snd sd) = false) ->
  check_destinations srcs force mapping w = (Return tt, w).
Proof.
  induction mapping as [|[src dst] rest IH]; intros Hall; simpl; [reflexivity|].
  unfold bind, get_fs.
  pose proof (Hall (src, dst) (or_introl eq_refl)) as E. simpl in E. rewrite E.
  apply IH. intros sd Hin. apply Hall. now right.
Qed.

Lemma check_destinations_rejects srcs force mapping (w : world FS) :
  (exists sd, In sd mapping /\ clobbers (w_fs w) srcs force (snd sd) = true) ->
  exists msg, check_destinations srcs force mapping w = (Raise (RuntimeError msg), w).
Proof.
  induction mapping as [|[src dst] rest IH]; intros (sd & Hin & Hc); simpl.
  - destruct Hin.
  - unfold bind, get_fs.
    destruct (clobbers (w_fs w) srcs force dst) eqn:E.
    + eexists. reflexivity.
    + apply IH. destruct Hin as [<-|Hin]; [simpl in Hc; congruence|].
      exists sd. now split.
Qed.

Lemma check_destinations_cases srcs force (mapping : list (Path * Path)) (w : world FS) :
  (forall sd, In sd mapping -> clobbers (w_fs w) srcs force (snd sd) = false)
  \/ (exists sd, In sd mapping /\ clobbers (w_fs w) srcs force (snd sd) = true).
Proof.
  induction mapping as [|sd rest IH].
  - left. intros sd [].
  - destruct (clobbers (w_fs w) srcs force (snd sd)) eqn:E.
    + right. exists sd. split; [now left | exact E].
    + destruct IH as [IH|(sd' & Hin & Hc)].
      * left. intros x [<-|Hx]; auto.
      * right. exists sd'. split; [now right | exact Hc].
Qed.

Lemma print_mapping_frame mapping (w : world FS) :
  exists out,
    print_mapping mapping w
    = (Return tt, mkWorld (w_fs w) (w_stdout w ++ out) (w_stderr w) (w_uuids w) (w_calls w)).
Proof.
  revert w. induction mapping as [|[src dst] rest IH]; intros w; simpl.
  - exists []. rewrite app_nil_r. now destruct w.
  - unfold bind, print.
    match goal with
    | |- context [print_mapping rest ?w'] => destruct (IH w') as (out & E); rewrite E
    end.
    simpl. eexists. rewrite <- app_assoc. reflexivity.
Qed.

(** The mapping passes the pre-flight validation in a given file system. *)
Lemma preflight_passes_run mapping dry_run force (w : world FS) :
  NoDup (map snd mapping) ->
  (forall sd, In sd mapping ->
     clobbers (w_fs w) (resolved_sources (w_fs w) mapping) force (snd sd) = false) ->
  perform_renames uuid4_hex mapping dry_run force w
  = if dry_run then
      (print (Line "Dry-run mapping (no changes):") ;;
       print_mapping mapping ;;
       ret (0, 0))%exec w
    else
      (r <- two_phase uuid4_hex (resolved_sources (w_fs w) mapping) force mapping ;;
       match r with
       | (succeeded, Some exc) =>
           eprint (Line ("Rename failed: " ++ exn_str exc)) ;;
           ret (succeeded, Py.len mapping - succeeded)
       | (succeeded, None) => ret (succeeded, 0)
       end)%exec w.
Proof.
  intros ND Hok. unfold perform_renames.
  apply has_duplicates_false in ND. rewrite ND.
  unfold bind at 1. unfold get_fs at 1.
  unfold bind at 1. rewrite (check_destinations_passes _ _ _ _ Hok).
  destruct dry_run; reflexivity.
Qed.

Lemma dry_run_passes mapping force (w : world FS) :
  NoDup (map snd mapping) ->
  (forall sd, In sd mapping ->
     clobbers (w_fs w) (resolved_sources (w_fs w) mapping) force (snd sd) = false) ->
  exists out,
    perform_renames uuid4_hex mapping true force w
    = (Return (0, 0),
       mkWorld (w_fs w) (w_stdout w ++ out) (w_stderr w) (w_uuids w) (w_calls w)).
Proof.
  intros ND Hok. rewrite (preflight_passes_run mapping true force w ND Hok).
  unfold bind, print.
  match goal with
  | |- context [print_mapping mapping ?w'] =>
      destruct (print_mapping_frame mapping w') as (out & E); rewrite E
  end.
  simpl. eexists. rewrite <- app_assoc. reflexivity.
Qed.

Lemma preflight_fails_run mapping dry_run force (w : world FS) :
  ~ NoDup (map snd mapping)
  \/ (exists sd, In sd mapping /\
        clobbers (w_fs w) (resolved_sources (w_fs w) mapping) force (snd sd) = true) ->
  exists msg,
    perform_renames uuid4_hex mapping dry_run force w = (Raise (RuntimeError msg), w).
Proof.
  intros Hbad. unfold perform_renames.
  destruct (has_duplicates (map snd mapping)) eqn:Hd.
  - eexists. reflexivity.
  - destruct Hbad as [ND|Hc].
    + apply has_duplicates_true in ND. congruence.
    + unfold bind at 1. unfold get_fs at 1. unfold bind at 1.
      destruct (check_destinations_rejects _ _ _ w Hc) as (msg & E).
      rewrite E. now exists msg.
Qed.

End ExecutorFacts.

Section PreflightAndDryRun.
Context {FS : Type} `{FileSystem FS}.
Variable uuid4_hex : nat -> string.

(** C4.  A mapping with two pairs that share a destination, or (without
    [force]) with a destination that exists and is not among the resolved
    sources, makes [perform_renames] raise a [RuntimeError] in its
    pre-flight validation, whatever [dry_run] is: the world it leaves is
    the world it was given (same file system, no call made, nothing
    printed). *)
Theorem preflight_rejects_unmutated
  (mapping : list (Path * Path)) (dry_run force : bool) (w : world FS) :
  (~ NoDup (map snd mapping)
   \/ (force = false
       /\ exists src dst,
            In (src, dst) mapping
            /\ fs_exists (w_fs w) dst = true
            /\ ~ In (fs_resolve (w_fs w) dst) (resolved_sources (w_fs w) mapping))) ->
  exists msg,
    perform_renames uuid4_hex mapping dry_run force w = (Raise (RuntimeError msg), w).
Proof.
  intros [ND|(Hf & src & dst & Hin & Hex & Hnot)];
    apply preflight_fails_run; [now left|right].
  exists (src, dst). split; [exact Hin|].
  unfold clobbers. simpl. rewrite Hex, Hf.
  destruct (path_in (fs_resolve (w_fs w) dst) (resolved_sources (w_fs w) mapping)) eqn:E;
    [|reflexivity].
  apply path_in_spec in E. contradiction.
Qed.

(** C5 (amended).  A dry run never changes the file system and makes no
    call.  It returns [(0, 0)] exactly when the mapping passes the
    pre-flight validation; otherwise it raises the [RuntimeError] of the
    validation and leaves the world untouched. *)
Theorem dry_run_frame (mapping : list (Path * Path)) (force : bool) (w : world FS) :
  let r := perform_renames uuid4_hex mapping true force w in
  w_fs (snd r) = w_fs w
  /\ w_calls (snd r) = w_calls w
  /\ match fst r with
     | Return counts =>
         counts = (0, 0)
         /\ NoDup (map snd mapping)
         /\ forall sd, In sd mapping ->
              clobbers (w_fs w) (resolved_sources (w_fs w) mapping) force (snd sd) = false
     | Raise e =>
         (exists msg, e = RuntimeError msg)
         /\ snd r = w
         /\ (~ NoDup (map snd mapping)
             \/ exists sd, In sd mapping /\
                  clobbers (w_fs w) (resolved_sources (w_fs w) mapping) force (snd sd) = true)
     end.
Proof.
  intros r. subst r.
  destruct (has_duplicates (map snd mapping)) eqn:Hd.
  - apply has_duplicates_true in Hd.
    destruct (preflight_fails_run uuid4_hex mapping true force w (or_introl Hd)) as (msg & E).
    rewrite E. simpl. repeat split; eauto.
  - apply has_duplicates_false in Hd.
    destruct (check_destinations_cases (resolved_sources (w_fs w) mapping) force mapping w)
      as [Hok|Hbad].
    + destruct (dry_run_passes uuid4_hex mapping force w Hd Hok) as (out & E).
      rewrite E. simpl. repeat split; auto.
    + destruct (preflight_fails_run uuid4_hex mapping true force w (or_intror Hbad))
        as (msg & E).
      rewrite E. simpl. repeat split; eauto.
Qed.

End PreflightAndDryRun.

Lemma preflight_rejects_unmutated_witness :
  exists msg,
    perform_renames Sample.uuid [(["d"; "a"], ["d"; "c"]); (["d"; "b"], ["d"; "c"])]
      false false (Sample.fresh (Sample.flat ["a"; "b"]))
    = (Raise (RuntimeError msg), Sample.fresh (Sample.flat ["a"; "b"])).
Proof.
  apply (preflight_rejects_unmutated Sample.uuid
           [(["d"; "a"], ["d"; "c"]); (["d"; "b"], ["d"; "c"])]
           false false (Sample.fresh (Sample.flat ["a"; "b"]))).
  left. intros ND. inversion ND as [|x l Hnin _]. apply Hnin. left. reflexivity.
Defined.

(** C5, as stated, fails: a dry run over a mapping with a duplicate
    destination raises instead of returning [(0, 0)]. *)
Lemma dry_run_can_raise :
  fst (perform_renames Sample.uuid
         [(["d"; "a"], ["d"; "c"]); (["d"; "b"], ["d"; "c"])]
         true false (Sample.fresh (Sample.flat ["a"; "b"])))
  = Raise (RuntimeError
             "Duplicate destination filenames detected; aborting to avoid data loss.").
Proof. reflexivity. Qed.

(** ** The executor: a live run *)

Section LiveRun.
Context {FS : Type} `{FileSystem FS}.
Variable uuid4_hex : nat -> string.

Local Arguments temp_name : simpl never.

Lemma not_ko_in_ok (c : syscall) (l : list syscall) : ~ In (ko c) (map ok l).
Proof.
  intros Hin. apply in_map_iff in Hin. destruct Hin as (x & E & _).
  unfold ok, ko in E. congruence.
Qed.

Lemma replay_app (l1 l2 : list (syscall * bool)) (fs fs1 : FS) :
  replay l1 fs = Some fs1 -> replay (l1 ++ l2) fs = replay l2 fs1.
Proof.
  revert fs. induction l1 as [|[c b] l1 IH]; intros fs E; simpl in *.
  - congruence.
  - destruct c as [x y|p]; destruct b; try (now apply IH).
    + destruct (fs_rename fs x y); [now apply IH | discriminate].
    + destruct (fs_mkdir_parents fs p); [now apply IH | discriminate].
Qed.

(** Phase 1 renames the sources in order and stops at the first call that
    raises. *)
Lemma phase1_run mapping :
  forall tm (w : world FS),
    let P := planned uuid4_hex mapping (w_uuids w) in
    match phase1 uuid4_hex mapping tm w with
    | (Return tm', w') =>
        tm' = tm ++ map td P
        /\ w_calls w' = w_calls w ++ map ok (map call1 P)
        /\ replay (map ok (map call1 P)) (w_fs w) = Some (w_fs w')
    | (Raise e, w') =>
        exists k,
          (k < List.length mapping)%nat
          /\ replay (map ok (map call1 (firstn k P))) (w_fs w) = Some (w_fs w')
          /\ (w_calls w' = w_calls w ++ map ok (map call1 (firstn k P))
              \/ exists x,
                   nth_error P k = Some x
                   /\ w_calls w'
                      = w_calls w ++ map ok (map call1 (firstn k P)) ++ [ko (call1 x)])
    end.
Proof.
  induction mapping as [|[s d] rest IH]; intros tm w; simpl.
  - unfold ret. rewrite !app_nil_r. auto.
  - unfold bind at 1. unfold uuid4 at 1. unfold bind at 1.
    unfold with_name_, temp_of.
    destruct (with_name s (temp_name s (uuid4_hex (w_uuids w)))) as [t|] eqn:Et.
    + unfold ret at 1. unfold bind at 1. unfold rename at 1, sys. simpl.
      destruct (fs_rename (w_fs w) s t) as [fs1|] eqn:Er.
      * match goal with
        | |- context [phase1 uuid4_hex rest ?tm1 ?w1] =>
            specialize (IH tm1 w1); destruct (phase1 uuid4_hex rest tm1 w1) as [[tm'|e] w']
        end; simpl in IH.
        -- destruct IH as (Etm & Ec & Ep). split; [|split].
           ++ rewrite Etm, <- app_assoc. reflexivity.
           ++ rewrite Ec, <- app_assoc. reflexivity.
           ++ exact Ep.
        -- destruct IH as (k & Hk & Ep & Hc). exists (S k). simpl. rewrite ?Er.
           split; [lia|]. split; [exact Ep|].
           destruct Hc as [Ec|(x & Ex & Ec)].
           ++ left. rewrite Ec, <- app_assoc. reflexivity.
           ++ right. exists x. split; [exact Ex|]. rewrite Ec, <- app_assoc. reflexivity.
      * exists 0%nat. simpl. split; [lia|]. split; [reflexivity|].
        right. eexists. split; [reflexivity|]. reflexivity.
    + unfold raise. exists 0%nat. simpl. split; [lia|]. split; [reflexivity|].
      left. now rewrite app_nil_r.
Qed.

(** Phase 2 counts the pairs it completes and stops at the first step that
    raises: the re-check, [mkdir], or the rename itself. *)
Lemma phase2_run srcs force (X : list (Path * Path * Path)) :
  forall succeeded (w : world FS),
    match phase2 srcs force (map td X) succeeded w with
    | (Return (s', None), w') =>
        s' = succeeded + Py.len X
        /\ w_calls w' = w_calls w ++ map ok (flat_map calls2 X)
        /\ replay (map ok (flat_map calls2 X)) (w_fs w) = Some (w_fs w')
    | (Return (s', Some e), w') =>
        exists j x,
          nth_error X j = Some x
          /\ s' = succeeded + Z.of_nat j
          /\ let done := map ok (flat_map calls2 (firstn j X)) in
             (w_calls w' = w_calls w ++ done
              /\ replay done (w_fs w) = Some (w_fs w'))
             \/ (w_calls w' = w_calls w ++ done ++ [ko (SysMkdir (parent (snd x)))]
                 /\ replay done (w_fs w) = Some (w_fs w'))
             \/ (w_calls w'
                 = w_calls w ++ done ++ [ok (SysMkdir (parent (snd x)));
                                         ko (SysRename (snd (fst x)) (snd x))]
                 /\ replay (done ++ [ok (SysMkdir (parent (snd x)))]) (w_fs w)
                    = Some (w_fs w'))
    | (Raise _, _) => False
    end.
Proof.
  induction X as [|[[s t] d] X IH]; intros succeeded w; simpl.
  - unfold ret, Py.len. simpl. rewrite app_nil_r. split; [lia|auto].
  - unfold bind at 1. unfold attempt at 1. unfold phase2_step.
    unfold bind at 1. unfold get_fs at 1.
    destruct (clobbers (w_fs w) srcs force d) eqn:Ec.
    + unfold raise, ret. exists 0%nat, (s, t, d). simpl.
      split; [reflexivity|]. split; [lia|]. left. now rewrite app_nil_r.
    + unfold bind at 1. unfold mkdir at 1, sys.
      destruct (fs_mkdir_parents (w_fs w) (parent d)) as [fs1|] eqn:Em.
      * unfold rename, sys. simpl.
        destruct (fs_rename fs1 t d) as [fs2|] eqn:Er.
        -- match goal with
           | |- context [phase2 srcs force (map td X) ?s1 ?w1] =>
               specialize (IH s1 w1);
               destruct (phase2 srcs force (map td X) s1 w1) as [[[s' [e|]]|e] w']
           end; simpl in IH; [| |contradiction].
           ++ destruct IH as (j & x & Ex & Es & Hc). exists (S j), x. simpl.
              split; [exact Ex|]. split; [lia|]. rewrite ?Em, ?Er.
              destruct Hc as [(Ecalls & Ep)|[(Ecalls & Ep)|(Ecalls & Ep)]].
              ** left. split; [|exact Ep]. rewrite Ecalls, <- !app_assoc. reflexivity.
              ** right. left. split; [|exact Ep]. rewrite Ecalls, <- !app_assoc. reflexivity.
              ** right. right. split; [|exact Ep]. rewrite Ecalls, <- !app_assoc. reflexivity.
           ++ destruct IH as (Es & Ecalls & Ep). rewrite ?Em, ?Er.
              split; [|split].
              ** unfold Py.len in *. simpl List.length. lia.
              ** rewrite Ecalls, <- !app_assoc. reflexivity.
              ** exact Ep.
        -- unfold ret. exists 0%nat, (s, t, d). simpl.
           split; [reflexivity|]. split; [lia|]. right. right.
           rewrite ?Em. split; [now rewrite <- app_assoc | reflexivity].
      * unfold ret. exists 0%nat, (s, t, d). simpl.
        split; [reflexivity|]. split; [lia|]. right. left. split; reflexivity.
Qed.

End LiveRun.

Section LiveFailure.
Context {FS : Type} `{FileSystem FS}.
Variable uuid4_hex : nat -> string.

Lemma failed_call_is_last (c c' : syscall) (l0 L : list (syscall * bool)) (l : list syscall) :
  L = l0 ++ map ok l ++ [ko c'] -> In (ko c) L -> ~ In (ko c) l0 -> c = c'.
Proof.
  intros -> Hin Hnot. apply in_app_or in Hin. destruct Hin as [Hin|Hin]; [contradiction|].
  apply in_app_or in Hin. destruct Hin as [Hin|[E|[]]].
  - now apply not_ko_in_ok in Hin.
  - unfold ko in E. congruence.
Qed.

Lemma no_failed_call (c : syscall) (l0 L : list (syscall * bool)) (l : list syscall) :
  L = l0 ++ map ok l -> In (ko c) L -> ~ In (ko c) l0 -> False.
Proof.
  intros -> Hin Hnot. apply in_app_or in Hin. destruct Hin as [Hin|Hin]; [contradiction|].
  now apply not_ko_in_ok in Hin.
Qed.

Ltac list_eq := rewrite ?map_app, <- ?app_assoc; reflexivity.

(** C6.  In a live run, when a rename call raises (in phase 1 or in
    phase 2), that call is the last one [perform_renames] makes: the calls
    before it all succeeded and are the planned ones in order, none follows
    it (no rollback), the file system is left as those calls made it, and
    the value returned is [(succeeded, len(mapping) - succeeded)] where
    [succeeded] counts the pairs whose second rename completed: [0] for a
    failure in phase 1, the index of the failing pair in phase 2. *)
Theorem live_rename_failure_stops
  (mapping : list (Path * Path)) (force : bool) (w : world FS) (a b : Path) :
  let r := perform_renames uuid4_hex mapping false force w in
  let P := planned uuid4_hex mapping (w_uuids w) in
  In (ko (SysRename a b)) (w_calls (snd r)) ->
  ~ In (ko (SysRename a b)) (w_calls w) ->
  exists succeeded done,
    fst r = Return (succeeded, Py.len mapping - succeeded)
    /\ w_calls (snd r) = w_calls w ++ map ok done ++ [ko (SysRename a b)]
    /\ replay (map ok done) (w_fs w) = Some (w_fs (snd r))
    /\ ((exists k x,
           nth_error P k = Some x
           /\ call1 x = SysRename a b
           /\ succeeded = 0
           /\ done = map call1 (firstn k P))
        \/ (exists j x,
              nth_error P j = Some x
              /\ SysRename (snd (fst x)) (snd x) = SysRename a b
              /\ succeeded = Z.of_nat j
              /\ done = map call1 P ++ flat_map calls2 (firstn j P)
                          ++ [SysMkdir (parent (snd x))])).
Proof.
  intros r P.
  assert (Er : r = perform_renames uuid4_hex mapping false force w) by reflexivity.
  clearbody r. intros Hin Hnew.
  destruct (has_duplicates (map snd mapping)) eqn:Hd.
  { apply has_duplicates_true in Hd.
    destruct (preflight_fails_run uuid4_hex mapping false force w (or_introl Hd)) as (msg & E).
    rewrite E in Er. subst r. simpl in Hin. contradiction. }
  apply has_duplicates_false in Hd.
  destruct (check_destinations_cases (resolved_sources (w_fs w) mapping) force mapping w)
    as [Hok|Hbad].
  2:{ destruct (preflight_fails_run uuid4_hex mapping false force w (or_intror Hbad))
        as (msg & E).
      rewrite E in Er. subst r. simpl in Hin. contradiction. }
  rewrite (preflight_passes_run uuid4_hex mapping false force w Hd Hok) in Er.
  unfold bind at 1 in Er. unfold two_phase in Er. unfold bind at 1 in Er.
  unfold attempt in Er.
  pose proof (phase1_run uuid4_hex mapping [] w) as H1. simpl in H1. fold P in H1.
  destruct (phase1 uuid4_hex mapping [] w) as [[tm|e] w1].
  - destruct H1 as (Etm & Ec1 & Ep1). subst tm.
    pose proof (phase2_run (resolved_sources (w_fs w) mapping) force P 0 w1) as H2.
    destruct (phase2 (resolved_sources (w_fs w) mapping) force (map td P) 0 w1)
      as [[[s' [e|]]|e] w2]; [| |contradiction].
    + destruct H2 as (j & x & Ex & Es & Hc).
      unfold bind, eprint, ret in Er. subst r. simpl in Hin |- *.
      destruct Hc as [(Ec2 & Ep2)|[(Ec2 & Ep2)|(Ec2 & Ep2)]]; rewrite Ec2, Ec1 in Hin.
      * exfalso.
        apply (no_failed_call _ (w_calls w) _
                 (map call1 P ++ flat_map calls2 (firstn j P))) in Hin;
          [exact Hin | list_eq | exact Hnew].
      * exfalso.
        apply (failed_call_is_last _ (SysMkdir (parent (snd x))) (w_calls w) _
                 (map call1 P ++ flat_map calls2 (firstn j P))) in Hin;
          [discriminate | list_eq | exact Hnew].
      * assert (Heq : SysRename a b = SysRename (snd (fst x)) (snd x)).
        { apply (failed_call_is_last _ (SysRename (snd (fst x)) (snd x)) (w_calls w) _
                   (map call1 P ++ flat_map calls2 (firstn j P)
                      ++ [SysMkdir (parent (snd x))])) in Hin;
            [exact Hin | list_eq | exact Hnew]. }
        exists s', (map call1 P ++ flat_map calls2 (firstn j P)
                      ++ [SysMkdir (parent (snd x))]).
        split; [reflexivity|]. split; [|split].
        -- rewrite Ec2, Ec1, Heq. list_eq.
        -- rewrite !map_app. rewrite (replay_app _ _ _ _ Ep1). exact Ep2.
        -- right. exists j, x. repeat split; auto.
    + destruct H2 as (Es & Ec2 & Ep2).
      unfold ret in Er. subst r. simpl in Hin. rewrite Ec2, Ec1 in Hin.
      exfalso.
      apply (no_failed_call _ (w_calls w) _ (map call1 P ++ flat_map calls2 P)) in Hin;
        [exact Hin | list_eq | exact Hnew].
  - destruct H1 as (k & Hk & Ep1 & Hc).
    unfold bind, eprint, ret in Er. subst r. simpl in Hin |- *.
    destruct Hc as [Ec1|(x & Ex & Ec1)]; rewrite Ec1 in Hin.
    + exfalso.
      apply (no_failed_call _ (w_calls w) _ (map call1 (firstn k P))) in Hin;
        [exact Hin | list_eq | exact Hnew].
    + assert (Heq : SysRename a b = call1 x).
      { apply (failed_call_is_last _ (call1 x) (w_calls w) _ (map call1 (firstn k P))) in Hin;
          [exact Hin | list_eq | exact Hnew]. }
      exists 0, (map call1 (firstn k P)).
      split; [reflexivity|]. split; [|split].
      * rewrite Ec1, Heq. reflexivity.
      * exact Ep1.
      * left. exists k, x. repeat split; auto.
Qed.

End LiveFailure.

Lemma live_rename_failure_stops_witness :
  let mapping := [(["d"; "a"], ["d"; "b"]); (["d"; "zz"], ["d"; "c"])] in
  let w := Sample.fresh (Sample.flat ["a"]) in
  let r := perform_renames Sample.uuid mapping false false w in
  exists succeeded done,
    fst r = Return (succeeded, 2 - succeeded)
    /\ w_calls (snd r)
       = map ok done ++ [ko (SysRename ["d"; "zz"] ["d"; "zz.renametmp-1"])]
    /\ replay (map ok done) (w_fs w) = Some (w_fs (snd r)).
Proof.
  intros mapping w r.
  destruct (live_rename_failure_stops Sample.uuid mapping false w
              ["d"; "zz"] ["d"; "zz.renametmp-1"])
    as (succeeded & done & E1 & E2 & E3 & _).
  - vm_compute. right. left. reflexivity.
  - vm_compute. intros [].
  - exists succeeded, done. repeat split; assumption.
Defined.

(** ** [main] with [--json] *)

Lemma iterdir_is_dir fs d : is_dir fs d = true -> exists listing, iterdir fs d = Some listing.
Proof.
  unfold is_dir, iterdir. destruct (lookup fs d) as [[?|ch]|]; try discriminate.
  intros _. eexists. reflexivity.
Qed.

Lemma min_max_nonempty (l : list Z) :
  l <> [] -> exists lo hi, Py.min l = Some lo /\ Py.max l = Some hi.
Proof.
  destruct l as [|x l]; [congruence|]. intros _. simpl. eauto.
Qed.

(** With a threshold of at least one, [analyze_dir] returns on every
    directory. *)
Lemma analyze_dir_returns fs d min_files :
  is_dir fs d = true -> 1 <= min_files ->
  exists res, analyze_dir fs d min_files = Return res.
Proof.
  intros Hd Hm. unfold analyze_dir.
  destruct (iterdir_is_dir fs d Hd) as (listing & ->).
  destruct (Py.len (list_files fs listing) <? min_files); [eauto|].
  destruct (Py.len (numbered (list_files fs listing)) <? min_files) eqn:E; [eauto|].
  apply Z.ltb_ge in E.
  destruct (min_max_nonempty (map e_val (numbered (list_files fs listing))))
    as (lo & hi & -> & ->).
  { intros Hnil. apply map_eq_nil in Hnil. rewrite Hnil in E. unfold Py.len in E.
    simpl in E. lia. }
  destruct (negb _); [eauto|]. destruct (_ && _)%bool; eauto.
Qed.

Lemma is_leaf_dir_is_dir fs d : is_leaf_dir fs d = true -> is_dir fs d = true.
Proof.
  unfold is_leaf_dir. destruct (is_dir fs d); [reflexivity|discriminate].
Qed.

Lemma scan_dirs_returns fs min_files dirs :
  1 <= min_files -> exists results, scan_dirs fs min_files dirs = Return results.
Proof.
  intros Hm. induction dirs as [|d rest (results & IH)]; simpl; [eauto|].
  destruct (is_leaf_dir fs d) eqn:Hl; simpl; [|eauto].
  destruct (analyze_dir_returns fs d min_files (is_leaf_dir_is_dir _ _ Hl) Hm) as (res & ->).
  rewrite IH. destruct res; eauto.
Qed.

Lemma find_problem_dirs_returns fs root min_files :
  1 <= min_files -> exists results, find_problem_dirs fs root min_files = Return results.
Proof. intros Hm. apply scan_dirs_returns, Hm. Qed.

(** With [--json], [main] stops after the scan: the file system is the one
    it started with and no call was made, whether the scan returns (the
    document is printed and the exit code is [0]) or raises. *)
Lemma main_json_reads_only uuid4_hex (a : args) (w : world node) :
  a_json a = true ->
  main uuid4_hex a w
  = match find_problem_dirs (w_fs w) (a_root a) (a_min_files a) with
    | Return results =>
        (Return 0,
         mkWorld (w_fs w) (w_stdout w ++ [Json results]) (w_stderr w) (w_uuids w) (w_calls w))
    | Raise e => (Raise e, w)
    end.
Proof.
  intros Hj. unfold main. unfold bind at 1. unfold get_fs at 1.
  unfold bind at 1.
  destruct (find_problem_dirs (w_fs w) (a_root a) (a_min_files a)) as [results|e]; simpl.
  - rewrite Hj. reflexivity.
  - reflexivity.
Qed.

Lemma main_json_exit_0 uuid4_hex (a : args) (w : world node) :
  a_json a = true -> 1 <= a_min_files a ->
  exists results,
    main uuid4_hex a w
    = (Return 0,
       mkWorld (w_fs w) (w_stdout w ++ [Json results]) (w_stderr w) (w_uuids w) (w_calls w)).
Proof.
  intros Hj Hm. rewrite (main_json_reads_only uuid4_hex a w Hj).
  destruct (find_problem_dirs_returns (w_fs w) (a_root a) (a_min_files a) Hm) as (results & ->).
  eauto.
Qed.

(** C10 fails at [--min-files 0]: on an empty root directory, with
    [--json], the scan reaches [min(nums)] with no number at all; the
    [ValueError] leaves [main], nothing is printed and no exit code [0] is
    returned.  The file system is untouched. *)
Theorem main_json_min_files_zero_raises :
  main Sample.uuid (mkArgs [] 0 true false None false false) (Sample.fresh (Dir []))
  = (Raise (ValueError "min() arg is an empty sequence"), Sample.fresh (Dir [])).
Proof. reflexivity. Qed.

(** ** Sorting, sets and ranges *)

Section SortedFacts.
Context {A K : Type}.
Variable key : A -> K.
Variable ltb : K -> K -> bool.

Lemma insert_perm (x : A) (l : list A) : Permutation (Py.insert key ltb x l) (x :: l).
Proof.
  induction l as [|y l IH]; simpl; [reflexivity|].
  destruct (ltb (key y) (key x)); [|reflexivity].
  rewrite IH. apply perm_swap.
Qed.

Lemma sorted_perm (l : list A) : Permutation (Py.sorted key ltb l) l.
Proof.
  induction l as [|x l IH]; simpl; [reflexivity|].
  unfold Py.sorted in IH. rewrite insert_perm. now constructor.
Qed.

Lemma sorted_in (l : list A) (x : A) : In x (Py.sorted key ltb l) <-> In x l.
Proof.
  split; apply Permutation_in; [|symmetry]; apply sorted_perm.
Qed.

End SortedFacts.

Lemma insert_le_sorted (x : Z) (l : list Z) :
  StronglySorted Z.le l -> StronglySorted Z.le (Py.insert (fun n => n) Z.ltb x l).
Proof.
  induction 1 as [|y l Hs IH Hall]; simpl.
  - repeat constructor.
  - destruct (y <? x) eqn:E.
    + apply Z.ltb_lt in E. constructor; [exact IH|].
      apply Forall_forall. intros z Hz.
      apply (Permutation_in _ (insert_perm _ _ x l)) in Hz.
      destruct Hz as [<-|Hz]; [lia|].
      rewrite Forall_forall in Hall. now apply Hall.
    + apply Z.ltb_ge in E. constructor; [now constructor|].
      constructor; [exact E|].
      apply Forall_forall. intros z Hz. rewrite Forall_forall in Hall.
      specialize (Hall z Hz). lia.
Qed.

Lemma sorted_le_sorted (l : list Z) : StronglySorted Z.le (Py.sorted (fun n => n) Z.ltb l).
Proof.
  induction l as [|x l IH]; simpl; [constructor|]. now apply insert_le_sorted.
Qed.

Lemma le_sorted_nodup_increasing (l : list Z) :
  StronglySorted Z.le l -> NoDup l -> Py.increasing l.
Proof.
  induction 1 as [|x l Hs IH Hall]; intros ND; [constructor|].
  inversion ND as [|? ? Hnin ND']; subst.
  constructor; [now apply IH|].
  rewrite Forall_forall in *. intros z Hz.
  specialize (Hall z Hz).
  assert (z <> x) by (intros ->; contradiction). lia.
Qed.

(** [sorted(set(nums))] is increasing and has the elements of [nums]. *)
Lemma unique_increasing (nums : list Z) :
  Py.increasing (Py.sorted (fun n => n) Z.ltb (Py.set nums)).
Proof.
  apply le_sorted_nodup_increasing; [apply sorted_le_sorted|].
  apply (Permutation_NoDup (l := Py.set nums)).
  - symmetry. apply sorted_perm.
  - apply NoDup_nodup.
Qed.

Lemma unique_in (nums : list Z) (v : Z) :
  In v (Py.sorted (fun n => n) Z.ltb (Py.set nums)) <-> In v nums.
Proof.
  rewrite sorted_in. unfold Py.set. apply nodup_In.
Qed.

Lemma increasing_ext (l1 l2 : list Z) :
  Py.increasing l1 -> Py.increasing l2 -> (forall v, In v l1 <-> In v l2) -> l1 = l2.
Proof.
  intros H1. revert l2.
  induction H1 as [|x l1 Hs IH Hall]; intros l2 H2 Hext.
  - destruct l2 as [|y l2]; [reflexivity|].
    exfalso. apply (Hext y). now left.
  - destruct H2 as [|y l2 Hs2 Hall2].
    + exfalso. apply (Hext x). now left.
    + rewrite Forall_forall in Hall, Hall2.
      assert (x = y).
      { destruct (proj1 (Hext x) (or_introl eq_refl)) as [E|Hx]; [now symmetry|].
        destruct (proj2 (Hext y) (or_introl eq_refl)) as [E|Hy]; [exact E|].
        specialize (Hall y Hy). specialize (Hall2 x Hx). lia. }
      subst y. f_equal. apply IH; [exact Hs2|].
      intros v. split; intros Hv.
      * destruct (proj1 (Hext v) (or_intror Hv)) as [E|Hv']; [|exact Hv'].
        specialize (Hall v Hv). lia.
      * destruct (proj2 (Hext v) (or_intror Hv)) as [E|Hv']; [|exact Hv'].
        specialize (Hall2 v Hv). lia.
Qed.

Lemma range_in (a b v : Z) : In v (Py.range a b) <-> a <= v < b.
Proof.
  unfold Py.range. rewrite in_map_iff. split.
  - intros (i & <- & Hi). apply in_seq in Hi. lia.
  - intros Hv. exists (Z.to_nat (v - a)). split; [lia|]. apply in_seq. lia.
Qed.

Lemma range_length (a b : Z) : a <= b -> Py.len (Py.range a b) = b - a.
Proof.
  intros Hab. unfold Py.len, Py.range. rewrite length_map, length_seq. lia.
Qed.

Lemma range_increasing (a b : Z) : Py.increasing (Py.range a b).
Proof.
  unfold Py.range. generalize (Z.to_nat (b - a)) as n. intros n.
  generalize 0%nat as s. induction n as [|n IH]; intros s; simpl; [constructor|].
  constructor; [apply IH|].
  apply Forall_forall. intros z Hz. apply in_map_iff in Hz.
  destruct Hz as (i & <- & Hi). apply in_seq in Hi. lia.
Qed.

Lemma list_eqb_Z (l1 l2 : list Z) : Py.list_eqb Z.eqb l1 l2 = true <-> l1 = l2.
Proof.
  revert l2. induction l1 as [|x l1 IH]; intros [|y l2]; simpl;
    try (split; [discriminate|congruence]); [tauto|].
  rewrite andb_true_iff, Z.eqb_eq, IH. split; [intros [-> ->]; reflexivity|].
  intros E; inversion E; auto.
Qed.

Lemma list_eqb_string (l1 l2 : list string) :
  Py.list_eqb String.eqb l1 l2 = true <-> l1 = l2.
Proof.
  revert l2. induction l1 as [|x l1 IH]; intros [|y l2]; simpl;
    try (split; [discriminate|congruence]); [tauto|].
  rewrite andb_true_iff, String.eqb_eq, IH. split; [intros [-> ->]; reflexivity|].
  intros E; inversion E; auto.
Qed.

Lemma fold_min_spec (l : list Z) (x : Z) :
  let m := fold_left Z.min l x in
  (m = x \/ In m l) /\ m <= x /\ forall y, In y l -> m <= y.
Proof.
  revert x. induction l as [|a l IH]; intros x; simpl.
  - split; [now left|]. split; [lia|]. intros y [].
  - destruct (IH (Z.min x a)) as (Hin & Hle & Hall).
    split; [|split].
    + destruct Hin as [E|Hin]; [|now right; right].
      destruct (Z.min_spec x a) as [[_ Em]|[_ Em]]; [left|right; left]; lia.
    + lia.
    + intros y [<-|Hy]; [lia|now apply Hall].
Qed.

Lemma fold_max_spec (l : list Z) (x : Z) :
  let m := fold_left Z.max l x in
  (m = x \/ In m l) /\ x <= m /\ forall y, In y l -> y <= m.
Proof.
  revert x. induction l as [|a l IH]; intros x; simpl.
  - split; [now left|]. split; [lia|]. intros y [].
  - destruct (IH (Z.max x a)) as (Hin & Hle & Hall).
    split; [|split].
    + destruct Hin as [E|Hin]; [|now right; right].
      destruct (Z.max_spec x a) as [[_ Em]|[_ Em]]; [right; left|left]; lia.
    + lia.
    + intros y [<-|Hy]; [lia|now apply Hall].
Qed.

Lemma min_spec (l : list Z) (m : Z) :
  Py.min l = Some m -> In m l /\ forall y, In y l -> m <= y.
Proof.
  destruct l as [|x l]; [discriminate|]. simpl. intros [= <-].
  destruct (fold_min_spec l x) as (Hin & Hle & Hall).
  split; [destruct Hin as [->|Hin]; [now left|now right]|].
  intros y [<-|Hy]; [exact Hle|now apply Hall].
Qed.

Lemma max_spec (l : list Z) (m : Z) :
  Py.max l = Some m -> In m l /\ forall y, In y l -> y <= m.
Proof.
  destruct l as [|x l]; [discriminate|]. simpl. intros [= <-].
  destruct (fold_max_spec l x) as (Hin & Hle & Hall).
  split; [destruct Hin as [->|Hin]; [now left|now right]|].
  intros y [<-|Hy]; [exact Hle|now apply Hall].
Qed.

(** ** The orders of names and of values *)

Lemma ascii_compare_refl (a : ascii) : Ascii.compare a a = Eq.
Proof. unfold Ascii.compare. apply N.compare_refl. Qed.

Lemma ascii_lt_trans (a b c : ascii) :
  Ascii.compare a b = Lt -> Ascii.compare b c = Lt -> Ascii.compare a c = Lt.
Proof.
  unfold Ascii.compare. rewrite !N.compare_lt_iff. apply N.lt_trans.
Qed.

Lemma string_compare_refl (s : string) : String.compare s s = Eq.
Proof. induction s as [|c s IH]; simpl; [reflexivity|]. now rewrite ascii_compare_refl. Qed.

Lemma string_lt_trans (a : string) :
  forall b c, String.compare a b = Lt -> String.compare b c = Lt -> String.compare a c = Lt.
Proof.
  induction a as [|x a IH]; intros [|y b] [|z c]; simpl; try discriminate; auto.
  destruct (Ascii.compare x y) eqn:Exy; try discriminate.
  - apply Ascii.compare_eq_iff in Exy. subst y.
    destruct (Ascii.compare x z); try discriminate; auto. apply IH.
  - destruct (Ascii.compare y z) eqn:Eyz; try discriminate; intros _ H.
    + apply Ascii.compare_eq_iff in Eyz. subst z. now rewrite Exy.
    + now rewrite (ascii_lt_trans x y z Exy Eyz).
Qed.









Section KeySorted.
Context {A K : Type}.
Variable key : A -> K.
Variable ltb : K -> K -> bool.
Hypothesis ltb_asym : forall a b, ltb a b = true -> ltb b a = false.
Hypothesis le_trans : forall a b c, ltb b a = false -> ltb c b = false -> ltb c a = false.



End KeySorted.








(** ** The sequence analyzer *)

Lemma consecutive_iff (nums : list Z) (lo hi : Z) :
  Py.min nums = Some lo -> Py.max nums = Some hi ->
  (consecutive nums lo hi = true <-> forall v, lo <= v <= hi -> In v nums).
Proof.
  intros Hmin Hmax.
  destruct (min_spec _ _ Hmin) as (Hlo & Hge).
  destruct (max_spec _ _ Hmax) as (Hhi & Hle).
  assert (Hlh : lo <= hi) by (apply Hge, Hhi).
  unfold consecutive. rewrite andb_true_iff, Z.eqb_eq, list_eqb_Z. split.
  - intros [_ E] v Hv. apply unique_in. rewrite E. apply range_in. lia.
  - intros Hall.
    assert (E : Py.sorted (fun n => n) Z.ltb (Py.set nums) = Py.range lo (hi + 1)).
    { apply increasing_ext; [apply unique_increasing | apply range_increasing |].
      intros v. rewrite unique_in, range_in. split.
      - intros Hv. specialize (Hge v Hv). specialize (Hle v Hv). lia.
      - intros Hv. apply Hall. lia. }
    split; [|exact E]. rewrite E, range_length; lia.
Qed.

(** C3, as stated, fails: [b01] repeats the value of [a1], and the
    directory is flagged all the same. *)
Lemma duplicate_value_is_flagged :
  analyze_dir (Sample.flat ["a1"; "a2"; "b01"]) ["d"] 2
  = Return (Some {|
      r_dir := ["d"];
      r_count := 3;
      r_min := 1;
      r_max := 2;
      r_desired_width := 1;
      r_token_lengths_sample := [1; 2];
      r_lex_order_sample := ["a1"; "a2"; "b01"];
      r_numeric_order_sample := ["a1"; "b01"; "a2"]
    |}).
Proof. reflexivity. Qed.

Lemma numbered_length_le (files : list Path) :
  (List.length (numbered files) <= List.length files)%nat.
Proof.
  induction files as [|p rest IH]; simpl; [lia|].
  destruct (extract_number_token (stem p)) as [[v t]|]; simpl; lia.
Qed.

Lemma nodup_singleton_all (l : list Z) (a : Z) :
  nodup Z.eq_dec l = [a] -> forall x, In x l -> x = a.
Proof.
  intros E x Hx. apply (nodup_In Z.eq_dec) in Hx. rewrite E in Hx.
  destruct Hx as [<-|[]]. reflexivity.
Qed.

Lemma NoDup_constant_length (l : list Z) (a : Z) :
  NoDup l -> (forall x, In x l -> x = a) -> (List.length l <= 1)%nat.
Proof.
  intros ND Hall. destruct ND as [|x l Hnin ND]; simpl; [lia|].
  destruct l as [|y l]; simpl; [lia|]. exfalso. apply Hnin.
  rewrite (Hall x (or_introl eq_refl)), (Hall y (or_intror (or_introl eq_refl))).
  now left.
Qed.

(** [fully_padded]: every token has the desired width. *)
Lemma fully_padded_iff (entries : list entry) (w : Z) :
  entries <> [] ->
  (fully_padded entries w = true
   <-> Forall (fun e => Py.slen (e_token e) = w) entries).
Proof.
  intros Hne. unfold fully_padded. rewrite andb_true_iff, !Z.eqb_eq.
  assert (Hhd : In (hd 0 (token_lengths entries)) (token_lengths entries)).
  { destruct entries; [congruence|]. left. reflexivity. }
  assert (Hin : forall x, In x (token_lengths entries)
                          <-> exists e, In e entries /\ Py.slen (e_token e) = x).
  { intros x. unfold token_lengths. rewrite in_map_iff. firstorder. }
  remember (token_lengths entries) as tl eqn:Etl. clear Etl.
  rewrite Forall_forall. unfold Py.len, Py.set. split.
  - intros [Hlen Hw] e He.
    destruct (nodup Z.eq_dec tl) as [|a [|b l]] eqn:En; cbn [List.length] in Hlen; try lia.
    pose proof (nodup_singleton_all _ _ En) as Hall.
    rewrite <- Hw, (Hall _ Hhd). apply Hall. apply Hin. eauto.
  - intros Hall.
    assert (Hc : forall x, In x tl -> x = w).
    { intros x Hx. apply Hin in Hx. destruct Hx as (e & He & <-). now apply Hall. }
    split; [|now apply Hc].
    pose proof (NoDup_constant_length (nodup Z.eq_dec tl) w (NoDup_nodup _ _)) as Hle.
    destruct (nodup Z.eq_dec tl) as [|a l] eqn:En.
    + exfalso. apply (nodup_In Z.eq_dec) in Hhd. rewrite En in Hhd. destruct Hhd.
    + cbn [List.length] in *. assert (S (List.length l) <= 1)%nat; [|lia].
      apply Hle. intros x Hx. apply Hc. apply (nodup_In Z.eq_dec). rewrite En. exact Hx.
Qed.


(** [analyze_dir] once both thresholds are passed and the extreme values
    are known. *)
Lemma analyze_dir_unfold (fs : node) (d : Path) (min_files : Z)
  (listing : list Path) (lo hi : Z) :
  iterdir fs d = Some listing ->
  let entries := numbered (list_files fs listing) in
  min_files <= Py.len entries ->
  Py.min (map e_val entries) = Some lo ->
  Py.max (map e_val entries) = Some hi ->
  analyze_dir fs d min_files
  = if negb (consecutive (map e_val entries) lo hi) then Return None
    else if (negb (Py.list_eqb String.eqb (lex_order entries) (numeric_order entries))
             && negb (fully_padded entries (Py.slen (Py.str hi))))%bool
    then Return (Some {|
           r_dir := d;
           r_count := Py.len entries;
           r_min := lo;
           r_max := hi;
           r_desired_width := Py.slen (Py.str hi);
           r_token_lengths_sample :=
             Py.sorted (fun n => n) Z.ltb (Py.set (token_lengths entries));
           r_lex_order_sample := firstn 10 (lex_order entries);
           r_numeric_order_sample := firstn 10 (numeric_order entries)
         |})
    else Return None.
Proof.
  intros Hit entries Hmin Hm HM. unfold analyze_dir. rewrite Hit.
  fold entries.
  assert (Hfiles : (Py.len (list_files fs listing) <? min_files) = false).
  { apply Z.ltb_ge. pose proof (numbered_length_le (list_files fs listing)).
    unfold entries, Py.len in *. lia. }
  rewrite Hfiles.
  assert (Hent : (Py.len entries <? min_files) = false) by (apply Z.ltb_ge; lia).
  rewrite Hent, Hm, HM. reflexivity.
Qed.

(** The last test of [analyze_dir], in words. *)
Lemma flag_test_iff (entries : list entry) (w : Z) :
  entries <> [] ->
  ((negb (Py.list_eqb String.eqb (lex_order entries) (numeric_order entries))
    && negb (fully_padded entries w))%bool = true
   <-> lex_order entries <> numeric_order entries
       /\ ~ Forall (fun e => Py.slen (e_token e) = w) entries).
Proof.
  intros Hne.
  rewrite andb_true_iff, !negb_true_iff.
  rewrite <- (fully_padded_iff entries w Hne).
  rewrite <- (list_eqb_string (lex_order entries) (numeric_order entries)).
  destruct (Py.list_eqb String.eqb (lex_order entries) (numeric_order entries));
    destruct (fully_padded entries w); intuition congruence.
Qed.

Lemma flagged_or_null (A : Type) (b : bool) (r : A) (P : Prop) :
  (b = true <-> P) ->
  let res := if b then Return (Some r) else Return None in
  ((exists r', res = Return (Some r')) <-> P) /\ (~ P -> res = Return None).
Proof.
  intros Hb res. subst res. destruct b.
  - split; [split; [intros _; now apply Hb | eauto]|].
    intros HnP. exfalso. apply HnP. now apply Hb.
  - split; [split|reflexivity].
    + intros (r' & E). discriminate.
    + intros HP. apply Hb in HP. discriminate.
Qed.



(** C3 (amended).  Files that share a value do not make the contiguity
    check fail: the check passes exactly when every integer from the
    minimum to the maximum is the value of at least one file.  When it
    fails the result is null; when it passes, the directory is flagged or
    not by the order and padding tests, as any other. *)
Theorem duplicates_do_not_reject (fs : node) (d : Path) (min_files : Z)
  (listing : list Path) (lo hi : Z) :
  iterdir fs d = Some listing ->
  let entries := numbered (list_files fs listing) in
  let nums := map e_val entries in
  min_files <= Py.len entries ->
  Py.min nums = Some lo ->
  Py.max nums = Some hi ->
  let complete := forall v, lo <= v <= hi -> In v nums in
  let flagged :=
    lex_order entries <> numeric_order entries
    /\ ~ Forall (fun e => Py.slen (e_token e) = Py.slen (Py.str hi)) entries in
  (consecutive nums lo hi = true <-> complete)
  /\ (~ complete -> analyze_dir fs d min_files = Return None)
  /\ (complete ->
      ((exists r, analyze_dir fs d min_files = Return (Some r)) <-> flagged)
      /\ (~ flagged -> analyze_dir fs d min_files = Return None)).
Proof.
  intros Hit entries nums Hmin Hm HM complete flagged.
  pose proof (consecutive_iff nums lo hi Hm HM) as Hc. fold complete in Hc.
  rewrite (analyze_dir_unfold fs d min_files listing lo hi Hit Hmin Hm HM).
  fold entries. fold nums.
  split; [exact Hc|]. split.
  - intros Hn. destruct (consecutive nums lo hi); [|reflexivity].
    exfalso. apply Hn. now apply Hc.
  - intros Hcomp. apply Hc in Hcomp. rewrite Hcomp. cbn [negb].
    assert (Hne : entries <> []).
    { intros E. unfold nums in Hm. rewrite E in Hm. discriminate. }
    apply flagged_or_null. now apply flag_test_iff.
Qed.

Lemma duplicates_do_not_reject_witness :
  let fs := Sample.flat ["a1"; "a2"; "b01"] in
  let entries := [(["d"; "a1"], 1, "1"); (["d"; "a2"], 2, "2"); (["d"; "b01"], 1, "01")] in
  let nums := [1; 2; 1] in
  let complete := forall v, 1 <= v <= 2 -> In v nums in
  let flagged :=
    lex_order entries <> numeric_order entries
    /\ ~ Forall (fun e => Py.slen (e_token e) = Py.slen (Py.str 2)) entries in
  (consecutive nums 1 2 = true <-> complete)
  /\ (~ complete -> analyze_dir fs ["d"] 2 = Return None)
  /\ (complete ->
      ((exists r, analyze_dir fs ["d"] 2 = Return (Some r)) <-> flagged)
      /\ (~ flagged -> analyze_dir fs ["d"] 2 = Return None)).
Proof.
  intros fs entries nums complete flagged.
  apply (duplicates_do_not_reject fs ["d"] 2
           [["d"; "a1"]; ["d"; "a2"]; ["d"; "b01"]] 1 2).
  - reflexivity.
  - vm_compute. discriminate.
  - reflexivity.
  - reflexivity.
Defined.

(** The test of the repository expects a report for [img1], [img2],
    [img10]; the values are not contiguous and [analyze_dir] returns the
    null result. *)
Example analyze_dir_gap_is_null :
  analyze_dir (Sample.flat ["img1.jpg"; "img2.jpg"; "img10.jpg"]) ["d"] 2 = Return None.
Proof. reflexivity. Qed.

(** ** The file tree *)

Lemma node_tree_ind (P : node -> Prop) :
  (forall data, P (File data)) ->
  (forall ch, Forall (fun e => P (snd e)) ch -> P (Dir ch)) ->
  forall t, P t.
Proof.
  intros Hf Hd. fix F 1. intros [data|ch]; [apply Hf|].
  apply Hd. revert ch. fix G 1. intros [|e l]; constructor; [apply F | apply G].
Qed.

Lemma lookup_app (t : node) (p q : Path) :
  lookup t (p ++ q)
  = match lookup t p with
    | Some t' => lookup t' q
    | None => None
    end.
Proof.
  revert t. induction p as [|n p IH]; intros t; simpl; [reflexivity|].
  destruct t as [?|ch]; [reflexivity|].
  destruct (assoc n ch); [apply IH | reflexivity].
Qed.

Lemma assoc_in (n : string) (ch : list (string * node)) (c : node) :
  assoc n ch = Some c -> In (n, c) ch.
Proof.
  induction ch as [|[m c0] ch IH]; simpl; [discriminate|].
  destruct (String.eqb_spec n m) as [->|Hne].
  - intros [= ->]. now left.
  - intros E. right. now apply IH.
Qed.

(** Every path that resolves below a node is listed by [descendants]. *)
Lemma lookup_descendants (q : Path) :
  forall t n, q <> [] -> lookup t q = Some n -> In q (descendants t).
Proof.
  induction q as [|a q IH]; intros t n Hne Hl; [congruence|].
  simpl in Hl. destruct t as [?|ch]; [discriminate|].
  destruct (assoc a ch) as [c|] eqn:Ea; [|discriminate].
  simpl. apply in_or_app. destruct q as [|b q].
  - left. apply in_map_iff. exists (a, c). split; [reflexivity|now apply assoc_in].
  - right. apply in_flat_map. exists (a, c). split; [now apply assoc_in|].
    simpl. apply in_map. apply (IH c n); [discriminate | exact Hl].
Qed.

Lemma is_dir_lookup fs p : is_dir fs p = true <-> exists ch, lookup fs p = Some (Dir ch).
Proof.
  unfold is_dir. destruct (lookup fs p) as [[?|ch]|]; split;
    try discriminate; try (intros (ch' & E); discriminate); eauto.
Qed.

Lemma is_file_lookup fs p : is_file fs p = true <-> exists data, lookup fs p = Some (File data).
Proof.
  unfold is_file. destruct (lookup fs p) as [[?|ch]|]; split;
    try discriminate; try (intros (ch' & E); discriminate); eauto.
Qed.

(** [is_leaf_dir] against the paths of the tree. *)
Lemma is_leaf_dir_paths (fs : node) (d : Path) :
  is_leaf_dir fs d = true
  <-> is_dir fs d = true
      /\ forall (n : string) (q : Path),
           is_dir fs (child d n) = true -> is_file fs (child d n ++ q) = false.
Proof.
  split.
  - intros Hleaf. split; [now apply is_leaf_dir_is_dir|].
    intros n q Hsub. destruct (is_file fs (child d n ++ q)) eqn:Hfile; [|reflexivity].
    exfalso. unfold is_leaf_dir in Hleaf.
    destruct (is_dir fs d) eqn:Hd; [|discriminate]. simpl in Hleaf.
    apply is_dir_lookup in Hd. destruct Hd as (ch & Hd).
    unfold iterdir in Hleaf. rewrite Hd in Hleaf.
    rewrite forallb_forall in Hleaf.
    apply is_dir_lookup in Hsub as Hsub'. destruct Hsub' as (ch' & Hsub').
    assert (Hin : In (child d n) (map (fun e => child d (fst e)) ch)).
    { unfold child in Hsub'. rewrite lookup_app, Hd in Hsub'. simpl in Hsub'.
      destruct (assoc n ch) as [c|] eqn:Ea; [|discriminate].
      apply assoc_in in Ea. apply in_map_iff. exists (n, c). auto. }
    specialize (Hleaf _ Hin). rewrite Hsub in Hleaf.
    apply negb_true_iff in Hleaf.
    assert (Hex : existsb (is_file fs) (rglob fs (child d n)) = true); [|congruence].
    apply existsb_exists. exists (child d n ++ q). split; [|exact Hfile].
    unfold rglob. rewrite Hsub'. apply in_map.
    apply is_file_lookup in Hfile. destruct Hfile as (data & Hfile).
    rewrite lookup_app, Hsub' in Hfile.
    apply (lookup_descendants q (Dir ch') (File data)); [|exact Hfile].
    intros ->. simpl in Hfile. discriminate.
  - intros [Hd Hnone]. unfold is_leaf_dir. rewrite Hd. simpl.
    destruct (iterdir_is_dir fs d Hd) as (subs & Hit). rewrite Hit.
    apply forallb_forall. intros sub Hsub.
    destruct (is_dir fs sub) eqn:Hsd; [|reflexivity].
    apply negb_true_iff. destruct (existsb (is_file fs) (rglob fs sub)) eqn:Hex; [|reflexivity].
    exfalso. apply existsb_exists in Hex. destruct Hex as (p & Hp & Hfile).
    unfold iterdir in Hit. apply is_dir_lookup in Hd. destruct Hd as (ch & Hd).
    rewrite Hd in Hit. injection Hit as <-.
    apply in_map_iff in Hsub. destruct Hsub as (e & <- & He).
    unfold rglob in Hp. destruct (lookup fs (child d (fst e))); [|destruct Hp].
    apply in_map_iff in Hp. destruct Hp as (q & <- & Hq).
    rewrite (Hnone (fst e) q Hsd) in Hfile. discriminate.
Qed.

(** C8.  [is_leaf_dir] is total and answers [true] exactly for a directory
    none of whose subdirectories holds a file at any depth: every file
    below [d] lies directly in [d].  Subdirectories that only hold
    directories do not matter, and a path that is not a directory (a file,
    or nothing) gives [false]. *)
Theorem is_leaf_dir_iff (fs : node) (d : Path) :
  is_leaf_dir fs d = true
  <-> is_dir fs d = true
      /\ forall (n : string) (q : Path),
           is_dir fs (child d n) = true -> is_file fs (child d n ++ q) = false.
Proof. apply is_leaf_dir_paths. Qed.

(** Subdirectories that hold only directories leave [d] a leaf, and its
    own files do not count. *)
Example is_leaf_dir_nested_dirs :
  is_leaf_dir (Dir [("d", Dir [("f", File "x"); ("s", Dir [("t", Dir [])])])]) ["d"] = true.
Proof. reflexivity. Qed.

(** A file, or a path that does not exist, is not a leaf. *)
Example is_leaf_dir_not_a_directory :
  is_leaf_dir (Sample.flat ["f"]) ["d"; "f"] = false
  /\ is_leaf_dir (Sample.flat ["f"]) ["nowhere"] = false.
Proof. split; reflexivity. Qed.

(** ** The two notions of a leaf directory *)

Lemma assoc_nodup (n : string) (c : node) (ch : list (string * node)) :
  NoDup (map fst ch) -> In (n, c) ch -> assoc n ch = Some c.
Proof.
  induction ch as [|[m c0] ch IH]; simpl; intros ND Hin; [destruct Hin|].
  inversion ND as [|? ? Hnin ND']; subst.
  destruct Hin as [[= -> ->]|Hin].
  - now rewrite String.eqb_refl.
  - destruct (String.eqb_spec n m) as [->|Hne]; [|now apply IH].
    exfalso. apply Hnin. apply in_map_iff. exists (m, c). auto.
Qed.

Lemma wf_children (ch : list (string * node)) :
  wf (Dir ch) -> NoDup (map fst ch) /\ Forall (fun e => wf (snd e)) ch.
Proof. intros Hw. inversion Hw; auto. Qed.

Lemma wf_lookup (p : Path) : forall t t', wf t -> lookup t p = Some t' -> wf t'.
Proof.
  induction p as [|n p IH]; intros t t' Hw Hl; simpl in Hl.
  - now injection Hl as <-.
  - destruct t as [?|ch]; [discriminate|].
    destruct (assoc n ch) as [c|] eqn:Ea; [|discriminate].
    apply (IH c); [|exact Hl].
    destruct (wf_children _ Hw) as (_ & Hall). rewrite Forall_forall in Hall.
    apply (Hall (n, c)). now apply assoc_in.
Qed.

(** [os.walk] visits every directory that a path resolves to ... *)
Lemma walk_complete (q : Path) :
  forall top t ch,
    lookup t q = Some (Dir ch) ->
    In (top ++ q, dirnames ch, filenames ch) (walk top t).
Proof.
  induction q as [|a q IH]; intros top t ch Hl; simpl in Hl.
  - injection Hl as ->. simpl. left. now rewrite app_nil_r.
  - destruct t as [?|ch0]; [discriminate|].
    destruct (assoc a ch0) as [c|] eqn:Ea; [|discriminate].
    simpl. right. apply in_flat_map. exists (a, c). split; [now apply assoc_in|].
    simpl. specialize (IH (child top a) c ch Hl).
    unfold child in *. rewrite <- app_assoc in IH. exact IH.
Qed.

(** ... and, in a well-formed tree, nothing else. *)
Lemma walk_sound (t : node) :
  forall top e,
    wf t -> In e (walk top t) ->
    exists q ch,
      e = (top ++ q, dirnames ch, filenames ch) /\ lookup t q = Some (Dir ch).
Proof.
  induction t as [data|ch0 IH] using node_tree_ind; intros top e Hw Hin; simpl in Hin.
  - destruct Hin.
  - destruct Hin as [<-|Hin].
    + exists [], ch0. rewrite app_nil_r. auto.
    + apply in_flat_map in Hin. destruct Hin as ([n c] & Hnc & Hin). simpl in Hin.
      destruct (wf_children _ Hw) as (ND & Hall).
      rewrite Forall_forall in IH, Hall.
      destruct (IH (n, c) Hnc (child top n) e (Hall (n, c) Hnc) Hin) as (q & ch & -> & Hl).
      exists (n :: q), ch. split.
      * unfold child. now rewrite <- app_assoc.
      * simpl. now rewrite (assoc_nodup n c ch0 ND Hnc).
Qed.

Lemma fold_left_add (A : Type) (f : A -> Z) (l : list A) (a : Z) :
  fold_left (fun total e => total + f e) l a = a + Py.sum (map f l).
Proof.
  revert a. induction l as [|x l IH]; intros a; simpl; [lia|].
  rewrite IH. unfold Py.sum. simpl. lia.
Qed.

Lemma visible_count_nonneg (l : list string) : 0 <= MakeCbz.visible_count l.
Proof. unfold MakeCbz.visible_count, Py.len. lia. Qed.

Lemma visible_count_pos (l : list string) (f : string) :
  In f l -> Py.startswith_dot f = false -> 0 < MakeCbz.visible_count l.
Proof.
  intros Hin Hv. unfold MakeCbz.visible_count, Py.len.
  assert (Hf : In f (filter (fun f => negb (Py.startswith_dot f)) l)).
  { apply filter_In. split; [exact Hin|]. now rewrite Hv. }
  destruct (filter _ l); [destruct Hf|]. simpl. lia.
Qed.

Lemma visible_count_zero (l : list string) :
  MakeCbz.visible_count l <> 0 -> exists f, In f l /\ Py.startswith_dot f = false.
Proof.
  unfold MakeCbz.visible_count, Py.len. intros Hne.
  destruct (filter (fun f => negb (Py.startswith_dot f)) l) as [|f l'] eqn:E.
  - simpl in Hne. lia.
  - assert (Hf : In f (filter (fun f => negb (Py.startswith_dot f)) l))
      by (rewrite E; now left).
    apply filter_In in Hf. destruct Hf as (Hin & Hv).
    exists f. split; [exact Hin|]. now apply negb_true_iff in Hv.
Qed.

Lemma sum_nonneg_zero (l : list Z) :
  (forall x, In x l -> 0 <= x) ->
  0 <= Py.sum l /\ (Py.sum l = 0 <-> forall x, In x l -> x = 0).
Proof.
  induction l as [|a l IH]; intros Hall; unfold Py.sum; simpl.
  - split; [lia|]. split; [intros _ x []|reflexivity].
  - destruct IH as (Hs & Hz); [intros x Hx; apply Hall; now right|].
    pose proof (Hall a (or_introl eq_refl)) as Ha. fold (Py.sum l).
    split; [lia|]. split.
    + intros E x [<-|Hx]; [lia|]. apply Hz; [lia|exact Hx].
    + intros Hx. rewrite (Hx a (or_introl eq_refl)).
      assert (Py.sum l = 0); [|lia]. apply Hz. intros x Hin. apply Hx. now right.
Qed.

Lemma filenames_in (ch : list (string * node)) (f : string) :
  In f (filenames ch) <-> exists data, In (f, File data) ch.
Proof.
  unfold filenames. rewrite in_map_iff. split.
  - intros ([n c] & <- & Hin). apply filter_In in Hin. destruct Hin as (Hin & Hc).
    destruct c as [data|?]; [|discriminate]. simpl. eauto.
  - intros (data & Hin). exists (f, File data). split; [reflexivity|].
    apply filter_In. auto.
Qed.

Lemma total_files_dir fs cur ch :
  lookup fs cur = Some (Dir ch) ->
  MakeCbz.total_files fs cur
  = MakeCbz.visible_count (filenames ch)
    + Py.sum (map (fun e => MakeCbz.visible_count (snd e)) (below cur ch)).
Proof.
  intros Hl. unfold MakeCbz.total_files, os_walk. rewrite Hl.
  rewrite fold_left_add. simpl. unfold Py.sum. simpl. reflexivity.
Qed.

Lemma keeps_iff fs cur ch :
  lookup fs cur = Some (Dir ch) ->
  (MakeCbz.keeps fs true (cur, dirnames ch, filenames ch) = true
   <-> forall e, In e (below cur ch) -> MakeCbz.visible_count (snd e) = 0).
Proof.
  intros Hl. unfold MakeCbz.keeps. simpl. rewrite andb_false_r.
  rewrite (total_files_dir fs cur ch Hl), Z.eqb_eq.
  destruct (sum_nonneg_zero (map (fun e => MakeCbz.visible_count (snd e)) (below cur ch)))
    as (Hs & Hz).
  { intros x Hx. apply in_map_iff in Hx. destruct Hx as (e & <- & _).
    apply visible_count_nonneg. }
  split.
  - intros E e He. apply Hz; [lia|]. now apply (in_map (fun e => MakeCbz.visible_count (snd e))).
  - intros Hall. assert (Py.sum (map (fun e => MakeCbz.visible_count (snd e)) (below cur ch)) = 0);
      [|lia].
    apply Hz. intros x Hx. apply in_map_iff in Hx. destruct Hx as (e & <- & He). now apply Hall.
Qed.

(** A file below a subdirectory shows in the count of its directory, unless
    its name starts with a dot. *)
Lemma file_below_counts fs cur ch n q :
  lookup fs cur = Some (Dir ch) ->
  is_dir fs (child cur n) = true ->
  is_file fs (child cur n ++ q) = true ->
  Py.startswith_dot (name (child cur n ++ q)) = false ->
  exists e, In e (below cur ch) /\ MakeCbz.visible_count (snd e) <> 0.
Proof.
  intros Hl Hd Hf Hv.
  apply is_dir_lookup in Hd. destruct Hd as (ch' & Hd).
  apply is_file_lookup in Hf. destruct Hf as (data & Hf).
  rewrite lookup_app, Hd in Hf.
  assert (Hq : q <> []) by (intros ->; discriminate).
  destruct (exists_last Hq) as (q0 & f & ->).
  rewrite lookup_app in Hf.
  destruct (lookup (Dir ch') q0) as [[?|ch'']|] eqn:Hq0; try discriminate.
  simpl in Hf. destruct (assoc f ch'') as [c|] eqn:Ef; [|discriminate].
  injection Hf as ->.
  unfold child in Hd. rewrite lookup_app, Hl in Hd. simpl in Hd.
  destruct (assoc n ch) as [c|] eqn:En; [|discriminate]. injection Hd as ->.
  exists (child cur n ++ q0, dirnames ch'', filenames ch''). split.
  - unfold below. apply in_flat_map. exists (n, Dir ch'). split; [now apply assoc_in|].
    exact (walk_complete q0 (child cur n) (Dir ch') ch'' Hq0).
  - simpl. unfold name in Hv. rewrite !app_assoc, last_last in Hv.
    assert (0 < MakeCbz.visible_count (filenames ch'')); [|lia].
    apply (visible_count_pos _ f); [|exact Hv].
    apply filenames_in. exists data. now apply assoc_in.
Qed.

(** In a well-formed tree, a counted file below a subdirectory is a file
    below that subdirectory. *)
Lemma counted_is_file_below fs cur ch e :
  wf fs ->
  lookup fs cur = Some (Dir ch) ->
  In e (below cur ch) ->
  MakeCbz.visible_count (snd e) <> 0 ->
  exists n q, is_dir fs (child cur n) = true /\ is_file fs (child cur n ++ q) = true.
Proof.
  intros Hw Hl He Hc.
  pose proof (wf_lookup cur fs _ Hw Hl) as Hwc.
  destruct (wf_children _ Hwc) as (ND & Hall). rewrite Forall_forall in Hall.
  unfold below in He. apply in_flat_map in He. destruct He as ([n c] & Hnc & He).
  simpl in He.
  destruct (walk_sound c (child cur n) e (Hall (n, c) Hnc) He) as (q & ch'' & -> & Hq).
  simpl in Hc. destruct (visible_count_zero _ Hc) as (f & Hf & _).
  apply filenames_in in Hf. destruct Hf as (data & Hf).
  assert (Hsub : lookup fs (child cur n) = Some c).
  { unfold child. rewrite lookup_app, Hl. simpl. now rewrite (assoc_nodup n c ch ND Hnc). }
  assert (Hwq : wf (Dir ch'')).
  { apply (wf_lookup q c); [apply (Hall (n, c) Hnc) | exact Hq]. }
  destruct (wf_children _ Hwq) as (ND'' & _).
  exists n, (q ++ [f]). split.
  - apply is_dir_lookup. destruct c as [?|chc].
    + destruct q; discriminate.
    + eauto.
  - apply is_file_lookup. exists data.
    rewrite lookup_app, Hsub, lookup_app, Hq. simpl.
    now rewrite (assoc_nodup f (File data) ch'' ND'' Hf).
Qed.

(** C9 (amended).  In a well-formed tree with no hidden file under the
    root, the leaf finder of the archival tool (with [include_empty]) and
    [is_leaf_dir] accept the same directories under the root. *)
Theorem leaf_notions_agree_without_hidden (fs : node) (root q : Path) :
  wf fs ->
  (forall p, is_file fs (root ++ p) = true ->
             Py.startswith_dot (name (root ++ p)) = false) ->
  ((exists leafs,
      MakeCbz.find_leaf_dirs fs root true = Return leafs /\ In (root ++ q) leafs)
   <-> is_leaf_dir fs (root ++ q) = true).
Proof.
  intros Hw Hvis. split.
  - intros (leafs & E & Hin). unfold MakeCbz.find_leaf_dirs in E.
    destruct (exists_ fs root) eqn:Hex; simpl in E; [|discriminate].
    injection E as <-.
    apply in_map_iff in Hin. destruct Hin as (e & Hp & He).
    apply filter_In in He. destruct He as (He & Hk).
    unfold exists_ in Hex. unfold os_walk in He.
    destruct (lookup fs root) as [t0|] eqn:Hroot; [|discriminate].
    destruct (walk_sound t0 root e (wf_lookup root fs t0 Hw Hroot) He) as (q' & ch & -> & Hq').
    simpl in Hp. apply app_inv_head in Hp. subst q'.
    assert (Hl : lookup fs (root ++ q) = Some (Dir ch)) by (now rewrite lookup_app, Hroot).
    pose proof (proj1 (keeps_iff fs (root ++ q) ch Hl) Hk) as Hzero.
    apply is_leaf_dir_paths. split; [apply is_dir_lookup; eauto|].
    intros n q2 Hd. destruct (is_file fs (child (root ++ q) n ++ q2)) eqn:Hf; [|reflexivity].
    exfalso.
    destruct (file_below_counts fs (root ++ q) ch n q2 Hl Hd Hf) as (e & He' & Hne).
    + unfold child in *. rewrite <- !app_assoc in *. now apply Hvis.
    + apply Hne. now apply Hzero.
  - intros Hleaf. apply is_leaf_dir_paths in Hleaf. destruct Hleaf as (Hd & Hnone).
    apply is_dir_lookup in Hd. destruct Hd as (ch & Hl).
    pose proof Hl as Hl'. rewrite lookup_app in Hl'.
    destruct (lookup fs root) as [t0|] eqn:Hroot; [|discriminate].
    unfold MakeCbz.find_leaf_dirs, exists_. rewrite Hroot. simpl.
    eexists. split; [reflexivity|].
    apply in_map_iff. exists (root ++ q, dirnames ch, filenames ch). split; [reflexivity|].
    apply filter_In. split.
    + unfold os_walk. rewrite Hroot. now apply walk_complete.
    + apply (keeps_iff fs (root ++ q) ch Hl). intros e He.
      destruct (Z.eq_dec (MakeCbz.visible_count (snd e)) 0) as [E|Hne]; [exact E|].
      exfalso.
      destruct (counted_is_file_below fs (root ++ q) ch e Hw Hl He Hne) as (n & q2 & Hd & Hf).
      rewrite (Hnone n q2 Hd) in Hf. discriminate.
Qed.

Lemma leaf_notions_agree_without_hidden_witness :
  let fs := Dir [("sub", Dir [("f", File "x")])] in
  (exists leafs,
     MakeCbz.find_leaf_dirs fs [] true = Return leafs /\ In ["sub"] leafs)
  <-> is_leaf_dir fs ["sub"] = true.
Proof.
  intros fs.
  apply (leaf_notions_agree_without_hidden fs [] ["sub"]).
  - repeat constructor; simpl; intuition.
  - intros p Hf. simpl in *. unfold is_file in Hf.
    destruct p as [|a [|b [|c p]]]; simpl in Hf; try discriminate.
    + destruct (String.eqb a "sub"); simpl in Hf; discriminate.
    + destruct (String.eqb a "sub"); simpl in Hf; [|discriminate].
      destruct (String.eqb b "f") eqn:Eb; simpl in Hf; [|discriminate].
      apply String.eqb_eq in Eb. subst b. reflexivity.
    + destruct (String.eqb a "sub"); simpl in Hf; [|discriminate].
      destruct (String.eqb b "f"); simpl in Hf; discriminate.
Defined.

(** C9, as stated, fails: a hidden file in a subdirectory is a file for
    [is_leaf_dir] and is not counted by [find_leaf_dirs]. *)
Lemma leaf_notions_differ_on_hidden :
  let fs := Dir [("top", Dir [("sub", Dir [(".hidden", File "x")])])] in
  MakeCbz.find_leaf_dirs fs [] true = Return [[]; ["top"]; ["top"; "sub"]]
  /\ is_leaf_dir fs ["top"] = false
  /\ is_leaf_dir fs [] = false.
Proof. repeat split; reflexivity. Qed.

(** ** Strings *)

Arguments Re.is_digit : simpl never.
Arguments Re.is_newline : simpl never.

Lemma append_nil_r (s : string) : (s ++ "")%string = s.
Proof. induction s as [|c s IH]; simpl; [reflexivity|now rewrite IH]. Qed.

Lemma append_assoc (a b c : string) : ((a ++ b) ++ c)%string = (a ++ (b ++ c))%string.
Proof. induction a as [|x a IH]; simpl; [reflexivity|now rewrite IH]. Qed.

Lemma length_append (a b : string) :
  String.length (a ++ b) = (String.length a + String.length b)%nat.
Proof. induction a as [|x a IH]; simpl; [reflexivity|now rewrite IH]. Qed.

Lemma slen_append (a b : string) : Py.slen (a ++ b) = Py.slen a + Py.slen b.
Proof. unfold Py.slen. rewrite length_append. lia. Qed.

Lemma append_eq_nil (a b : string) : (a ++ b)%string = "" -> a = "" /\ b = "".
Proof. destruct a; simpl; [auto|discriminate]. Qed.

Lemma take_drop (n : nat) (s : string) : (Py.take n s ++ Py.drop n s)%string = s.
Proof.
  revert s. induction n as [|n IH]; intros [|c s]; simpl; try reflexivity.
  now rewrite IH.
Qed.

Lemma all_digits_app (a b : string) :
  Re.all_digits (a ++ b) = (Re.all_digits a && Re.all_digits b)%bool.
Proof.
  induction a as [|c a IH]; simpl; [reflexivity|]. now rewrite IH, andb_assoc.
Qed.

Lemma no_dot_app (a b : string) :
  Re.no_dot (a ++ b) = (Re.no_dot a && Re.no_dot b)%bool.
Proof.
  induction a as [|c a IH]; simpl; [reflexivity|]. now rewrite IH, andb_assoc.
Qed.

Lemma ends_nondigit_cons (c : ascii) (s : string) :
  s <> EmptyString -> Re.ends_nondigit (String c s) = Re.ends_nondigit s.
Proof. destruct s; [congruence|reflexivity]. Qed.

Lemma ends_nondigit_app (a b : string) :
  b <> EmptyString -> Re.ends_nondigit (a ++ b) = Re.ends_nondigit b.
Proof.
  intros Hb. induction a as [|c a IH]; simpl; [reflexivity|].
  rewrite <- IH. apply ends_nondigit_cons.
  intros E. apply append_eq_nil in E. tauto.
Qed.

(** *** [findall] *)

Lemma starts_digit_findall (s : string) : Re.starts_digit s = true -> Re.findall s <> [].
Proof.
  destruct s as [|c s]; simpl; [discriminate|]. intros ->.
  destruct (Re.starts_digit s); [destruct (Re.findall s)|]; discriminate.
Qed.

Lemma starts_digit_app (a b : string) :
  a <> EmptyString -> Re.starts_digit (a ++ b) = Re.starts_digit a.
Proof. destruct a; [congruence|reflexivity]. Qed.

Lemma findall_cons (c : ascii) (s : string) :
  Re.findall (String c s)
  = if Re.is_digit c then
      if Re.starts_digit s then
        match Re.findall s with
        | r :: rs => String c r :: rs
        | [] => [String c EmptyString]
        end
      else String c EmptyString :: Re.findall s
    else Re.findall s.
Proof. reflexivity. Qed.

(** A digit run does not cross a character that is not a digit. *)
Lemma findall_app (a b : string) :
  Re.ends_nondigit a = true -> Re.findall (a ++ b) = Re.findall a ++ Re.findall b.
Proof.
  induction a as [|c a IH]; intros He; [reflexivity|].
  destruct (string_dec a EmptyString) as [->|Hne].
  - simpl in He. simpl. apply negb_true_iff in He. now rewrite He.
  - rewrite ends_nondigit_cons in He by exact Hne. specialize (IH He).
    change ((String c a ++ b)%string) with (String c (a ++ b)).
    rewrite !findall_cons, IH, (starts_digit_app a b Hne).
    destruct (Re.is_digit c); [|reflexivity].
    destruct (Re.starts_digit a) eqn:Es; [|reflexivity].
    pose proof (starts_digit_findall _ Es) as Hf.
    destruct (Re.findall a); [congruence|reflexivity].
Qed.

Lemma findall_no_digit (s : string) : Re.no_digit s = true -> Re.findall s = [].
Proof.
  induction s as [|c s IH]; simpl; [reflexivity|].
  intros H. apply andb_true_iff in H. destruct H as (Hc & Hs).
  apply negb_true_iff in Hc. rewrite Hc. now apply IH.
Qed.

Lemma no_digit_starts (s : string) : Re.no_digit s = true -> Re.starts_digit s = false.
Proof.
  destruct s as [|c s]; simpl; [reflexivity|]. intros H.
  apply andb_true_iff in H. destruct H as (Hc & _). now apply negb_true_iff in Hc.
Qed.

Lemma findall_run (run suf : string) :
  run <> EmptyString -> Re.all_digits run = true -> Re.no_digit suf = true ->
  Re.findall (run ++ suf) = [run].
Proof.
  induction run as [|c run IH]; intros Hne Hd Hs; [congruence|].
  simpl in Hd. apply andb_true_iff in Hd. destruct Hd as (Hc & Hd).
  simpl. rewrite Hc.
  destruct run as [|c' run'].
  - simpl. rewrite (no_digit_starts _ Hs), (findall_no_digit _ Hs). reflexivity.
  - rewrite IH by (discriminate || assumption).
    simpl in Hd. apply andb_true_iff in Hd. destruct Hd as (Hc' & _).
    simpl. now rewrite Hc'.
Qed.

Lemma findall_nil_no_digit (s : string) : Re.findall s = [] -> Re.no_digit s = true.
Proof.
  induction s as [|c s IH]; [reflexivity|]. rewrite findall_cons. simpl.
  destruct (Re.is_digit c); simpl.
  - destruct (Re.starts_digit s); [destruct (Re.findall s)|]; discriminate.
  - exact IH.
Qed.

Lemma last_run_findall (s pre run suf : string) :
  Re.last_run s pre run suf -> Re.findall s = Re.findall pre ++ [run].
Proof.
  intros (-> & Hp & Hne & Hd & Hs).
  rewrite (findall_app pre _ Hp), (findall_run run suf Hne Hd Hs). reflexivity.
Qed.

Lemma last_run_exists (s : string) :
  Re.findall s <> [] -> exists pre run suf, Re.last_run s pre run suf.
Proof.
  induction s as [|c s IH]; intros Hne; [now contradiction Hne|].
  destruct (Re.findall s) as [|r rs] eqn:Ef.
  - pose proof (findall_nil_no_digit s Ef) as Hs.
    rewrite findall_cons, Ef in Hne.
    destruct (Re.is_digit c) eqn:Hc; [|congruence].
    exists EmptyString, (String c EmptyString), s. unfold Re.last_run. simpl.
    rewrite Hc. repeat split; auto. discriminate.
  - destruct IH as (pre & run & suf & E & Hp & Hr & Hd & Hs); [discriminate|].
    destruct (string_dec pre EmptyString) as [->|Hpre].
    + simpl in E. destruct (Re.is_digit c) eqn:Hc.
      * exists EmptyString, (String c run), suf. unfold Re.last_run. simpl.
        rewrite Hc, Hd, E. repeat split; auto. discriminate.
      * exists (String c EmptyString), run, suf. unfold Re.last_run. simpl.
        rewrite Hc, E. repeat split; auto.
    + exists (String c pre), run, suf. unfold Re.last_run.
      rewrite (ends_nondigit_cons c pre Hpre), E. repeat split; auto.
Qed.

(** The token of a name is its last digit run. *)
Lemma last_run_token (s pre run suf : string) :
  Re.last_run s pre run suf -> extract_number_token s = Some (Py.int run, run).
Proof.
  intros H. unfold extract_number_token. rewrite (last_run_findall _ _ _ _ H).
  destruct (Re.findall pre ++ [run]) eqn:E; [now destruct (Re.findall pre)|].
  rewrite <- E, last_last. reflexivity.
Qed.

Lemma token_last_run (s : string) (v : Z) (t : string) :
  extract_number_token s = Some (v, t) ->
  v = Py.int t /\ exists pre suf, Re.last_run s pre t suf.
Proof.
  intros E.
  assert (Hne : Re.findall s <> []).
  { unfold extract_number_token in E. destruct (Re.findall s); [discriminate|discriminate]. }
  destruct (last_run_exists s Hne) as (pre & run & suf & H).
  rewrite (last_run_token _ _ _ _ H) in E. injection E as <- <-.
  split; [reflexivity|]. eauto.
Qed.

Lemma no_token_findall (s : string) :
  extract_number_token s = None <-> Re.findall s = [].
Proof.
  unfold extract_number_token. destruct (Re.findall s); split; congruence.
Qed.

(** *** The substitution *)

Lemma sub_scan_no_digit (p : string) (b : bool) (s : string) :
  Re.no_digit s = true -> Re.sub_scan p b s = s.
Proof.
  revert b. induction s as [|c s IH]; intros b H; [reflexivity|].
  simpl in H. apply andb_true_iff in H. destruct H as (Hc & Hs).
  apply negb_true_iff in Hc. simpl. rewrite Hc. now rewrite IH.
Qed.

Lemma sub_scan_skip (p run suf : string) :
  Re.all_digits run = true -> Re.no_digit suf = true ->
  Re.sub_scan p true (run ++ suf) = suf.
Proof.
  induction run as [|c run IH]; intros Hd Hs; simpl.
  - now apply sub_scan_no_digit.
  - simpl in Hd. apply andb_true_iff in Hd. destruct Hd as (Hc & Hd).
    rewrite Hc. now apply IH.
Qed.

Lemma drop_digits_run (run suf : string) :
  Re.all_digits run = true -> Re.no_digit suf = true ->
  Re.drop_digits (run ++ suf) = suf.
Proof.
  induction run as [|c run IH]; intros Hd Hs; simpl.
  - destruct suf as [|c suf]; [reflexivity|]. simpl in Hs.
    apply andb_true_iff in Hs. destruct Hs as (Hc & _).
    apply negb_true_iff in Hc. simpl. now rewrite Hc.
  - simpl in Hd. apply andb_true_iff in Hd. destruct Hd as (Hc & Hd).
    rewrite Hc. now apply IH.
Qed.

Lemma dot_star_digit_no_digit (s : string) :
  Re.no_digit s = true -> Re.dot_star_digit s = false.
Proof.
  induction s as [|c s IH]; intros H; [reflexivity|].
  simpl in H. apply andb_true_iff in H. destruct H as (Hc & Hs).
  apply negb_true_iff in Hc. simpl. rewrite Hc, (IH Hs). now rewrite andb_false_r.
Qed.

(** The last digit run is always replaced. *)
Lemma sub_scan_run (p run suf : string) :
  run <> EmptyString -> Re.all_digits run = true -> Re.no_digit suf = true ->
  Re.sub_scan p false (run ++ suf) = (p ++ suf)%string.
Proof.
  intros Hne Hd Hs. destruct run as [|c run]; [congruence|].
  simpl in Hd. apply andb_true_iff in Hd. destruct Hd as (Hc & Hd).
  simpl. rewrite Hc, (drop_digits_run run suf Hd Hs), (dot_star_digit_no_digit suf Hs).
  simpl. now rewrite (sub_scan_skip p run suf Hd Hs).
Qed.

(** Whatever the lines of the stem, the substitution leaves the
    replacement where the last digit run was, after a prefix that does not
    end with a digit. *)
Lemma sub_scan_last_run (p pre run suf : string) :
  Re.ends_nondigit pre = true ->
  run <> EmptyString -> Re.all_digits run = true -> Re.no_digit suf = true ->
  forall b, (b = true -> pre <> EmptyString) ->
    exists out,
      Re.sub_scan p b (pre ++ run ++ suf) = (out ++ p ++ suf)%string
      /\ Re.ends_nondigit out = true
      /\ (pre <> EmptyString -> out <> EmptyString)
      /\ (pre = EmptyString -> out = EmptyString).
Proof.
  intros Hp Hne Hd Hs.
  induction pre as [|c pre IH]; intros b Hb.
  - destruct b; [now contradiction (Hb eq_refl)|].
    exists EmptyString. simpl. rewrite (sub_scan_run p run suf Hne Hd Hs). auto.
  - destruct (string_dec pre EmptyString) as [->|Hpre].
    + simpl in Hp. apply negb_true_iff in Hp.
      exists (String c EmptyString). simpl. rewrite Hp.
      rewrite (sub_scan_run p run suf Hne Hd Hs).
      repeat split; auto; discriminate.
    + rewrite (ends_nondigit_cons c pre Hpre) in Hp.
      change ((String c pre ++ run ++ suf)%string) with (String c (pre ++ run ++ suf)).
      cbn [Re.sub_scan].
      destruct (Re.is_digit c) eqn:Hc.
      * destruct b.
        -- destruct (IH Hp true (fun _ => Hpre)) as (out & E & Ho & Hn & _).
           exists out. rewrite E. repeat split; auto. intros; discriminate.
        -- destruct (negb (Re.dot_star_digit (Re.drop_digits (pre ++ run ++ suf)))).
           ++ destruct (IH Hp true (fun _ => Hpre)) as (out & E & Ho & Hn & _).
              exists (p ++ out)%string. rewrite E, append_assoc.
              split; [reflexivity|]. split; [|split].
              ** rewrite ends_nondigit_app; auto.
              ** intros _ Ee. apply append_eq_nil in Ee. now apply (Hn Hpre).
              ** intros; discriminate.
           ++ destruct (IH Hp false (fun H => False_ind _ (Bool.diff_false_true H)))
                as (out & E & Ho & Hn & _).
              exists (String c out). rewrite E.
              split; [reflexivity|]. split; [|split].
              ** rewrite ends_nondigit_cons; auto.
              ** intros; discriminate.
              ** intros; discriminate.
      * destruct (IH Hp false (fun H => False_ind _ (Bool.diff_false_true H)))
          as (out & E & Ho & Hn & _).
        exists (String c out). rewrite E.
        split; [reflexivity|]. split; [|split].
        -- rewrite ends_nondigit_cons; auto.
        -- intros; discriminate.
        -- intros; discriminate.
Qed.

Lemma dot_star_digit_same_line (x y : string) :
  Re.no_newline x = true -> Re.starts_digit y = true -> Re.dot_star_digit (x ++ y) = true.
Proof.
  intros Hx Hy. induction x as [|c x IH]; simpl.
  - destruct y as [|c y]; [discriminate|]. simpl in *. now rewrite Hy.
  - simpl in Hx. apply andb_true_iff in Hx. destruct Hx as (Hc & Hx).
    rewrite Hc, (IH Hx). simpl. now rewrite orb_true_r.
Qed.

Lemma lookahead_same_line (pre y : string) :
  pre <> EmptyString -> Re.ends_nondigit pre = true -> Re.no_newline pre = true ->
  Re.starts_digit y = true ->
  Re.dot_star_digit (Re.drop_digits (pre ++ y)) = true.
Proof.
  intros Hne Hp Hn Hy. induction pre as [|c pre IH]; [congruence|].
  simpl in Hn. apply andb_true_iff in Hn. destruct Hn as (Hc & Hn).
  change ((String c pre ++ y)%string) with (String c (pre ++ y)). cbn [Re.drop_digits].
  destruct (Re.is_digit c) eqn:Hd.
  - destruct (string_dec pre EmptyString) as [->|Hpre].
    + simpl in Hp. rewrite Hd in Hp. discriminate.
    + rewrite (ends_nondigit_cons c pre Hpre) in Hp. now apply IH.
  - change (String c (pre ++ y)) with ((String c pre ++ y)%string).
    apply dot_star_digit_same_line; [|exact Hy]. simpl. now rewrite Hc, Hn.
Qed.

(** On a stem without a newline before its last digit run, the
    substitution changes that run only. *)
Lemma sub_scan_one_line (p pre run suf : string) :
  Re.ends_nondigit pre = true -> Re.no_newline pre = true ->
  run <> EmptyString -> Re.all_digits run = true -> Re.no_digit suf = true ->
  Re.sub_scan p false (pre ++ run ++ suf) = (pre ++ p ++ suf)%string.
Proof.
  intros Hp Hn Hne Hd Hs.
  assert (Hy : Re.starts_digit (run ++ suf) = true).
  { destruct run as [|c run]; [congruence|]. simpl in *.
    apply andb_true_iff in Hd. tauto. }
  induction pre as [|c pre IH].
  - simpl. now apply sub_scan_run.
  - simpl in Hn. apply andb_true_iff in Hn. destruct Hn as (Hc & Hn).
    change ((String c pre ++ run ++ suf)%string) with (String c (pre ++ run ++ suf)).
    cbn [Re.sub_scan].
    destruct (string_dec pre EmptyString) as [->|Hpre].
    + simpl in Hp. apply negb_true_iff in Hp. rewrite Hp. simpl.
      now rewrite (sub_scan_run p run suf Hne Hd Hs).
    + rewrite (ends_nondigit_cons c pre Hpre) in Hp.
      rewrite (lookahead_same_line pre (run ++ suf) Hpre Hp Hn Hy). simpl.
      rewrite (IH Hp Hn). now destruct (Re.is_digit c).
Qed.

(** *** [zfill] and [int] on digit strings *)

Lemma digit_not_sign (c : ascii) : Re.is_digit c = true -> Py.is_sign c = false.
Proof.
  destruct c as [[] [] [] [] [] [] [] []]; intros H; try reflexivity; discriminate H.
Qed.

Lemma digit_not_dot (c : ascii) : Re.is_digit c = true -> Ascii.eqb c "." = false.
Proof.
  destruct c as [[] [] [] [] [] [] [] []]; intros H; try reflexivity; discriminate H.
Qed.

Lemma all_digits_zeros (k : nat) : Re.all_digits (Py.zeros k) = true.
Proof. induction k as [|k IH]; simpl; [reflexivity|]. exact IH. Qed.

Lemma slen_zeros (k : nat) : Py.slen (Py.zeros k) = Z.of_nat k.
Proof. unfold Py.slen. induction k as [|k IH]; simpl; [reflexivity|]. lia. Qed.

Lemma int_acc_zeros (k : nat) (s : string) : Py.int_acc 0 (Py.zeros k ++ s) = Py.int_acc 0 s.
Proof. induction k as [|k IH]; simpl; [reflexivity|]. exact IH. Qed.

(** On a digit string [zfill] only adds zeros in front. *)
Lemma zfill_digits (t : string) (w : Z) :
  t <> EmptyString -> Re.all_digits t = true ->
  Py.zfill t w = (Py.zeros (Z.to_nat (w - Py.slen t)) ++ t)%string.
Proof.
  intros Hne Hd. unfold Py.zfill. destruct (w <=? Py.slen t) eqn:E.
  - apply Z.leb_le in E. replace (Z.to_nat (w - Py.slen t)) with 0%nat by lia. reflexivity.
  - destruct t as [|c t]; [congruence|]. simpl in Hd.
    apply andb_true_iff in Hd. destruct Hd as (Hc & _).
    now rewrite (digit_not_sign c Hc).
Qed.

Lemma zfill_all_digits (t : string) (w : Z) :
  t <> EmptyString -> Re.all_digits t = true ->
  Re.all_digits (Py.zfill t w) = true /\ Py.zfill t w <> EmptyString.
Proof.
  intros Hne Hd. rewrite (zfill_digits t w Hne Hd). split.
  - now rewrite all_digits_app, all_digits_zeros, Hd.
  - intros E. apply append_eq_nil in E. tauto.
Qed.

Lemma zfill_int (t : string) (w : Z) :
  t <> EmptyString -> Re.all_digits t = true -> Py.int (Py.zfill t w) = Py.int t.
Proof.
  intros Hne Hd. rewrite (zfill_digits t w Hne Hd). unfold Py.int. apply int_acc_zeros.
Qed.

Lemma zfill_slen (t : string) (w : Z) :
  t <> EmptyString -> Re.all_digits t = true ->
  Py.slen (Py.zfill t w) = Z.max (Py.slen t) w.
Proof.
  intros Hne Hd. rewrite (zfill_digits t w Hne Hd), slen_append, slen_zeros. lia.
Qed.

(** *** Stems and suffixes *)

Lemma all_digits_no_dot (s : string) : Re.all_digits s = true -> Re.no_dot s = true.
Proof.
  induction s as [|c s IH]; simpl; [reflexivity|]. intros H.
  apply andb_true_iff in H. destruct H as (Hc & Hs).
  now rewrite (digit_not_dot c Hc), (IH Hs).
Qed.

Lemma rfind_no_dot (s : string) : Re.no_dot s = true -> Py.rfind "." s = -1.
Proof.
  induction s as [|a s IH]; simpl; [reflexivity|]. intros H.
  apply andb_true_iff in H. destruct H as (Ha & Hs). apply negb_true_iff in Ha.
  rewrite (IH Hs), Ha. reflexivity.
Qed.

Lemma rfind_app_dot (a b : string) :
  Re.no_dot b = true -> Py.rfind "." (a ++ String "." b) = Py.slen a.
Proof.
  intros Hb. induction a as [|c a IH]; simpl.
  - now rewrite (rfind_no_dot b Hb).
  - rewrite IH. unfold Py.slen. simpl String.length.
    destruct (0 <=? Z.of_nat (String.length a)) eqn:E; [lia|].
    apply Z.leb_gt in E. lia.
Qed.

Lemma rfind_cases (s : string) :
  (Py.rfind "." s = -1 /\ Re.no_dot s = true)
  \/ (exists a b, s = (a ++ String "." b)%string /\ Re.no_dot b = true).
Proof.
  induction s as [|c s IH]; [left; auto|].
  destruct IH as [(Hr & Hn)|(a & b & -> & Hb)].
  - destruct (Ascii.eqb_spec c ".") as [->|Hc].
    + right. exists EmptyString, s. auto.
    + left. simpl. rewrite Hr, Hn. apply Ascii.eqb_neq in Hc. now rewrite Hc.
  - right. exists (String c a), b. auto.
Qed.

Lemma take_app_length (a b : string) : Py.take (String.length a) (a ++ b) = a.
Proof. induction a as [|c a IH]; simpl; [now destruct b|now rewrite IH]. Qed.

Lemma drop_app_length (a b : string) : Py.drop (String.length a) (a ++ b) = b.
Proof. induction a as [|c a IH]; simpl; [now destruct b|exact IH]. Qed.

(** A name with a proper extension: a non-empty stem, a dot, a non-empty
    extension without a dot. *)
Lemma split_proper (p : Path) (a b : string) :
  name p = (a ++ String "." b)%string ->
  a <> EmptyString -> b <> EmptyString -> Re.no_dot b = true ->
  stem p = a /\ suffix p = String "." b.
Proof.
  intros En Ha Hb Hn. unfold stem, suffix, has_suffix. rewrite En.
  rewrite (rfind_app_dot a b Hn), slen_append.
  assert (H1 : (0 <? Py.slen a) = true).
  { apply Z.ltb_lt. unfold Py.slen. destruct a; [congruence|simpl; lia]. }
  assert (H2 : (Py.slen a <? Py.slen a + Py.slen (String "." b) - 1) = true).
  { apply Z.ltb_lt. unfold Py.slen. destruct b; [congruence|simpl; lia]. }
  rewrite H1, H2. simpl. unfold Py.slen. rewrite Nat2Z.id.
  now rewrite take_app_length, drop_app_length.
Qed.

(** A name without one: no dot, a dot in front only, or a dot at the end. *)
Lemma split_improper (p : Path) :
  Re.no_dot (name p) = true
  \/ (exists b, name p = String "." b /\ Re.no_dot b = true)
  \/ (exists a, name p = (a ++ ".")%string) ->
  stem p = name p /\ suffix p = EmptyString.
Proof.
  intros Hshape. unfold stem, suffix.
  assert (E : has_suffix (name p) = false); [|now rewrite E].
  unfold has_suffix. destruct Hshape as [Hn|[(b & -> & Hb)|(a & ->)]].
  - now rewrite (rfind_no_dot _ Hn).
  - change (String "." b) with (("" ++ String "." b)%string).
    rewrite (rfind_app_dot EmptyString b Hb). reflexivity.
  - rewrite (rfind_app_dot a EmptyString eq_refl), slen_append.
    change (Py.slen ".") with 1. rewrite andb_false_iff. right. apply Z.ltb_ge. lia.
Qed.

Lemma split_name (p : Path) :
  (exists a b,
     name p = (a ++ String "." b)%string
     /\ a <> EmptyString /\ b <> EmptyString /\ Re.no_dot b = true
     /\ stem p = a /\ suffix p = String "." b)
  \/ (stem p = name p /\ suffix p = EmptyString
      /\ (Re.no_dot (name p) = true
          \/ (exists b, name p = String "." b /\ Re.no_dot b = true)
          \/ (exists a, name p = (a ++ ".")%string))).
Proof.
  destruct (rfind_cases (name p)) as [(_ & Hn)|(a & b & En & Hb)].
  - right. destruct (split_improper p (or_introl Hn)) as (Es & Ex). auto.
  - destruct (string_dec a EmptyString) as [->|Ha].
    + right. assert (Hs : exists b0, name p = String "." b0 /\ Re.no_dot b0 = true) by eauto.
      destruct (split_improper p (or_intror (or_introl Hs))) as (Es & Ex). auto.
    + destruct (string_dec b EmptyString) as [->|Hb'].
      * right. assert (Hs : exists a0, name p = (a0 ++ ".")%string) by eauto.
        destruct (split_improper p (or_intror (or_intror Hs))) as (Es & Ex). auto.
      * left. exists a, b. destruct (split_proper p a b En Ha Hb' Hb) as (Es & Ex).
        repeat split; auto.
Qed.

Lemma stem_suffix_name (p : Path) : (stem p ++ suffix p)%string = name p.
Proof.
  unfold stem, suffix. destruct (has_suffix (name p)); [apply take_drop|apply append_nil_r].
Qed.

Lemma sub_scan_no_dot (p : string) (s : string) :
  Re.no_dot p = true -> Re.no_dot s = true ->
  forall b, Re.no_dot (Re.sub_scan p b s) = true.
Proof.
  intros Hp. induction s as [|c s IH]; intros Hs b; [reflexivity|].
  simpl in Hs. apply andb_true_iff in Hs. destruct Hs as (Hc & Hs).
  cbn [Re.sub_scan].
  destruct (Re.is_digit c); [destruct b; [|destruct (negb (Re.dot_star_digit _))]|].
  - now apply IH.
  - rewrite no_dot_app, Hp. now apply IH.
  - simpl. rewrite Hc. now apply IH.
  - simpl. rewrite Hc. now apply IH.
Qed.

Lemma sub_scan_snoc (p a : string) (c : ascii) :
  Re.is_digit c = false ->
  forall b, exists x, Re.sub_scan p b (a ++ String c "") = (x ++ String c "")%string.
Proof.
  intros Hc. induction a as [|d a IH]; intros b.
  - exists EmptyString. simpl. now rewrite Hc.
  - change ((String d a ++ String c "")%string) with (String d (a ++ String c "")).
    cbn [Re.sub_scan].
    destruct (Re.is_digit d); [destruct b; [|destruct (negb (Re.dot_star_digit _))]|].
    + apply IH.
    + destruct (IH true) as (x & ->). exists (p ++ x)%string. now rewrite append_assoc.
    + destruct (IH false) as (x & ->). now exists (String d x).
    + destruct (IH false) as (x & ->). now exists (String d x).
Qed.

Lemma startswith_dot_app (a b : string) :
  a <> EmptyString -> Py.startswith_dot (a ++ b) = Py.startswith_dot a.
Proof. destruct a; [congruence|reflexivity]. Qed.

Lemma startswith_dot_digits (p : string) : Re.all_digits p = true -> Py.startswith_dot p = false.
Proof.
  destruct p as [|c p]; [reflexivity|]. simpl. intros H.
  apply andb_true_iff in H. destruct H as (Hc & _). now apply digit_not_dot.
Qed.

Lemma sub_scan_first (p s : string) :
  p <> EmptyString -> Re.all_digits p = true ->
  Py.startswith_dot (Re.sub_scan p false s) = Py.startswith_dot s.
Proof.
  intros Hne Hd. destruct s as [|c s]; [reflexivity|]. cbn [Re.sub_scan].
  destruct (Re.is_digit c) eqn:Hc; [|reflexivity].
  destruct (negb (Re.dot_star_digit _)); [|reflexivity].
  rewrite (startswith_dot_app p _ Hne), (startswith_dot_digits p Hd).
  simpl. symmetry. now apply digit_not_dot.
Qed.

(** What the planner makes of a numbered file: the path it returns, its
    stem, and the token that [extract_number_token] finds in it. *)
Lemma make_new_name_token (p : Path) (w v : Z) (t : string) :
  extract_number_token (stem p) = Some (v, t) ->
  let new_stem := Re.sub_last_run (Py.zfill t w) (stem p) in
  let p' := removelast p ++ [(new_stem ++ suffix p)%string] in
  make_new_name p w = p'
  /\ stem p' = new_stem
  /\ suffix p' = suffix p
  /\ extract_number_token new_stem = Some (v, Py.zfill t w)
  /\ Py.startswith_dot (name p') = Py.startswith_dot (name p).
Proof.
  intros Htok new_stem p'.
  destruct (token_last_run _ _ _ Htok) as (-> & pre & suf & Hlr).
  pose proof Hlr as (Es & Hp & Hne & Hd & Hs).
  destruct (zfill_all_digits t w Hne Hd) as (Hzd & Hzne).
  assert (Hname : name p' = (new_stem ++ suffix p)%string).
  { unfold p', name. now rewrite last_last. }
  assert (Hpne : p <> []).
  { intros ->. unfold stem in Es. simpl in Es. symmetry in Es.
    apply append_eq_nil in Es. destruct Es as (_ & Es).
    apply append_eq_nil in Es. tauto. }
  destruct (sub_scan_last_run (Py.zfill t w) pre t suf Hp Hne Hd Hs false)
    as (out & Eout & Hout & _); [discriminate|].
  assert (Enew : new_stem = (out ++ Py.zfill t w ++ suf)%string).
  { unfold new_stem, Re.sub_last_run. now rewrite Es. }
  assert (Hnew_ne : new_stem <> EmptyString).
  { rewrite Enew. intros E. apply append_eq_nil in E. destruct E as (_ & E).
    apply append_eq_nil in E. tauto. }
  assert (Hmk : make_new_name p w = p').
  { unfold make_new_name. rewrite (last_run_findall _ _ _ _ Hlr).
    destruct (Re.findall pre ++ [t]) eqn:Ef; [now destruct (Re.findall pre)|].
    rewrite <- Ef, last_last. unfold with_name. destruct p; [congruence|reflexivity]. }
  assert (Hsplit : stem p' = new_stem /\ suffix p' = suffix p).
  { destruct (split_name p) as [(a & b & En & Ha & Hb & Hnb & Est & Esu)
                               |(Est & Esu & Hshape)].
    - rewrite Esu. apply split_proper; auto. now rewrite Hname, Esu.
    - rewrite Esu in *. rewrite append_nil_r in Hname.
      assert (Hst : stem p' = name p' /\ suffix p' = EmptyString); [|now rewrite Hname in Hst].
      apply split_improper. rewrite Hname. unfold new_stem, Re.sub_last_run. rewrite Est.
      destruct Hshape as [Hn|[(b & -> & Hb)|(a & ->)]].
      + left. apply sub_scan_no_dot; [now apply all_digits_no_dot|exact Hn].
      + right. left. exists (Re.sub_scan (Py.zfill t w) false b). split; [reflexivity|].
        apply sub_scan_no_dot; [now apply all_digits_no_dot|exact Hb].
      + right. right. apply (sub_scan_snoc (Py.zfill t w) a "."). reflexivity. }
  destruct Hsplit as (Hst' & Hsu').
  split; [exact Hmk|]. split; [exact Hst'|]. split; [exact Hsu'|]. split.
  - rewrite <- (zfill_int t w Hne Hd). apply (last_run_token new_stem out _ suf).
    unfold Re.last_run. auto.
  - rewrite Hname, <- (stem_suffix_name p).
    assert (Hstne : stem p <> EmptyString).
    { rewrite Es. intros E. apply append_eq_nil in E. destruct E as (_ & E).
      apply append_eq_nil in E. tauto. }
    rewrite (startswith_dot_app new_stem _ Hnew_ne), (startswith_dot_app (stem p) _ Hstne).
    apply sub_scan_first; assumption.
Qed.

Lemma make_new_name_no_token (p : Path) (w : Z) :
  extract_number_token (stem p) = None -> make_new_name p w = p.
Proof.
  intros H. apply no_token_findall in H. unfold make_new_name. now rewrite H.
Qed.

(** ** The rename planner *)

(** On a stem whose last digit run is not preceded by a newline,
    [make_new_name] pads that run and keeps everything around it: the
    prefix, what follows the run in the stem, and the extension. *)
Lemma make_new_name_one_line (p : Path) (w : Z) (pre run suf : string) :
  Re.last_run (stem p) pre run suf ->
  Re.no_newline pre = true ->
  make_new_name p w
  = removelast p ++ [(pre ++ Py.zfill run w ++ suf ++ suffix p)%string].
Proof.
  intros Hlr Hn.
  destruct (make_new_name_token p w _ _ (last_run_token _ _ _ _ Hlr)) as (-> & _).
  destruct Hlr as (Es & Hp & Hne & Hd & Hs).
  unfold Re.sub_last_run. rewrite Es.
  rewrite (sub_scan_one_line _ pre run suf Hp Hn Hne Hd Hs).
  now rewrite !append_assoc.
Qed.

Lemma path_eqb_eq (p q : Path) : path_eqb p q = true <-> p = q.
Proof. apply list_eqb_string. Qed.

(** The planner keeps a pair for the entries whose name changes, and only
    for them. *)
Lemma plan_mappings_spec (fs : node) (entries : list entry) (w : Z) (src dst : Path) :
  In (src, dst) (plan_mappings fs entries w)
  <-> exists e, In e entries /\ src = e_path e /\ dst = make_new_name src w /\ src <> dst.
Proof.
  induction entries as [|e rest IH]; simpl.
  - split; [intros []|intros (e & [] & _)].
  - destruct (path_eqb (e_path e) (make_new_name (e_path e) w)) eqn:E; simpl.
    + apply path_eqb_eq in E. rewrite IH. split.
      * intros (e' & Hin & H). exists e'. auto.
      * intros (e' & [<-|Hin] & Hs & Hd & Hne); [|eauto].
        exfalso. apply Hne. rewrite Hd, Hs. exact E.
    + assert (Hne : e_path e <> make_new_name (e_path e) w).
      { intros Heq. apply path_eqb_eq in Heq. congruence. }
      rewrite IH. split.
      * intros [[= <- <-]|(e' & Hin & H)]; [exists e; auto|exists e'; auto].
      * intros (e' & [<-|Hin] & Hs & Hd & Hn); [left; congruence|right; eauto].
Qed.

Example make_new_name_img :
  map (fun n => make_new_name ["d"; n] 2) ["img1.jpg"; "img2.jpg"; "img10.jpg"]
  = [["d"; "img01.jpg"]; ["d"; "img02.jpg"]; ["d"; "img10.jpg"]].
Proof. reflexivity. Qed.

Example plan_mappings_img :
  plan_mappings (Sample.flat ["img1.jpg"; "img2.jpg"; "img10.jpg"])
    [(["d"; "img1.jpg"], 1, "1"); (["d"; "img10.jpg"], 10, "10"); (["d"; "img2.jpg"], 2, "2")] 2
  = [(["d"; "img1.jpg"], ["d"; "img01.jpg"]); (["d"; "img2.jpg"], ["d"; "img02.jpg"])].
Proof. reflexivity. Qed.

(** C7 fails on a name of several lines.  The stem [1], line feed, [2] has
    the last digit run [2]; with width 2 the name should become [1], line
    feed, [02].  The pattern's dot does not cross the line feed, so the
    run [1] is the last one of its line and is replaced as well. *)
Theorem make_new_name_pads_every_line :
  make_new_name ["d"; Sample.two_lines] 2
  = ["d"; String "0" (String "2" (String Sample.LF "02"))].
Proof. reflexivity. Qed.

(** ** Planning, then analysing again *)

Lemma numbered_in (files : list Path) (p : Path) (v : Z) (t : string) :
  In (p, v, t) (numbered files)
  <-> In p files /\ extract_number_token (stem p) = Some (v, t).
Proof.
  induction files as [|f rest IH]; simpl; [tauto|].
  destruct (extract_number_token (stem f)) as [[v0 t0]|] eqn:E; simpl; rewrite IH.
  - split.
    + intros [[= <- <- <-]|(Hin & Ht)]; auto.
    + intros ([<-|Hin] & Ht); [left; congruence|right; auto].
  - split.
    + intros (Hin & Ht); auto.
    + intros ([<-|Hin] & Ht); [congruence|auto].
Qed.

Lemma max_ext (l l' : list Z) (m : Z) :
  (forall x, In x l <-> In x l') -> Py.max l = Some m -> Py.max l' = Some m.
Proof.
  intros Hext Hm. destruct (max_spec _ _ Hm) as (Hin & Hle).
  assert (Hne : l' <> []).
  { intros ->. now apply Hext in Hin. }
  destruct (min_max_nonempty l' Hne) as (_ & M & _ & HM).
  destruct (max_spec _ _ HM) as (Hin' & Hle').
  rewrite HM. f_equal.
  apply Hext in Hin. apply Hext in Hin'.
  specialize (Hle _ Hin'). specialize (Hle' _ Hin). lia.
Qed.

(** What a report says about the directory it flags. *)
Lemma analyze_dir_some_inv (fs : node) (d : Path) (min_files : Z)
  (listing : list Path) (r : report) :
  iterdir fs d = Some listing ->
  analyze_dir fs d min_files = Return (Some r) ->
  let entries := numbered (list_files fs listing) in
  exists max_n,
    Py.max (map e_val entries) = Some max_n
    /\ r_desired_width r = Py.slen (Py.str max_n)
    /\ fully_padded entries (r_desired_width r) = false.
Proof.
  intros Hit Hr entries. unfold analyze_dir in Hr. rewrite Hit in Hr. fold entries in Hr.
  destruct (Py.len (list_files fs listing) <? min_files); [discriminate|].
  destruct (Py.len entries <? min_files); [discriminate|].
  destruct (Py.min (map e_val entries)) as [min_n|]; [|discriminate].
  destruct (Py.max (map e_val entries)) as [max_n|]; [|discriminate].
  destruct (negb (consecutive (map e_val entries) min_n max_n)); [discriminate|].
  destruct (Py.list_eqb String.eqb (lex_order entries) (numeric_order entries));
    simpl in Hr; [discriminate|].
  destruct (fully_padded entries (Py.slen (Py.str max_n))) eqn:Hfp; simpl in Hr;
    [discriminate|].
  injection Hr as <-. simpl. exists max_n. auto.
Qed.

(** C2 (amended).  Take a flagged directory none of whose tokens is longer
    than the digit count of the maximum.  When the visible files of the
    directory have become the planner's names for them (width = digit count
    of the maximum), [analyze_dir] returns the null result: every token has
    the desired width. *)
Theorem replan_is_null (fs fs' : node) (d : Path) (min_files : Z)
  (listing listing' : list Path) (r : report) :
  iterdir fs d = Some listing ->
  iterdir fs' d = Some listing' ->
  analyze_dir fs d min_files = Return (Some r) ->
  Forall (fun e => Py.slen (e_token e) <= r_desired_width r)
         (numbered (list_files fs listing)) ->
  (forall p', In p' (list_files fs' listing')
              <-> exists p, In p (list_files fs listing)
                            /\ p' = make_new_name p (r_desired_width r)) ->
  analyze_dir fs' d min_files = Return None.
Proof.
  intros Hit Hit' Hr Hlen Hfiles.
  destruct (analyze_dir_some_inv fs d min_files listing r Hit Hr) as (max_n & HM & Hw & _).
  set (w := r_desired_width r) in *.
  set (entries := numbered (list_files fs listing)) in *.
  set (entries' := numbered (list_files fs' listing')).
  rewrite Forall_forall in Hlen.
  assert (Hback : forall e', In e' entries' ->
            exists e, In e entries /\ e_val e' = e_val e
                      /\ e_token e' = Py.zfill (e_token e) w).
  { intros [[p' v'] t'] He'. apply numbered_in in He'. destruct He' as (Hp' & Ht').
    apply Hfiles in Hp'. destruct Hp' as (p & Hp & ->).
    destruct (extract_number_token (stem p)) as [[v t]|] eqn:Et.
    - destruct (make_new_name_token p w v t Et) as (Emk & Est & _ & Etok & _).
      rewrite Emk, Est, Etok in Ht'. injection Ht' as <- <-.
      exists (p, v, t). split; [now apply numbered_in|]. auto.
    - rewrite (make_new_name_no_token p w Et) in Ht'. congruence. }
  assert (Hforth : forall e, In e entries -> exists e', In e' entries' /\ e_val e' = e_val e).
  { intros [[p v] t] He. apply numbered_in in He. destruct He as (Hp & Et).
    destruct (make_new_name_token p w v t Et) as (Emk & Est & _ & Etok & _).
    exists (make_new_name p w, v, Py.zfill t w). split; [|reflexivity].
    apply numbered_in. split; [apply Hfiles; eauto|].
    rewrite Emk, Est. exact Etok. }
  assert (Hnums : forall x, In x (map e_val entries) <-> In x (map e_val entries')).
  { intros x. rewrite !in_map_iff. split.
    - intros (e & <- & He). destruct (Hforth e He) as (e' & He' & Ev). eauto.
    - intros (e' & <- & He'). destruct (Hback e' He') as (e & He & Ev & _). eauto. }
  pose proof (max_ext _ _ _ Hnums HM) as HM'.
  assert (Hne' : entries' <> []).
  { intros E. rewrite E in HM'. discriminate. }
  assert (Hpad : fully_padded entries' w = true).
  { apply (fully_padded_iff entries' w Hne'). apply Forall_forall. intros e' He'.
    destruct (Hback e' He') as ([[p v] t] & He & _ & ->).
    pose proof He as Hin. apply numbered_in in Hin. destruct Hin as (_ & Et).
    destruct (token_last_run _ _ _ Et) as (_ & pre & suf & (_ & _ & Hne & Hd & _)).
    specialize (Hlen _ He). unfold e_token in *. simpl in *.
    rewrite (zfill_slen t w Hne Hd). lia. }
  unfold analyze_dir. rewrite Hit'. fold entries'.
  destruct (Py.len (list_files fs' listing') <? min_files); [reflexivity|].
  destruct (Py.len entries' <? min_files); [reflexivity|].
  destruct (min_max_nonempty (map e_val entries')) as (lo & hi & -> & Ehi).
  { intros E. apply map_eq_nil in E. contradiction. }
  rewrite Ehi. rewrite HM' in Ehi. injection Ehi as <-.
  destruct (negb (consecutive (map e_val entries') lo max_n)); [reflexivity|].
  rewrite <- Hw. fold w. rewrite Hpad. now rewrite andb_false_r.
Qed.

Lemma replan_is_null_witness :
  analyze_dir (Sample.flat ["a09"; "a10"]) ["d"] 2 = Return None.
Proof.
  apply (replan_is_null (Sample.flat ["a9"; "a10"]) (Sample.flat ["a09"; "a10"]) ["d"] 2
           [["d"; "a9"]; ["d"; "a10"]] [["d"; "a09"]; ["d"; "a10"]]
           {| r_dir := ["d"]; r_count := 2; r_min := 9; r_max := 10;
              r_desired_width := 2; r_token_lengths_sample := [1; 2];
              r_lex_order_sample := ["a10"; "a9"];
              r_numeric_order_sample := ["a9"; "a10"] |}).
  - reflexivity.
  - reflexivity.
  - reflexivity.
  - change (Forall (fun e => Py.slen (e_token e) <= 2)
              [(["d"; "a10"], 10, "10"); (["d"; "a9"], 9, "9")]).
    repeat constructor; vm_compute; discriminate.
  - intros p'.
    change (In p' [["d"; "a09"]; ["d"; "a10"]]
            <-> exists p, In p [["d"; "a10"]; ["d"; "a9"]] /\ p' = make_new_name p 2).
    split.
    + intros [<-|[<-|[]]].
      * exists ["d"; "a9"]. split; [right; left; reflexivity|reflexivity].
      * exists ["d"; "a10"]. split; [left; reflexivity|reflexivity].
    + intros (p & [<-|[<-|[]]] & ->).
      * right. left. reflexivity.
      * left. reflexivity.
Defined.

(** C2, as stated, fails: [a010] is longer than the two digits of the
    maximum.  The directory is flagged, [main] renames [a9] to [a09] and
    leaves [a010], and the directory is flagged again. *)
Lemma replan_can_stay_flagged :
  let fs := Sample.flat ["a9"; "a010"] in
  let run := main Sample.uuid (mkArgs [] 2 false true None false false) (Sample.fresh fs) in
  analyze_dir fs ["d"] 2
  = Return (Some {|
      r_dir := ["d"]; r_count := 2; r_min := 9; r_max := 10; r_desired_width := 2;
      r_token_lengths_sample := [1; 3];
      r_lex_order_sample := ["a010"; "a9"];
      r_numeric_order_sample := ["a9"; "a010"] |})
  /\ fst run = Return 0
  /\ w_fs (snd run) = Dir [("d", Dir [("a010", File "x"); ("a09", File "x")])]
  /\ analyze_dir (w_fs (snd run)) ["d"] 2
     = Return (Some {|
         r_dir := ["d"]; r_count := 2; r_min := 9; r_max := 10; r_desired_width := 2;
         r_token_lengths_sample := [2; 3];
         r_lex_order_sample := ["a010"; "a09"];
         r_numeric_order_sample := ["a09"; "a010"] |}).
Proof. repeat split; reflexivity. Qed.

(* ================================================================== *)
(** * Further properties of the two scripts *)

(** ** [extract_number_token] *)

Lemma int_acc_nonneg (s : string) (acc : Z) :
  Re.all_digits s = true -> 0 <= acc -> 0 <= Py.int_acc acc s.
Proof.
  revert acc. induction s as [|c s IH]; intros acc Hd Ha; cbn [Py.int_acc]; [exact Ha|].
  simpl in Hd. apply andb_true_iff in Hd. destruct Hd as (Hc & Hd).
  apply IH; [exact Hd|].
  unfold Re.is_digit in Hc. apply andb_true_iff in Hc. destruct Hc as (Hlo & _).
  apply Nat.leb_le in Hlo. unfold Py.digit_val. lia.
Qed.

(** X1: [extract_number_token] returns the last maximal digit run of the name
    with its value, which is never negative, and [None] exactly for a name
    without any digit. *)
Theorem extract_number_token_spec (s : string) :
  (forall v t,
     extract_number_token s = Some (v, t)
     <-> v = Py.int t /\ exists pre suf, Re.last_run s pre t suf)
  /\ (forall v t, extract_number_token s = Some (v, t) -> 0 <= v)
  /\ (extract_number_token s = None <-> Re.no_digit s = true).
Proof.
  split; [|split].
  - intros v t. split.
    + apply token_last_run.
    + intros (-> & pre & suf & H). now apply (last_run_token s pre t suf).
  - intros v t E. destruct (token_last_run _ _ _ E) as (-> & pre & suf & H).
    destruct H as (_ & _ & _ & Hd & _). now apply int_acc_nonneg.
  - rewrite no_token_findall. split.
    + apply findall_nil_no_digit.
    + apply findall_no_digit.
Qed.

(** ** [make_new_name] *)

Lemma zfill_zfill (t : string) (w : Z) :
  t <> EmptyString -> Re.all_digits t = true ->
  Py.zfill (Py.zfill t w) w = Py.zfill t w.
Proof.
  intros Hne Hd. pose proof (zfill_slen t w Hne Hd) as Hl.
  unfold Py.zfill at 1.
  destruct (w <=? Py.slen (Py.zfill t w)) eqn:E; [reflexivity|].
  apply Z.leb_gt in E. lia.
Qed.

Lemma parent_with_last (p : Path) (n : string) : parent (removelast p ++ [n]) = removelast p.
Proof. unfold parent. apply removelast_last. Qed.

(** X2: Renaming keeps the file where it is and what it is: the directory, the
    extension, the value of the number and the visibility of the name do
    not change; the token becomes the old one padded with zeros, of length
    [max(len(token), width)]. *)
Theorem make_new_name_keeps (p : Path) (w v : Z) (t : string) :
  extract_number_token (stem p) = Some (v, t) ->
  let p' := make_new_name p w in
  parent p' = parent p
  /\ suffix p' = suffix p
  /\ extract_number_token (stem p') = Some (v, Py.zfill t w)
  /\ Py.slen (Py.zfill t w) = Z.max (Py.slen t) w
  /\ Py.startswith_dot (name p') = Py.startswith_dot (name p).
Proof.
  intros Et p'.
  destruct (make_new_name_token p w v t Et) as (Emk & Est & Esu & Etok & Edot).
  destruct (token_last_run _ _ _ Et) as (_ & pre & suf & (_ & _ & Hne & Hd & _)).
  subst p'. rewrite Emk.
  split; [apply parent_with_last|]. split; [exact Esu|].
  split; [now rewrite Est|]. split; [now apply zfill_slen|exact Edot].
Qed.

Lemma make_new_name_keeps_witness :
  let p := ["d"; "shot_7_final.tar.gz"] in
  let p' := make_new_name p 3 in
  parent p' = parent p
  /\ suffix p' = suffix p
  /\ extract_number_token (stem p') = Some (7, Py.zfill "7" 3)
  /\ Py.slen (Py.zfill "7" 3) = Z.max (Py.slen "7") 3
  /\ Py.startswith_dot (name p') = Py.startswith_dot (name p).
Proof.
  intros p p'. apply (make_new_name_keeps p 3 7 "7"). reflexivity.
Defined.

Lemma digit_span (s : string) :
  exists run rest,
    s = (run ++ rest)%string
    /\ Re.all_digits run = true
    /\ Re.starts_digit rest = false
    /\ (Re.starts_digit s = true -> run <> EmptyString).
Proof.
  induction s as [|c s (run & rest & E & Hd & Hr & _)].
  - exists EmptyString, EmptyString. repeat split; auto. discriminate.
  - destruct (Re.is_digit c) eqn:Hc.
    + exists (String c run), rest. simpl. rewrite Hc, Hd, E. repeat split; auto. discriminate.
    + exists EmptyString, (String c s). simpl. rewrite Hc. repeat split; auto. discriminate.
Qed.

Lemma drop_digits_span (run rest : string) :
  Re.all_digits run = true -> Re.starts_digit rest = false ->
  Re.drop_digits (run ++ rest) = rest.
Proof.
  induction run as [|c run IH]; intros Hd Hr; simpl.
  - destruct rest as [|c rest]; [reflexivity|]. simpl in Hr. simpl. now rewrite Hr.
  - simpl in Hd. apply andb_true_iff in Hd. destruct Hd as (Hc & Hd).
    rewrite Hc. now apply IH.
Qed.

Lemma sub_scan_mode (p s : string) :
  Re.starts_digit s = false -> Re.sub_scan p true s = Re.sub_scan p false s.
Proof. destruct s as [|c s]; [reflexivity|]. simpl. now intros ->. Qed.

Lemma sub_scan_skip_span (p run rest : string) :
  Re.all_digits run = true -> Re.starts_digit rest = false ->
  Re.sub_scan p true (run ++ rest) = Re.sub_scan p false rest.
Proof.
  induction run as [|c run IH]; intros Hd Hr; simpl.
  - now apply sub_scan_mode.
  - simpl in Hd. apply andb_true_iff in Hd. destruct Hd as (Hc & Hd).
    rewrite Hc. now apply IH.
Qed.

Lemma sub_scan_copy_span (p run rest : string) :
  Re.all_digits run = true -> Re.starts_digit rest = false ->
  Re.dot_star_digit rest = true ->
  Re.sub_scan p false (run ++ rest) = (run ++ Re.sub_scan p false rest)%string.
Proof.
  induction run as [|c run IH]; intros Hd Hr Hl; [reflexivity|].
  simpl in Hd. apply andb_true_iff in Hd. destruct Hd as (Hc & Hd).
  change ((String c run ++ rest)%string) with (String c (run ++ rest)).
  cbn [Re.sub_scan]. rewrite Hc, (drop_digits_span run rest Hd Hr), Hl. simpl.
  now rewrite IH.
Qed.

(** The substitution, one digit run at a time: a run is replaced when no
    digit follows it on its line, and copied otherwise. *)
Lemma sub_scan_span (p run rest : string) :
  run <> EmptyString -> Re.all_digits run = true -> Re.starts_digit rest = false ->
  Re.sub_scan p false (run ++ rest)
  = ((if Re.dot_star_digit rest then run else p) ++ Re.sub_scan p false rest)%string.
Proof.
  intros Hne Hd Hr. destruct (Re.dot_star_digit rest) eqn:Hl.
  - now apply sub_scan_copy_span.
  - destruct run as [|c run]; [congruence|].
    simpl in Hd. apply andb_true_iff in Hd. destruct Hd as (Hc & Hd).
    change ((String c run ++ rest)%string) with (String c (run ++ rest)).
    cbn [Re.sub_scan]. rewrite Hc, (drop_digits_span run rest Hd Hr), Hl. simpl.
    now rewrite (sub_scan_skip_span p run rest Hd Hr).
Qed.

Lemma starts_digit_digits_app (p x : string) :
  p <> EmptyString -> Re.all_digits p = true -> Re.starts_digit (p ++ x) = true.
Proof.
  destruct p as [|c p]; [congruence|]. simpl. intros _ H.
  apply andb_true_iff in H. tauto.
Qed.

Lemma sub_scan_starts_digit (p t : string) :
  p <> EmptyString -> Re.all_digits p = true ->
  Re.starts_digit (Re.sub_scan p false t) = Re.starts_digit t.
Proof.
  intros Hne Hd. destruct t as [|c t]; [reflexivity|]. cbn [Re.sub_scan].
  destruct (Re.is_digit c) eqn:Hc; [|simpl; now rewrite Hc].
  destruct (negb (Re.dot_star_digit _)); simpl; rewrite Hc; [|reflexivity].
  now apply starts_digit_digits_app.
Qed.

Lemma dot_star_digit_starts (s : string) :
  Re.starts_digit s = true -> Re.dot_star_digit s = true.
Proof. destruct s as [|c s]; [discriminate|]. simpl. now intros ->. Qed.

Lemma sub_scan_lookahead (p t : string) :
  p <> EmptyString -> Re.all_digits p = true ->
  Re.dot_star_digit (Re.sub_scan p false t) = Re.dot_star_digit t.
Proof.
  intros Hne Hd. induction t as [|c t IH]; [reflexivity|].
  destruct (Re.is_digit c) eqn:Hc.
  - rewrite (dot_star_digit_starts (String c t)) by (simpl; exact Hc).
    apply dot_star_digit_starts.
    rewrite (sub_scan_starts_digit p (String c t) Hne Hd). simpl. exact Hc.
  - cbn [Re.sub_scan]. rewrite Hc. simpl. now rewrite Hc, IH.
Qed.

(** Substituting twice is substituting once. *)
Lemma sub_scan_idem (p : string) :
  p <> EmptyString -> Re.all_digits p = true ->
  forall s, Re.sub_scan p false (Re.sub_scan p false s) = Re.sub_scan p false s.
Proof.
  intros Hne Hd s.
  remember (String.length s) as n eqn:En. revert s En.
  induction n as [n IH] using lt_wf_ind. intros s En.
  destruct s as [|c s]; [reflexivity|].
  destruct (Re.is_digit c) eqn:Hc.
  - destruct (digit_span (String c s)) as (run & rest & E & Hrd & Hr & Hrn).
    specialize (Hrn Hc). rewrite E.
    assert (Hlen : (String.length rest < n)%nat).
    { rewrite En, E, length_append. destruct run; [congruence|simpl; lia]. }
    rewrite (sub_scan_span p run rest Hrn Hrd Hr).
    assert (Hr' : Re.starts_digit (Re.sub_scan p false rest) = false)
      by (now rewrite sub_scan_starts_digit).
    destruct (Re.dot_star_digit rest) eqn:Hl.
    + rewrite (sub_scan_span p run _ Hrn Hrd Hr').
      rewrite (sub_scan_lookahead p rest Hne Hd), Hl.
      now rewrite (IH _ Hlen rest eq_refl).
    + rewrite (sub_scan_span p p _ Hne Hd Hr').
      rewrite (sub_scan_lookahead p rest Hne Hd), Hl.
      now rewrite (IH _ Hlen rest eq_refl).
  - cbn [Re.sub_scan]. rewrite Hc. cbn [Re.sub_scan]. rewrite Hc.
    f_equal. apply (IH (String.length s)); [rewrite En; simpl; lia | reflexivity].
Qed.

(** X3: Planning is idempotent: the name that [make_new_name] gives is kept by
    a second call with the same width, whatever the name. *)
Theorem make_new_name_idempotent (p : Path) (w : Z) :
  make_new_name (make_new_name p w) w = make_new_name p w.
Proof.
  destruct (extract_number_token (stem p)) as [[v t]|] eqn:Et.
  - destruct (make_new_name_token p w v t Et) as (Emk & Est & Esu & Etok & _).
    destruct (token_last_run _ _ _ Et) as (_ & pre & suf & (_ & _ & Hne & Hd & _)).
    destruct (zfill_all_digits t w Hne Hd) as (Hzd & Hzne).
    rewrite Emk.
    destruct (make_new_name_token _ w v _ (eq_trans (f_equal extract_number_token Est) Etok))
      as (Emk2 & _).
    rewrite Emk2, Est, Esu, removelast_last, (zfill_zfill t w Hne Hd).
    unfold Re.sub_last_run. now rewrite (sub_scan_idem _ Hzne Hzd).
  - now rewrite !(make_new_name_no_token p w Et).
Qed.

(** X4: a width that does not exceed the token changes nothing, on a stem whose
    last digit run is not preceded by a newline. *)
Theorem make_new_name_narrow_width (p : Path) (w : Z) (pre t suf : string) :
  Re.last_run (stem p) pre t suf ->
  Re.no_newline pre = true ->
  w <= Py.slen t ->
  make_new_name p w = p.
Proof.
  intros Hlr Hn Hw.
  rewrite (make_new_name_one_line p w pre t suf Hlr Hn).
  destruct Hlr as (Es & _ & Hne & _).
  assert (Hz : Py.zfill t w = t).
  { unfold Py.zfill. apply Z.leb_le in Hw. now rewrite Hw. }
  rewrite Hz, <- !append_assoc, (append_assoc pre), <- Es, stem_suffix_name.
  assert (Hp : p <> []).
  { intros ->. unfold stem in Es. simpl in Es. symmetry in Es.
    apply append_eq_nil in Es. destruct Es as (_ & Es).
    apply append_eq_nil in Es. tauto. }
  symmetry. apply app_removelast_last. exact Hp.
Qed.

Lemma make_new_name_narrow_width_witness : make_new_name ["d"; "img007.png"] 2 = ["d"; "img007.png"].
Proof.
  apply (make_new_name_narrow_width ["d"; "img007.png"] 2 "img" "007" "").
  - unfold Re.last_run. repeat split; try reflexivity. discriminate.
  - reflexivity.
  - vm_compute. discriminate.
Defined.

(* ================================================================== *)
(** ** [analyze_dir]: what decides, when it raises, what a report holds *)

Lemma len_nonneg (A : Type) (l : list A) : 0 <= Py.len l.
Proof. unfold Py.len. lia. Qed.

(** The first guard never decides: fewer visible files than [min_files]
    means fewer numbered ones. *)
Lemma analyze_dir_entries (fs : node) (d : Path) (min_files : Z) (listing : list Path) :
  iterdir fs d = Some listing ->
  let entries := numbered (list_files fs listing) in
  analyze_dir fs d min_files
  = if Py.len entries <? min_files then Return None
    else
      match Py.min (map e_val entries), Py.max (map e_val entries) with
      | Some min_n, Some max_n =>
          if negb (consecutive (map e_val entries) min_n max_n) then Return None
          else if (negb (Py.list_eqb String.eqb (lex_order entries) (numeric_order entries))
                   && negb (fully_padded entries (Py.slen (Py.str max_n))))%bool
          then Return (Some {|
                 r_dir := d;
                 r_count := Py.len entries;
                 r_min := min_n;
                 r_max := max_n;
                 r_desired_width := Py.slen (Py.str max_n);
                 r_token_lengths_sample :=
                   Py.sorted (fun n => n) Z.ltb (Py.set (token_lengths entries));
                 r_lex_order_sample := firstn 10 (lex_order entries);
                 r_numeric_order_sample := firstn 10 (numeric_order entries)
               |})
          else Return None
      | _, _ => Raise (ValueError "min() arg is an empty sequence")
      end.
Proof.
  intros Hit entries. unfold analyze_dir. rewrite Hit. fold entries.
  destruct (Py.len (list_files fs listing) <? min_files) eqn:G1; [|reflexivity].
  apply Z.ltb_lt in G1.
  pose proof (numbered_length_le (list_files fs listing)) as Hle.
  fold entries in Hle.
  assert (G2 : (Py.len entries <? min_files) = true)
    by (apply Z.ltb_lt; unfold Py.len in *; lia).
  now rewrite G2.
Qed.

(** X5: the result of the analysis is a function of the numbered visible
    files alone.  Hidden files, subdirectories, files without a digit in
    their stem and the contents of the files have no influence, and
    neither has the count of visible files that the first guard looks at. *)
Theorem analyze_dir_entries_only (fs1 fs2 : node) (d : Path) (min_files : Z)
  (l1 l2 : list Path) :
  iterdir fs1 d = Some l1 ->
  iterdir fs2 d = Some l2 ->
  numbered (list_files fs1 l1) = numbered (list_files fs2 l2) ->
  analyze_dir fs1 d min_files = analyze_dir fs2 d min_files.
Proof.
  intros H1 H2 E.
  rewrite (analyze_dir_entries fs1 d min_files l1 H1).
  rewrite (analyze_dir_entries fs2 d min_files l2 H2).
  cbv zeta. now rewrite E.
Qed.

Lemma analyze_dir_entries_only_witness :
  analyze_dir (Sample.flat ["a9"; "a10"]) ["d"] 3
  = analyze_dir
      (Dir [("d", Dir [("notes", File "n"); ("a10", File "y"); (".a11", File "h");
                       ("a9", File "z"); ("a8", Dir [("a7", File "x")])])])
      ["d"] 3.
Proof.
  apply (analyze_dir_entries_only _ _ ["d"] 3
           [["d"; "a9"]; ["d"; "a10"]]
           [["d"; "notes"]; ["d"; "a10"]; ["d"; ".a11"]; ["d"; "a9"]; ["d"; "a8"]]);
    reflexivity.
Defined.

Lemma analyze_dir_raises_cases (fs : node) (d : Path) (min_files : Z) (e : exn) :
  analyze_dir fs d min_files = Raise e
  <-> (is_dir fs d = false /\ e = OSError "iterdir")
      \/ (exists listing,
            iterdir fs d = Some listing
            /\ numbered (list_files fs listing) = []
            /\ min_files <= 0
            /\ e = ValueError "min() arg is an empty sequence").
Proof.
  destruct (iterdir fs d) as [listing|] eqn:Hit.
  - assert (Hd : is_dir fs d = true).
    { unfold iterdir in Hit. unfold is_dir.
      destruct (lookup fs d) as [[|]|]; congruence. }
    rewrite (analyze_dir_entries fs d min_files listing Hit). cbv zeta.
    destruct (numbered (list_files fs listing)) as [|e0 entries] eqn:En.
    + change (Py.len (@nil entry)) with 0. simpl.
      destruct (0 <? min_files) eqn:G.
      * apply Z.ltb_lt in G. split; [discriminate|].
        intros [(Hf & _)|(l & _ & _ & Hm & _)]; [congruence | lia].
      * apply Z.ltb_ge in G. split.
        -- intros E. right. exists listing. repeat split; auto. congruence.
        -- intros [(Hf & _)|(l & _ & _ & _ & ->)]; [congruence | reflexivity].
    + destruct (min_max_nonempty (map e_val (e0 :: entries))) as (lo & hi & Elo & Ehi);
        [discriminate|].
      rewrite Elo, Ehi. split.
      * destruct (Py.len _ <? min_files); [discriminate|].
        destruct (negb (consecutive _ _ _)); [discriminate|].
        destruct (_ && _)%bool; discriminate.
      * intros [(Hf & _)|(l & El & Hn & _)]; [congruence|].
        assert (l = listing) by congruence. subst l. rewrite En in Hn. discriminate.
  - assert (Hd : is_dir fs d = false).
    { unfold iterdir in Hit. unfold is_dir.
      destruct (lookup fs d) as [[|]|]; congruence. }
    unfold analyze_dir. rewrite Hit. split.
    + intros E. left. split; [exact Hd | congruence].
    + intros [(_ & ->)|(l & El & _)]; [reflexivity | discriminate].
Qed.

(** X6: [analyze_dir] raises in two cases only: the path cannot be listed,
    or no visible file carries a number and [min_files] is at most 0, where
    [min] is called on an empty list. *)
Theorem analyze_dir_raises_iff (fs : node) (d : Path) (min_files : Z) (e : exn) :
  analyze_dir fs d min_files = Raise e
  <-> (is_dir fs d = false /\ e = OSError "iterdir")
      \/ (exists listing,
            iterdir fs d = Some listing
            /\ numbered (list_files fs listing) = []
            /\ min_files <= 0
            /\ e = ValueError "min() arg is an empty sequence").
Proof. apply analyze_dir_raises_cases. Qed.

Lemma numbered_values_nonneg (files : list Path) (v : Z) :
  In v (map e_val (numbered files)) -> 0 <= v.
Proof.
  intros Hv. apply in_map_iff in Hv. destruct Hv as ([[p v'] t] & <- & Hin).
  apply numbered_in in Hin. destruct Hin as (_ & Et).
  destruct (token_last_run _ _ _ Et) as (-> & pre & suf & (_ & _ & _ & Hd & _)).
  now apply int_acc_nonneg.
Qed.

Lemma consecutive_count (nums : list Z) (lo hi : Z) :
  consecutive nums lo hi = true -> hi - lo + 1 <= Py.len nums.
Proof.
  unfold consecutive. cbv zeta. intros H. apply andb_true_iff in H.
  destruct H as (H & _). apply Z.eqb_eq in H. rewrite H.
  unfold Py.len. rewrite (Permutation_length (sorted_perm _ _ _)).
  pose proof (nodup_length_le Z.eq_dec nums). unfold Py.set. lia.
Qed.

Lemma single_entry_orders (e : entry) : lex_order [e] = numeric_order [e].
Proof. reflexivity. Qed.

Lemma sample_length (A : Type) (key : entry -> A) (ltb : A -> A -> bool)
  (entries : list entry) :
  List.length (firstn 10 (map e_name (Py.sorted key ltb entries)))
  = Nat.min 10 (List.length entries).
Proof.
  now rewrite length_firstn, length_map, (Permutation_length (sorted_perm _ _ _)).
Qed.

Lemma lengths_sample_not_padded (entries : list entry) (w : Z) :
  entries <> [] ->
  Py.sorted (fun n => n) Z.ltb (Py.set (token_lengths entries)) = [w] ->
  fully_padded entries w = true.
Proof.
  intros Hne E. unfold fully_padded.
  assert (Hl : Py.len (Py.set (token_lengths entries)) = 1).
  { unfold Py.len.
    rewrite <- (Permutation_length (sorted_perm (fun n => n) Z.ltb _)), E.
    reflexivity. }
  rewrite Hl. simpl.
  destruct entries as [|e entries]; [congruence|]. simpl.
  apply Z.eqb_eq.
  assert (Hin : In (Py.slen (e_token e))
                  (Py.sorted (fun n => n) Z.ltb (Py.set (token_lengths (e :: entries)))))
    by (apply unique_in; now left).
  rewrite E in Hin. destruct Hin as [<-|[]]. reflexivity.
Qed.

(** X7: what a report holds.  A flagged directory has at least two numbered
    files, and at least [min_files]; its values start at 0 or above and
    fill the range from [min] to [max], so the range is not larger than
    the count; the width is the digit count of [max]; each of the two
    samples has ten names, or all of them when there are fewer; the token
    lengths are listed in increasing order and are never just the desired
    width. *)
Theorem analyze_dir_report (fs : node) (d : Path) (min_files : Z) (r : report) :
  analyze_dir fs d min_files = Return (Some r) ->
  r_dir r = d
  /\ 2 <= r_count r
  /\ min_files <= r_count r
  /\ 0 <= r_min r <= r_max r
  /\ r_max r - r_min r + 1 <= r_count r
  /\ r_desired_width r = Py.slen (Py.str (r_max r))
  /\ List.length (r_lex_order_sample r) = Nat.min 10 (Z.to_nat (r_count r))
  /\ List.length (r_numeric_order_sample r) = Nat.min 10 (Z.to_nat (r_count r))
  /\ Py.increasing (r_token_lengths_sample r)
  /\ r_token_lengths_sample r <> [r_desired_width r].
Proof.
  intros E.
  destruct (iterdir fs d) as [listing|] eqn:Hit;
    [|unfold analyze_dir in E; rewrite Hit in E; discriminate].
  rewrite (analyze_dir_entries fs d min_files listing Hit) in E. cbv zeta in E.
  set (entries := numbered (list_files fs listing)) in *.
  destruct (Py.len entries <? min_files) eqn:G; [discriminate|].
  apply Z.ltb_ge in G.
  destruct (Py.min (map e_val entries)) as [lo|] eqn:Elo; [|discriminate].
  destruct (Py.max (map e_val entries)) as [hi|] eqn:Ehi; [|discriminate].
  destruct (negb (consecutive (map e_val entries) lo hi)) eqn:Ec; [discriminate|].
  apply negb_false_iff in Ec.
  destruct (_ && _)%bool eqn:Ef in E; [|discriminate].
  apply andb_true_iff in Ef. destruct Ef as (Eo & Ep).
  apply negb_true_iff in Eo, Ep.
  injection E as <-. cbn [r_dir r_count r_min r_max r_desired_width
                          r_token_lengths_sample r_lex_order_sample
                          r_numeric_order_sample].
  assert (Hne : entries <> []) by (intros En; rewrite En in Elo; discriminate).
  destruct (min_spec _ _ Elo) as (Hlo_in & Hlo).
  destruct (max_spec _ _ Ehi) as (Hhi_in & _).
  assert (Hlen : Z.to_nat (Py.len entries) = List.length entries)
    by (unfold Py.len; lia).
  repeat split.
  - destruct entries as [|e1 [|e2 rest]] eqn:En; [congruence| |unfold Py.len; simpl; lia].
    rewrite single_entry_orders in Eo.
    assert (Ht : Py.list_eqb String.eqb (numeric_order [e1]) (numeric_order [e1]) = true)
      by now apply list_eqb_string.
    congruence.
  - exact G.
  - apply (numbered_values_nonneg (list_files fs listing)). exact Hlo_in.
  - now apply Hlo.
  - pose proof (consecutive_count _ _ _ Ec) as Hc.
    unfold Py.len in *. rewrite length_map in Hc. exact Hc.
  - rewrite Hlen. apply sample_length.
  - rewrite Hlen. apply sample_length.
  - apply unique_increasing.
  - intros Es. rewrite (lengths_sample_not_padded entries _ Hne Es) in Ep. discriminate.
Qed.

Lemma analyze_dir_report_witness :
  let r := {| r_dir := ["d"]; r_count := 2; r_min := 9; r_max := 10;
              r_desired_width := 2; r_token_lengths_sample := [1; 2];
              r_lex_order_sample := ["a10"; "a9"];
              r_numeric_order_sample := ["a9"; "a10"] |} in
  r_dir r = ["d"]
  /\ 2 <= r_count r
  /\ 2 <= r_count r
  /\ 0 <= r_min r <= r_max r
  /\ r_max r - r_min r + 1 <= r_count r
  /\ r_desired_width r = Py.slen (Py.str (r_max r))
  /\ List.length (r_lex_order_sample r) = Nat.min 10 (Z.to_nat (r_count r))
  /\ List.length (r_numeric_order_sample r) = Nat.min 10 (Z.to_nat (r_count r))
  /\ Py.increasing (r_token_lengths_sample r)
  /\ r_token_lengths_sample r <> [r_desired_width r].
Proof.
  intros r. apply (analyze_dir_report (Sample.flat ["a9"; "a10"]) ["d"] 2 r).
  reflexivity.
Defined.

(* ================================================================== *)
(** ** [find_problem_dirs]: which directories are reported, when it raises *)

Lemma scan_dirs_in (fs : node) (min_files : Z) (dirs : list Path) :
  forall results,
    scan_dirs fs min_files dirs = Return results ->
    forall r,
      In r results
      <-> exists d, In d dirs /\ is_leaf_dir fs d = true
                    /\ analyze_dir fs d min_files = Return (Some r).
Proof.
  induction dirs as [|d dirs IH]; intros results E r; simpl in E.
  - injection E as <-. split; [intros []|intros (d & [] & _)].
  - destruct (is_leaf_dir fs d) eqn:Hleaf; simpl in E.
    + destruct (analyze_dir fs d min_files) as [res|e] eqn:Ea; [|discriminate].
      destruct (scan_dirs fs min_files dirs) as [rest|e]; [|discriminate].
      specialize (IH rest eq_refl r).
      destruct res as [r0|]; injection E as <-.
      * simpl. rewrite IH. split.
        -- intros [<-|(d' & Hin & Hl & Hr)]; [exists d; auto|exists d'; auto].
        -- intros (d' & [<-|Hin] & Hl & Hr); [left; congruence|right; eauto].
      * rewrite IH. split.
        -- intros (d' & Hin & Hl & Hr). exists d'; simpl; auto.
        -- intros (d' & [<-|Hin] & Hl & Hr); [congruence|eauto].
    + rewrite (IH results E r). split.
      * intros (d' & Hin & Hl & Hr). exists d'; simpl; auto.
      * intros (d' & [<-|Hin] & Hl & Hr); [congruence|eauto].
Qed.

Lemma scan_dirs_raises (fs : node) (min_files : Z) (dirs : list Path) :
  (forall e, scan_dirs fs min_files dirs = Raise e ->
     exists d, In d dirs /\ is_leaf_dir fs d = true
               /\ analyze_dir fs d min_files = Raise e)
  /\ (forall d e, In d dirs -> is_leaf_dir fs d = true ->
        analyze_dir fs d min_files = Raise e ->
        exists e', scan_dirs fs min_files dirs = Raise e').
Proof.
  induction dirs as [|d dirs (IH1 & IH2)]; split.
  - discriminate.
  - intros d e [].
  - intros e E. simpl in E.
    destruct (is_leaf_dir fs d) eqn:Hleaf; simpl in E.
    + destruct (analyze_dir fs d min_files) as [res|e0] eqn:Ea.
      * destruct (scan_dirs fs min_files dirs) as [rest|e1] eqn:Es.
        -- destruct res; discriminate.
        -- injection E as <-. destruct (IH1 e1 eq_refl) as (d' & Hin & Hl & Hr).
           exists d'. simpl. auto.
      * injection E as <-. exists d. simpl. auto.
    + destruct (IH1 e E) as (d' & Hin & Hl & Hr). exists d'. simpl. auto.
  - intros d' e Hin Hl Hr. simpl.
    destruct (is_leaf_dir fs d) eqn:Hleaf; simpl.
    + destruct (analyze_dir fs d min_files) as [res|e0] eqn:Ea; [|eauto].
      destruct Hin as [<-|Hin]; [congruence|].
      destruct (IH2 d' e Hin Hl Hr) as (e' & ->). eauto.
    + destruct Hin as [<-|Hin]; [congruence|]. now apply (IH2 d' e).
Qed.

(** The leaves among the directories that [find_problem_dirs] visits are
    the leaves at or below the root. *)
Lemma visited_leaves (fs : node) (root d : Path) :
  (In d (root :: filter (is_dir fs) (rglob fs root)) /\ is_leaf_dir fs d = true)
  <-> (exists q, d = root ++ q) /\ is_leaf_dir fs d = true.
Proof.
  split; intros (Hd & Hleaf); (split; [|exact Hleaf]).
  - destruct Hd as [<-|Hin].
    + exists []. now rewrite app_nil_r.
    + apply filter_In in Hin. destruct Hin as (Hin & _).
      unfold rglob in Hin. destruct (lookup fs root); [|destruct Hin].
      apply in_map_iff in Hin. destruct Hin as (q & <- & _). now exists q.
  - destruct Hd as (q & ->).
    destruct q as [|a q]; [left; now rewrite app_nil_r|]. right.
    pose proof (is_leaf_dir_is_dir _ _ Hleaf) as Hdir.
    apply filter_In. split; [|exact Hdir].
    apply is_dir_lookup in Hdir. destruct Hdir as (ch & Hl).
    rewrite lookup_app in Hl. unfold rglob.
    destruct (lookup fs root) as [t|]; [|discriminate].
    apply in_map. apply (lookup_descendants (a :: q) t (Dir ch)); [discriminate|exact Hl].
Qed.

(** X8: [find_problem_dirs] is sound and complete: the reports returned are
    exactly the reports that [analyze_dir] gives for the leaf directories
    at or below the root. *)
Theorem find_problem_dirs_reports (fs : node) (root : Path) (min_files : Z)
  (results : list report) :
  find_problem_dirs fs root min_files = Return results ->
  forall r,
    In r results
    <-> exists q,
          is_leaf_dir fs (root ++ q) = true
          /\ analyze_dir fs (root ++ q) min_files = Return (Some r).
Proof.
  intros E r. unfold find_problem_dirs in E. cbv zeta in E.
  rewrite (scan_dirs_in fs min_files _ results E r). split.
  - intros (d & Hin & Hl & Hr).
    destruct (proj1 (visited_leaves fs root d) (conj Hin Hl)) as ((q & ->) & _).
    eauto.
  - intros (q & Hl & Hr). exists (root ++ q).
    destruct (proj2 (visited_leaves fs root (root ++ q)) (conj (ex_intro _ q eq_refl) Hl))
      as (Hin & _).
    auto.
Qed.

Lemma find_problem_dirs_reports_witness :
  let fs := Dir [("a", Dir [("x1", File "p"); ("x2", File "q")]);
                 ("b", Dir [("c", Dir [("f9", File "p"); ("f10", File "q")])])] in
  let r := {| r_dir := ["b"; "c"]; r_count := 2; r_min := 9; r_max := 10;
              r_desired_width := 2; r_token_lengths_sample := [1; 2];
              r_lex_order_sample := ["f10"; "f9"];
              r_numeric_order_sample := ["f9"; "f10"] |} in
  In r [r]
  <-> exists q,
        is_leaf_dir fs ([] ++ q) = true
        /\ analyze_dir fs ([] ++ q) 2 = Return (Some r).
Proof.
  intros fs r. apply (find_problem_dirs_reports fs [] 2 [r]). reflexivity.
Defined.

(** X9: [find_problem_dirs] raises exactly when [min_files] is at most 0
    and some leaf directory at or below the root has no visible file with
    a number; the exception is the [ValueError] of [min] on an empty
    list. *)
Theorem find_problem_dirs_raises_iff (fs : node) (root : Path) (min_files : Z) (e : exn) :
  find_problem_dirs fs root min_files = Raise e
  <-> e = ValueError "min() arg is an empty sequence"
      /\ min_files <= 0
      /\ exists q listing,
           is_leaf_dir fs (root ++ q) = true
           /\ iterdir fs (root ++ q) = Some listing
           /\ numbered (list_files fs listing) = [].
Proof.
  unfold find_problem_dirs. cbv zeta.
  set (dirs := root :: filter (is_dir fs) (rglob fs root)).
  destruct (scan_dirs_raises fs min_files dirs) as (H1 & H2).
  assert (Hto : forall e', scan_dirs fs min_files dirs = Raise e' ->
            e' = ValueError "min() arg is an empty sequence"
            /\ min_files <= 0
            /\ exists q listing,
                 is_leaf_dir fs (root ++ q) = true
                 /\ iterdir fs (root ++ q) = Some listing
                 /\ numbered (list_files fs listing) = []).
  { intros e' E. destruct (H1 e' E) as (d & Hin & Hl & Hr).
    destruct (proj1 (visited_leaves fs root d) (conj Hin Hl)) as ((q & ->) & _).
    apply analyze_dir_raises_cases in Hr.
    destruct Hr as [(Hf & _)|(listing & Hit & Hn & Hm & ->)].
    - rewrite (is_leaf_dir_is_dir _ _ Hl) in Hf. discriminate.
    - repeat split; auto. exists q, listing. auto. }
  split; [apply Hto|].
  intros (-> & Hm & q & listing & Hl & Hit & Hn).
  destruct (proj2 (visited_leaves fs root (root ++ q)) (conj (ex_intro _ q eq_refl) Hl))
    as (Hin & _).
  assert (Hr : analyze_dir fs (root ++ q) min_files
               = Raise (ValueError "min() arg is an empty sequence")).
  { apply analyze_dir_raises_cases. right. exists listing. auto. }
  destruct (H2 _ _ Hin Hl Hr) as (e' & E).
  destruct (Hto e' E) as (-> & _). exact E.
Qed.

(* ================================================================== *)
(** ** Leaves, and where the reports lie *)

Lemma is_dir_prefix (fs : node) (p q : Path) :
  is_dir fs (p ++ q) = true -> is_dir fs p = true.
Proof.
  intros H. apply is_dir_lookup in H. destruct H as (ch & Hl).
  rewrite lookup_app in Hl. unfold is_dir.
  destruct (lookup fs p) as [[data|ch']|]; try discriminate; [|reflexivity].
  destruct q; simpl in Hl; discriminate.
Qed.

Lemma leaf_has_no_file_below (fs : node) (d : Path) (a : string) (q : Path) :
  is_leaf_dir fs d = true ->
  is_dir fs (d ++ a :: q) = true ->
  forall q', is_file fs (d ++ a :: q ++ q') = false.
Proof.
  intros Hleaf Hdir q'.
  destruct (proj1 (is_leaf_dir_paths fs d) Hleaf) as (_ & Hno).
  assert (Ha : is_dir fs (child d a) = true).
  { apply (is_dir_prefix fs (child d a) q). unfold child.
    now rewrite <- app_assoc. }
  specialize (Hno a (q ++ q') Ha). unfold child in Hno.
  now rewrite <- app_assoc in Hno.
Qed.

(** X10: the leaves are closed downwards: every directory below a leaf
    directory is a leaf directory. *)
Theorem is_leaf_dir_below (fs : node) (d q : Path) :
  is_leaf_dir fs d = true ->
  is_dir fs (d ++ q) = true ->
  is_leaf_dir fs (d ++ q) = true.
Proof.
  intros Hleaf Hdir. destruct q as [|a q]; [now rewrite app_nil_r|].
  apply is_leaf_dir_paths. split; [exact Hdir|].
  intros n q' _. unfold child.
  rewrite <- !app_assoc. simpl.
  apply (leaf_has_no_file_below fs d a q Hleaf Hdir).
Qed.

Lemma is_leaf_dir_below_witness :
  is_leaf_dir (Dir [("a", Dir [("f", File "x"); ("b", Dir [("c", Dir [])])])])
    (["a"] ++ ["b"]) = true.
Proof.
  apply (is_leaf_dir_below _ ["a"] ["b"]); reflexivity.
Defined.

Lemma numbered_nonempty_file (fs : node) (d : Path) (listing : list Path) :
  iterdir fs d = Some listing ->
  numbered (list_files fs listing) <> [] ->
  exists n, is_file fs (child d n) = true.
Proof.
  intros Hit Hne.
  destruct (numbered (list_files fs listing)) as [|[[p v] t] rest] eqn:En; [congruence|].
  assert (Hin : In (p, v, t) (numbered (list_files fs listing)))
    by (rewrite En; now left).
  apply numbered_in in Hin. destruct Hin as (Hin & _).
  unfold list_files in Hin. apply filter_In in Hin. destruct Hin as (Hin & Hv).
  apply sorted_in in Hin.
  unfold visible_file in Hv. apply andb_true_iff in Hv. destruct Hv as (Hf & _).
  unfold iterdir in Hit. destruct (lookup fs d) as [[data|ch]|]; try discriminate.
  injection Hit as <-. apply in_map_iff in Hin. destruct Hin as (e & <- & _).
  now exists (fst e).
Qed.

Lemma reported_has_file (fs : node) (d : Path) (min_files : Z) (r : report) :
  analyze_dir fs d min_files = Return (Some r) ->
  r_dir r = d /\ exists n, is_file fs (child d n) = true.
Proof.
  intros E.
  destruct (iterdir fs d) as [listing|] eqn:Hit;
    [|unfold analyze_dir in E; rewrite Hit in E; discriminate].
  pose proof E as E'.
  rewrite (analyze_dir_entries fs d min_files listing Hit) in E'. cbv zeta in E'.
  split.
  - destruct (_ <? _); [discriminate|].
    destruct (Py.min _); [|discriminate]. destruct (Py.max _); [|discriminate].
    destruct (negb _); [discriminate|].
    destruct (_ && _)%bool; [|discriminate].
    now injection E' as <-.
  - apply (numbered_nonempty_file fs d listing Hit). intros En.
    rewrite En in E'. simpl in E'. destruct (_ <? _); discriminate.
Qed.

(** X11: no reported directory lies below another reported directory. *)
Theorem reports_not_nested (fs : node) (root : Path) (min_files : Z)
  (results : list report) (r1 r2 : report) (q : Path) :
  find_problem_dirs fs root min_files = Return results ->
  In r1 results -> In r2 results ->
  r_dir r2 = r_dir r1 ++ q ->
  q = [].
Proof.
  intros E H1 H2 Eq. unfold find_problem_dirs in E. cbv zeta in E.
  apply (scan_dirs_in fs min_files _ results E) in H1, H2.
  destruct H1 as (d1 & _ & Hl1 & Hr1). destruct H2 as (d2 & _ & Hl2 & Hr2).
  destruct (reported_has_file _ _ _ _ Hr1) as (Ed1 & _).
  destruct (reported_has_file _ _ _ _ Hr2) as (Ed2 & n & Hf).
  rewrite Ed1, Ed2 in Eq. subst d2.
  destruct q as [|a q]; [reflexivity|]. exfalso.
  pose proof (leaf_has_no_file_below fs d1 a q Hl1 (is_leaf_dir_is_dir _ _ Hl2) [n]) as Hno.
  unfold child in Hf. rewrite <- app_assoc in Hf. simpl in Hf. congruence.
Qed.

Lemma reports_not_nested_witness :
  let r := {| r_dir := ["b"; "c"]; r_count := 2; r_min := 9; r_max := 10;
              r_desired_width := 2; r_token_lengths_sample := [1; 2];
              r_lex_order_sample := ["f10"; "f9"];
              r_numeric_order_sample := ["f9"; "f10"] |} in
  @nil string = [].
Proof.
  intros r.
  apply (reports_not_nested
           (Dir [("a", Dir [("x1", File "p"); ("x2", File "q")]);
                 ("b", Dir [("c", Dir [("f9", File "p"); ("f10", File "q")])])])
           [] 2 [r] r r []).
  - reflexivity.
  - now left.
  - now left.
  - reflexivity.
Defined.

(* ================================================================== *)
(** ** [perform_renames]: every run that passes the pre-flight returns *)

Section LiveOutcome.
Context {FS : Type} `{FileSystem FS}.
Variable uuid4_hex : nat -> string.

Lemma planned_length (mapping : list (Path * Path)) :
  forall i, List.length (planned uuid4_hex mapping i) = List.length mapping.
Proof.
  induction mapping as [|[s d] rest IH]; intros i; simpl; [reflexivity|].
  now rewrite IH.
Qed.

Lemma nth_error_lt (A : Type) (l : list A) (j : nat) (x : A) :
  nth_error l j = Some x -> (j < List.length l)%nat.
Proof. intros E. apply nth_error_Some. congruence. Qed.

(** A live run over a mapping that passes the pre-flight either completes
    every pair, by the planned calls in order, or stops with fewer pairs
    completed than planned; it returns in both cases. *)
Lemma live_run_cases (mapping : list (Path * Path)) (force : bool) (w : world FS) :
  NoDup (map snd mapping) ->
  (forall sd, In sd mapping ->
     clobbers (w_fs w) (resolved_sources (w_fs w) mapping) force (snd sd) = false) ->
  let r := perform_renames uuid4_hex mapping false force w in
  let P := planned uuid4_hex mapping (w_uuids w) in
  (fst r = Return (Py.len mapping, 0)
   /\ w_calls (snd r) = w_calls w ++ map ok (map call1 P ++ flat_map calls2 P)
   /\ replay (map ok (map call1 P ++ flat_map calls2 P)) (w_fs w) = Some (w_fs (snd r)))
  \/ (exists s, fst r = Return (s, Py.len mapping - s) /\ 0 <= s < Py.len mapping).
Proof.
  intros Hd Hok r P.
  assert (Er : r = perform_renames uuid4_hex mapping false force w) by reflexivity.
  clearbody r.
  rewrite (preflight_passes_run uuid4_hex mapping false force w Hd Hok) in Er.
  unfold bind at 1 in Er. unfold two_phase in Er. unfold bind at 1 in Er.
  unfold attempt in Er.
  pose proof (planned_length mapping (w_uuids w)) as HP. fold P in HP.
  pose proof (phase1_run uuid4_hex mapping [] w) as H1. simpl in H1. fold P in H1.
  destruct (phase1 uuid4_hex mapping [] w) as [[tm|e] w1].
  - destruct H1 as (Etm & Ec1 & Ep1). subst tm.
    pose proof (phase2_run (resolved_sources (w_fs w) mapping) force P 0 w1) as H2.
    destruct (phase2 (resolved_sources (w_fs w) mapping) force (map td P) 0 w1)
      as [[[s' [e|]]|e] w2]; [| |contradiction].
    + destruct H2 as (j & x & Ex & Es & _). apply nth_error_lt in Ex.
      unfold bind, eprint, ret in Er. subst r. simpl. right.
      exists s'. split; [reflexivity|]. unfold Py.len. lia.
    + destruct H2 as (Es & Ec2 & Ep2).
      unfold ret in Er. subst r. simpl. left. split; [|split].
      * unfold Py.len in *. rewrite Es, HP. reflexivity.
      * rewrite Ec2, Ec1, map_app, <- app_assoc. reflexivity.
      * rewrite map_app. rewrite (replay_app _ _ _ _ Ep1). exact Ep2.
  - destruct H1 as (k & Hk & _).
    unfold bind, eprint, ret in Er. subst r. simpl. right.
    exists 0. split; [reflexivity|]. unfold Py.len. lia.
Qed.

(** X12: the two numbers that a live run returns.  When the mapping passes
    the pre-flight, [perform_renames] returns [(succeeded, failed)] with
    [succeeded + failed = len(mapping)]: [failed] counts the pairs that
    were not completed, not the calls that failed.  When [failed] is 0,
    the calls made are the planned ones, all successful: every source to
    its temporary name, then for every pair the [mkdir] of the parent and
    the rename to the destination. *)
Theorem live_run_counts (mapping : list (Path * Path)) (force : bool) (w : world FS) :
  NoDup (map snd mapping) ->
  (forall sd, In sd mapping ->
     clobbers (w_fs w) (resolved_sources (w_fs w) mapping) force (snd sd) = false) ->
  let r := perform_renames uuid4_hex mapping false force w in
  let P := planned uuid4_hex mapping (w_uuids w) in
  exists succeeded failed,
    fst r = Return (succeeded, failed)
    /\ 0 <= succeeded
    /\ 0 <= failed
    /\ succeeded + failed = Py.len mapping
    /\ (failed = 0 ->
        w_calls (snd r) = w_calls w ++ map ok (map call1 P ++ flat_map calls2 P)
        /\ replay (map ok (map call1 P ++ flat_map calls2 P)) (w_fs w)
           = Some (w_fs (snd r))).
Proof.
  intros Hd Hok r P.
  destruct (live_run_cases mapping force w Hd Hok) as [(E & Ec & Ep)|(s & E & Hs)];
    fold r in E.
  - fold r P in Ec, Ep. exists (Py.len mapping), 0.
    pose proof (len_nonneg _ mapping). repeat split; auto; lia.
  - exists s, (Py.len mapping - s). repeat split; auto; try lia.
Qed.

(** X13: [perform_renames] raises exactly when the pre-flight validation
    fails, in a dry run and in a live run alike: whatever goes wrong in
    the two phases is caught and counted. *)
Theorem perform_renames_raises_iff
  (mapping : list (Path * Path)) (dry_run force : bool) (w : world FS) :
  (exists e, fst (perform_renames uuid4_hex mapping dry_run force w) = Raise e)
  <-> (~ NoDup (map snd mapping)
       \/ exists sd, In sd mapping /\
            clobbers (w_fs w) (resolved_sources (w_fs w) mapping) force (snd sd) = true).
Proof.
  split.
  - intros (e & E).
    destruct (has_duplicates (map snd mapping)) eqn:Hd;
      [left; now apply has_duplicates_true|].
    apply has_duplicates_false in Hd.
    destruct (check_destinations_cases (resolved_sources (w_fs w) mapping) force mapping w)
      as [Hok|Hbad]; [exfalso|now right].
    destruct dry_run.
    + destruct (dry_run_passes uuid4_hex mapping force w Hd Hok) as (out & E').
      rewrite E' in E. discriminate.
    + destruct (live_run_cases mapping force w Hd Hok) as [(E' & _)|(s & E' & _)];
        rewrite E' in E; discriminate.
  - intros Hbad.
    destruct (preflight_fails_run uuid4_hex mapping dry_run force w Hbad) as (msg & E).
    rewrite E. simpl. eauto.
Qed.

End LiveOutcome.

Lemma live_run_counts_witness :
  let mapping := [(["d"; "a1"], ["d"; "a01"]); (["d"; "a2"], ["d"; "a02"])] in
  let w := Sample.fresh (Sample.flat ["a1"; "a2"]) in
  let r := perform_renames Sample.uuid mapping false false w in
  let P := planned Sample.uuid mapping 0 in
  exists succeeded failed,
    fst r = Return (succeeded, failed)
    /\ 0 <= succeeded
    /\ 0 <= failed
    /\ succeeded + failed = 2
    /\ (failed = 0 ->
        w_calls (snd r) = [] ++ map ok (map call1 P ++ flat_map calls2 P)
        /\ replay (map ok (map call1 P ++ flat_map calls2 P)) (w_fs w)
           = Some (w_fs (snd r))).
Proof.
  intros mapping w r P.
  apply (live_run_counts Sample.uuid mapping false w).
  - apply has_duplicates_false. reflexivity.
  - intros sd [<-|[<-|[]]]; reflexivity.
Defined.

(* ================================================================== *)
(** ** [main]: what it changes and what it returns *)

Section MainFacts.
Variable uuid4_hex : nat -> string.

(** The world after some lines were printed on the standard output. *)
Lemma print_reports_frame (results : list report) :
  forall w : world node,
    exists out,
      print_reports results w
      = (Return tt,
         mkWorld (w_fs w) (w_stdout w ++ out) (w_stderr w) (w_uuids w) (w_calls w)).
Proof.
  induction results as [|r rest IH]; intros w; simpl.
  - exists []. rewrite app_nil_r. now destruct w.
  - unfold bind, print.
    match goal with
    | |- context [print_reports rest ?w'] => destruct (IH w') as (out & E); rewrite E
    end.
    simpl. eexists. rewrite <- !app_assoc. reflexivity.
Qed.

Lemma print_pairs_frame (mappings : list (Path * Path)) :
  forall w : world node,
    exists out,
      print_pairs mappings w
      = (Return tt,
         mkWorld (w_fs w) (w_stdout w ++ out) (w_stderr w) (w_uuids w) (w_calls w)).
Proof.
  induction mappings as [|[s t] rest IH]; intros w; simpl.
  - exists []. rewrite app_nil_r. now destruct w.
  - unfold bind, print.
    match goal with
    | |- context [print_pairs rest ?w'] => destruct (IH w') as (out & E); rewrite E
    end.
    simpl. eexists. rewrite <- !app_assoc. reflexivity.
Qed.

(** The planner only reads the file system and prints; it returns when
    every reported directory can be listed. *)
Lemma plan_all_frame (width_arg : option Z) (results : list report) :
  forall (acc : list (Path * Path)) (w : world node),
    exists o out,
      plan_all width_arg results acc w
      = (o, mkWorld (w_fs w) (w_stdout w ++ out) (w_stderr w) (w_uuids w) (w_calls w))
      /\ ((forall r, In r results -> is_dir (w_fs w) (r_dir r) = true) ->
          exists all_mappings, o = Return all_mappings).
Proof.
  induction results as [|r rest IH]; intros acc w.
  - simpl. exists (Return acc), []. rewrite app_nil_r. split; [now destruct w|eauto].
  - cbn [plan_all]. unfold bind at 1. unfold get_fs at 1.
    destruct (iterdir (w_fs w) (r_dir r)) as [listing|] eqn:Hit.
    + assert (Hsame : exists o out,
                plan_all width_arg rest acc w
                = (o, mkWorld (w_fs w) (w_stdout w ++ out) (w_stderr w) (w_uuids w)
                        (w_calls w))
                /\ ((forall r0, In r0 (r :: rest) -> is_dir (w_fs w) (r_dir r0) = true) ->
                    exists all_mappings, o = Return all_mappings)).
      { destruct (IH acc w) as (o & out & E & Hret). exists o, out. split; [exact E|].
        intros Hall. apply Hret. intros r0 Hr0. apply Hall. now right. }
      destruct (Py.max (map e_val (numbered (list_files (w_fs w) listing))))
        as [max_n|]; [|exact Hsame].
      match goal with
      | |- context [plan_mappings ?fs ?es ?wd] =>
          set (width := wd); destruct (plan_mappings fs es width) as [|m ms] eqn:Em
      end; [exact Hsame|].
      unfold bind at 1. unfold print at 1.
      unfold bind at 1.
      match goal with
      | |- context [print_pairs ?l ?w'] =>
          destruct (print_pairs_frame l w') as (out1 & E1); rewrite E1
      end.
      cbn [w_fs w_stdout w_stderr w_uuids w_calls].
      unfold bind at 1.
      match goal with
      | |- context [(if ?b then print ?x else ret tt) ?w'] =>
          assert (E2 : exists out2,
                    (if b then print x else ret tt) w'
                    = (Return tt,
                       mkWorld (w_fs w') (w_stdout w' ++ out2) (w_stderr w') (w_uuids w')
                         (w_calls w')))
            by (destruct b; [exists [x]; reflexivity
                            |exists []; unfold ret; rewrite app_nil_r; reflexivity]);
          destruct E2 as (out2 & E2); rewrite E2
      end.
      cbn [w_fs w_stdout w_stderr w_uuids w_calls].
      match goal with
      | |- context [plan_all width_arg rest ?acc' ?w'] =>
          destruct (IH acc' w') as (o & out & E & Hret); rewrite E
      end.
      cbn [w_fs w_stdout w_stderr w_uuids w_calls].
      exists o. eexists. split.
      * rewrite <- !app_assoc. reflexivity.
      * intros Hall. apply Hret. intros r0 Hr0. apply Hall. now right.
    + unfold raise. exists (Raise (OSError "iterdir")), []. rewrite app_nil_r.
      split; [now destruct w|].
      intros Hall. specialize (Hall r (or_introl eq_refl)).
      destruct (iterdir_is_dir _ _ Hall) as (l & El). congruence.
Qed.

Lemma reported_dirs (fs : node) (root : Path) (min_files : Z) (results : list report) :
  find_problem_dirs fs root min_files = Return results ->
  forall r, In r results -> is_dir fs (r_dir r) = true.
Proof.
  intros E r Hr. unfold find_problem_dirs in E. cbv zeta in E.
  apply (scan_dirs_in fs min_files _ results E) in Hr.
  destruct Hr as (d & _ & Hl & Ha).
  destruct (reported_has_file _ _ _ _ Ha) as (-> & _).
  now apply is_leaf_dir_is_dir.
Qed.

(** Every run of [main]: the exception of the scan, or an exit code. *)
Lemma main_cases (a : args) (w : world node) :
  match find_problem_dirs (w_fs w) (a_root a) (a_min_files a) with
  | Raise e => main uuid4_hex a w = (Raise e, w)
  | Return results =>
      exists code w',
        main uuid4_hex a w = (Return code, w')
        /\ ((code = 0
             /\ ((a_json a || negb (a_rename a) || a_dry_run a)%bool = true ->
                 w_fs w' = w_fs w /\ w_calls w' = w_calls w))
            \/ (code = 2
                /\ a_json a = false /\ a_rename a = true /\ results <> []
                /\ w_fs w' = w_fs w /\ w_calls w' = w_calls w
                /\ exists msg,
                     w_stderr w' = w_stderr w ++ [Line ("Pre-check failed: " ++ msg)]))
  end.
Proof.
  destruct (find_problem_dirs (w_fs w) (a_root a) (a_min_files a)) as [results|e] eqn:Ef.
  2:{ unfold main. unfold bind at 1. unfold get_fs at 1. unfold bind at 1.
      rewrite Ef. reflexivity. }
  pose proof (reported_dirs _ _ _ _ Ef) as Hdirs.
  unfold main. unfold bind at 1. unfold get_fs at 1. unfold bind at 1.
  rewrite Ef. cbn [lift]. unfold ret at 1.
  destruct (a_json a) eqn:Hj.
  { eexists 0, _. split; [reflexivity|]. left. split; [reflexivity|]. intros _. now split. }
  destruct results as [|r0 rest] eqn:Eres.
  { eexists 0, _. split; [reflexivity|]. left. split; [reflexivity|]. intros _. now split. }
  rewrite <- Eres in *.
  destruct (a_rename a) eqn:Hr; cbn [negb].
  2:{ unfold bind at 1. unfold print at 1. unfold bind at 1.
      match goal with
      | |- context [print_reports results ?w1] =>
          destruct (print_reports_frame results w1) as (out & E); rewrite E
      end.
      eexists 0, _. split; [reflexivity|]. left. split; [reflexivity|]. intros _. now split. }
  unfold bind at 1.
  destruct (plan_all_frame (a_width a) results [] w) as (o & out & Ep & Hret).
  destruct (Hret Hdirs) as (all_mappings & ->). rewrite Ep.
  set (w1 := mkWorld (w_fs w) (w_stdout w ++ out) (w_stderr w) (w_uuids w) (w_calls w)).
  destruct all_mappings as [|m ms] eqn:Em.
  { eexists 0, _. split; [reflexivity|]. left. split; [reflexivity|]. intros _. now split. }
  rewrite <- Em. clear Em. unfold bind at 1. unfold attempt at 1.
  assert (Hpre : (NoDup (map snd all_mappings)
                  /\ forall sd, In sd all_mappings ->
                       clobbers (w_fs w1) (resolved_sources (w_fs w1) all_mappings)
                         (a_force a) (snd sd) = false)
                 \/ (~ NoDup (map snd all_mappings)
                     \/ exists sd, In sd all_mappings /\
                          clobbers (w_fs w1) (resolved_sources (w_fs w1) all_mappings)
                            (a_force a) (snd sd) = true)).
  { destruct (has_duplicates (map snd all_mappings)) eqn:Hd.
    - right. left. now apply has_duplicates_true.
    - apply has_duplicates_false in Hd.
      destruct (check_destinations_cases (resolved_sources (w_fs w1) all_mappings)
                  (a_force a) all_mappings w1) as [Hok|Hbad]; [left|right]; auto. }
  destruct Hpre as [(Hd & Hok)|Hbad].
  - destruct (a_dry_run a) eqn:Hdry.
    + destruct (dry_run_passes uuid4_hex all_mappings (a_force a) w1 Hd Hok) as (out2 & E).
      rewrite E.
      eexists 0, _. split; [reflexivity|]. left. split; [reflexivity|]. intros _. now split.
    + pose proof (live_run_cases uuid4_hex all_mappings (a_force a) w1 Hd Hok) as Hlive.
      cbv zeta in Hlive.
      destruct (perform_renames uuid4_hex all_mappings false (a_force a) w1) as [o2 w2].
      simpl in Hlive. destruct Hlive as [(-> & _)|(s & -> & _)].
      * eexists 0, _. split; [reflexivity|]. left. split; [reflexivity|]. discriminate.
      * eexists 0, _. split; [reflexivity|]. left. split; [reflexivity|]. discriminate.
  - destruct (preflight_fails_run uuid4_hex all_mappings (a_dry_run a) (a_force a) w1 Hbad)
      as (msg & E).
    rewrite E.
    eexists 2, _. split; [reflexivity|]. right.
    split; [reflexivity|]. split; [reflexivity|]. split; [reflexivity|].
    split; [rewrite Eres; discriminate|].
    split; [reflexivity|]. split; [reflexivity|].
    exists msg. reflexivity.
Qed.

(** X14: [main] changes the file system only in a live rename.  With
    [--json], without [--rename], or with [--dry-run], the file system it
    leaves is the one it found and no rename or mkdir call was made,
    whether it returns or raises. *)
Theorem main_read_only_modes (a : args) (w : world node) :
  (a_json a || negb (a_rename a) || a_dry_run a)%bool = true ->
  let r := main uuid4_hex a w in
  w_fs (snd r) = w_fs w /\ w_calls (snd r) = w_calls w.
Proof.
  intros Hmode r. subst r. pose proof (main_cases a w) as H.
  destruct (find_problem_dirs (w_fs w) (a_root a) (a_min_files a)) as [results|e].
  - destruct H as (code & w' & -> & [(_ & Hu)|(_ & _ & _ & _ & Hfs & Hc & _)]); simpl; auto.
  - rewrite H. now split.
Qed.

(** X15: the exit code.  [main] raises exactly when the scan raises, and
    otherwise returns 0 or 2.  It returns 2 only in rename mode, when the
    pre-flight validation of [perform_renames] fails: nothing was renamed,
    and the reason is on the standard error.  A live run that stops in the
    middle of the renames still returns 0. *)
Theorem main_exit_code (a : args) (w : world node) :
  let r := main uuid4_hex a w in
  (forall e,
     fst r = Raise e
     <-> find_problem_dirs (w_fs w) (a_root a) (a_min_files a) = Raise e)
  /\ (forall code, fst r = Return code -> code = 0 \/ code = 2)
  /\ (fst r = Return 2 ->
      a_json a = false /\ a_rename a = true
      /\ w_fs (snd r) = w_fs w /\ w_calls (snd r) = w_calls w
      /\ exists msg, w_stderr (snd r) = w_stderr w ++ [Line ("Pre-check failed: " ++ msg)]).
Proof.
  intros r. subst r. pose proof (main_cases a w) as H.
  destruct (find_problem_dirs (w_fs w) (a_root a) (a_min_files a)) as [results|e0].
  - destruct H as (code & w' & -> & Hc). simpl. split; [|split].
    + intros e. split; discriminate.
    + intros c [= <-]. destruct Hc as [(-> & _)|(-> & _)]; auto.
    + intros [= ->]. destruct Hc as [(Hc & _)|(_ & Hj & Hr & _ & Hfs & Hcalls & Herr)];
        [discriminate|auto].
  - rewrite H. simpl. split; [|split].
    + intros e. split; congruence.
    + discriminate.
    + discriminate.
Qed.

End MainFacts.

Lemma main_read_only_modes_witness :
  let a := mkArgs [] 2 false true None true false in
  let w := Sample.fresh (Sample.flat ["a9"; "a10"]) in
  let r := main Sample.uuid a w in
  w_fs (snd r) = w_fs w /\ w_calls (snd r) = w_calls w.
Proof.
  intros a w. apply (main_read_only_modes Sample.uuid a w). reflexivity.
Defined.

(* ================================================================== *)
(** ** The planner: destinations of files with distinct values *)

Lemma make_new_name_value (p : Path) (w v : Z) (t : string) :
  extract_number_token (stem p) = Some (v, t) ->
  extract_number_token (stem (make_new_name p w)) = Some (v, Py.zfill t w).
Proof.
  intros E. destruct (make_new_name_token p w v t E) as (-> & -> & _ & Et & _).
  exact Et.
Qed.

Lemma numbered_entry (files : list Path) (e : entry) :
  In e (numbered files) ->
  extract_number_token (stem (e_path e)) = Some (e_val e, e_token e).
Proof.
  destruct e as [[p v] t]. intros Hin. apply numbered_in in Hin. now destruct Hin.
Qed.

Lemma NoDup_map_eq (A B : Type) (f : A -> B) (l : list A) (x y : A) :
  NoDup (map f l) -> In x l -> In y l -> f x = f y -> x = y.
Proof.
  induction l as [|a l IH]; simpl; intros ND Hx Hy E; [destruct Hx|].
  inversion ND as [|? ? Hnin ND']; subst.
  destruct Hx as [->|Hx], Hy as [->|Hy]; auto.
  - exfalso. apply Hnin. rewrite E. now apply in_map.
  - exfalso. apply Hnin. rewrite <- E. now apply in_map.
Qed.

(** X16: when the numbered files of a directory have pairwise distinct
    values, the planner's destinations are pairwise distinct, and none of
    them is the path of a numbered file: a planned rename never lands on
    another file of the sequence. *)
Theorem plan_mappings_distinct (fs : node) (files : list Path) (w : Z) :
  NoDup (map e_val (numbered files)) ->
  let mapping := plan_mappings fs (numbered files) w in
  NoDup (map snd mapping)
  /\ forall src dst e,
       In (src, dst) mapping -> In e (numbered files) -> dst <> e_path e.
Proof.
  intros ND mapping.
  assert (Hval : forall src dst e e',
            In e (numbered files) -> In e' (numbered files) ->
            src = e_path e -> dst = make_new_name src w -> dst = e_path e' ->
            e = e').
  { intros src dst e e' He He' -> -> Ed.
    apply (NoDup_map_eq _ _ e_val (numbered files)); auto.
    pose proof (make_new_name_value _ w _ _ (numbered_entry _ _ He)) as E1.
    pose proof (numbered_entry _ _ He') as E2.
    rewrite Ed in E1. congruence. }
  split.
  - subst mapping.
    assert (Hgen : forall l,
              (forall e, In e l -> In e (numbered files)) ->
              NoDup (map e_val l) ->
              NoDup (map snd (plan_mappings fs l w))).
    { induction l as [|e l IH]; intros Hsub NDl; simpl; [constructor|].
      inversion NDl as [|? ? Hnin NDl']; subst.
      assert (IHl : NoDup (map snd (plan_mappings fs l w)))
        by (apply IH; [intros x Hx; apply Hsub; now right | exact NDl']).
      destruct (negb (path_eqb _ _)); [|exact IHl].
      simpl. constructor; [|exact IHl].
      intros Hin. apply in_map_iff in Hin. destruct Hin as ([src' dst'] & Ed & Hin).
      simpl in Ed. subst dst'.
      apply plan_mappings_spec in Hin. destruct Hin as (e' & He' & -> & Ed' & _).
      apply Hnin.
      assert (Hv : e_val e = e_val e').
      { pose proof (make_new_name_value _ w _ _
                      (numbered_entry _ _ (Hsub e (or_introl eq_refl)))) as E1.
        pose proof (make_new_name_value _ w _ _
                      (numbered_entry _ _ (Hsub e' (or_intror He')))) as E2.
        rewrite <- Ed' in E2. congruence. }
      rewrite Hv. now apply in_map. }
    apply Hgen; auto.
  - intros src dst e' Hin He' Ed.
    apply plan_mappings_spec in Hin. destruct Hin as (e & He & Hs & Hd & Hne).
    assert (e = e') by (apply (Hval src dst); auto). subst e'. congruence.
Qed.

Lemma plan_mappings_distinct_witness :
  let mapping :=
    plan_mappings (Sample.flat ["a9"; "a10"; "a8"])
      (numbered [["d"; "a9"]; ["d"; "a10"]; ["d"; "a8"]]) 2 in
  NoDup (map snd mapping)
  /\ forall src dst e,
       In (src, dst) mapping ->
       In e (numbered [["d"; "a9"]; ["d"; "a10"]; ["d"; "a8"]]) -> dst <> e_path e.
Proof.
  apply (plan_mappings_distinct (Sample.flat ["a9"; "a10"; "a8"])
           [["d"; "a9"]; ["d"; "a10"]; ["d"; "a8"]] 2).
  change (NoDup [9; 10; 8]).
  repeat constructor; simpl; intuition discriminate.
Defined.

(* ================================================================== *)
(** ** make_cbz.py: [find_leaf_dirs] against the paths of the tree *)

Lemma keeps_cases fs (include_empty : bool) cur ch :
  lookup fs cur = Some (Dir ch) ->
  (MakeCbz.keeps fs include_empty (cur, dirnames ch, filenames ch) = true
   <-> (include_empty = true \/ MakeCbz.visible_count (filenames ch) <> 0)
       /\ forall e, In e (below cur ch) -> MakeCbz.visible_count (snd e) = 0).
Proof.
  intros Hl. rewrite <- (keeps_iff fs cur ch Hl). unfold MakeCbz.keeps. simpl.
  rewrite andb_false_r.
  destruct (MakeCbz.visible_count (filenames ch) =? 0) eqn:E0.
  - apply Z.eqb_eq in E0. destruct include_empty; simpl.
    + tauto.
    + split; [discriminate|]. intros ([Hf|Hne] & _); [discriminate|contradiction].
  - apply Z.eqb_neq in E0. simpl. tauto.
Qed.

Lemma direct_visible_file fs cur ch :
  wf fs ->
  lookup fs cur = Some (Dir ch) ->
  (MakeCbz.visible_count (filenames ch) <> 0
   <-> exists f, is_file fs (child cur f) = true /\ Py.startswith_dot f = false).
Proof.
  intros Hw Hl. split.
  - intros Hne. destruct (visible_count_zero _ Hne) as (f & Hf & Hv).
    exists f. split; [|exact Hv].
    apply filenames_in in Hf. destruct Hf as (data & Hf).
    destruct (wf_children _ (wf_lookup cur fs _ Hw Hl)) as (ND & _).
    apply is_file_lookup. exists data. unfold child. rewrite lookup_app, Hl. simpl.
    now rewrite (assoc_nodup f (File data) ch ND Hf).
  - intros (f & Hf & Hv). apply is_file_lookup in Hf. destruct Hf as (data & Hf).
    unfold child in Hf. rewrite lookup_app, Hl in Hf. simpl in Hf.
    destruct (assoc f ch) as [c|] eqn:Ea; [|discriminate]. injection Hf as ->.
    assert (0 < MakeCbz.visible_count (filenames ch)); [|lia].
    apply (visible_count_pos _ f); [|exact Hv].
    apply filenames_in. exists data. now apply assoc_in.
Qed.

(** In a well-formed tree, a counted file below a subdirectory is a visible
    file below that subdirectory. *)
Lemma counted_is_visible_below fs cur ch e :
  wf fs ->
  lookup fs cur = Some (Dir ch) ->
  In e (below cur ch) ->
  MakeCbz.visible_count (snd e) <> 0 ->
  exists n q,
    is_dir fs (child cur n) = true
    /\ is_file fs (child cur n ++ q) = true
    /\ Py.startswith_dot (name (child cur n ++ q)) = false.
Proof.
  intros Hw Hl He Hc.
  pose proof (wf_lookup cur fs _ Hw Hl) as Hwc.
  destruct (wf_children _ Hwc) as (ND & Hall). rewrite Forall_forall in Hall.
  unfold below in He. apply in_flat_map in He. destruct He as ([n c] & Hnc & He).
  simpl in He.
  destruct (walk_sound c (child cur n) e (Hall (n, c) Hnc) He) as (q & ch'' & -> & Hq).
  simpl in Hc. destruct (visible_count_zero _ Hc) as (f & Hf & Hv).
  apply filenames_in in Hf. destruct Hf as (data & Hf).
  assert (Hsub : lookup fs (child cur n) = Some c).
  { unfold child. rewrite lookup_app, Hl. simpl. now rewrite (assoc_nodup n c ch ND Hnc). }
  assert (Hwq : wf (Dir ch'')).
  { apply (wf_lookup q c); [apply (Hall (n, c) Hnc) | exact Hq]. }
  destruct (wf_children _ Hwq) as (ND'' & _).
  exists n, (q ++ [f]). split; [|split].
  - apply is_dir_lookup. destruct c as [?|chc].
    + destruct q; discriminate.
    + eauto.
  - apply is_file_lookup. exists data.
    rewrite lookup_app, Hsub, lookup_app, Hq. simpl.
    now rewrite (assoc_nodup f (File data) ch'' ND'' Hf).
  - unfold name. now rewrite !app_assoc, last_last.
Qed.

(** The directories that [find_leaf_dirs] returns, by the paths of the
    tree. *)
Lemma find_leaf_dirs_paths (fs : node) (root d : Path) (include_empty : bool) :
  wf fs ->
  ((exists leafs,
      MakeCbz.find_leaf_dirs fs root include_empty = Return leafs /\ In d leafs)
   <-> (exists q, d = root ++ q)
       /\ is_dir fs d = true
       /\ (include_empty = true
           \/ exists f, is_file fs (child d f) = true /\ Py.startswith_dot f = false)
       /\ forall n q',
            is_dir fs (child d n) = true ->
            is_file fs (child d n ++ q') = true ->
            Py.startswith_dot (name (child d n ++ q')) = true).
Proof.
  intros Hw. split.
  - intros (leafs & E & Hin). unfold MakeCbz.find_leaf_dirs in E.
    destruct (exists_ fs root) eqn:Hex; simpl in E; [|discriminate].
    injection E as <-.
    apply in_map_iff in Hin. destruct Hin as (e & Hp & He).
    apply filter_In in He. destruct He as (He & Hk).
    unfold exists_ in Hex. unfold os_walk in He.
    destruct (lookup fs root) as [t0|] eqn:Hroot; [|discriminate].
    destruct (walk_sound t0 root e (wf_lookup root fs t0 Hw Hroot) He) as (q & ch & -> & Hq).
    simpl in Hp. subst d.
    assert (Hl : lookup fs (root ++ q) = Some (Dir ch)) by (now rewrite lookup_app, Hroot).
    destruct (proj1 (keeps_cases fs include_empty (root ++ q) ch Hl) Hk) as (Hdirect & Hzero).
    split; [now exists q|]. split; [apply is_dir_lookup; eauto|]. split.
    + destruct Hdirect as [Hie|Hne]; [now left|right].
      now apply (direct_visible_file fs (root ++ q) ch Hw Hl).
    + intros n q' Hd Hf.
      destruct (Py.startswith_dot (name (child (root ++ q) n ++ q'))) eqn:Hv; [reflexivity|].
      exfalso.
      destruct (file_below_counts fs (root ++ q) ch n q' Hl Hd Hf Hv) as (e & He' & Hne).
      apply Hne. now apply Hzero.
  - intros ((q & ->) & Hd & Hdirect & Hnone).
    apply is_dir_lookup in Hd. destruct Hd as (ch & Hl).
    pose proof Hl as Hl'. rewrite lookup_app in Hl'.
    destruct (lookup fs root) as [t0|] eqn:Hroot; [|discriminate].
    unfold MakeCbz.find_leaf_dirs, exists_. rewrite Hroot. simpl.
    eexists. split; [reflexivity|].
    apply in_map_iff. exists (root ++ q, dirnames ch, filenames ch). split; [reflexivity|].
    apply filter_In. split.
    + unfold os_walk. rewrite Hroot. now apply walk_complete.
    + apply (keeps_cases fs include_empty (root ++ q) ch Hl). split.
      * destruct Hdirect as [Hie|Hf]; [now left|right].
        now apply (direct_visible_file fs (root ++ q) ch Hw Hl).
      * intros e He.
        destruct (Z.eq_dec (MakeCbz.visible_count (snd e)) 0) as [E|Hne]; [exact E|].
        exfalso.
        destruct (counted_is_visible_below fs (root ++ q) ch e Hw Hl He Hne)
          as (n & q2 & Hd & Hf & Hv).
        rewrite (Hnone n q2 Hd Hf) in Hv. discriminate.
Qed.

(** X17: which directories [find_leaf_dirs] returns, in both modes: the
    directories at or below the root that have no visible file below any
    of their subdirectories and, unless [include_empty] is set, at least
    one visible file of their own.  Visible means that the name of the
    file does not start with a dot; the names of the directories on the
    way do not matter. *)
Theorem find_leaf_dirs_spec (fs : node) (root d : Path) (include_empty : bool) :
  wf fs ->
  ((exists leafs,
      MakeCbz.find_leaf_dirs fs root include_empty = Return leafs /\ In d leafs)
   <-> (exists q, d = root ++ q)
       /\ is_dir fs d = true
       /\ (include_empty = true
           \/ exists f, is_file fs (child d f) = true /\ Py.startswith_dot f = false)
       /\ forall n q',
            is_dir fs (child d n) = true ->
            is_file fs (child d n ++ q') = true ->
            Py.startswith_dot (name (child d n ++ q')) = true).
Proof. apply find_leaf_dirs_paths. Qed.

Lemma find_leaf_dirs_spec_witness :
  let fs := Dir [("a", Dir [("p1", File "x"); ("b", Dir [(".keep", File "k")])])] in
  (exists leafs, MakeCbz.find_leaf_dirs fs [] false = Return leafs /\ In ["a"] leafs)
  <-> (exists q, ["a"] = [] ++ q)
      /\ is_dir fs ["a"] = true
      /\ (false = true
          \/ exists f, is_file fs (child ["a"] f) = true /\ Py.startswith_dot f = false)
      /\ forall n q',
           is_dir fs (child ["a"] n) = true ->
           is_file fs (child ["a"] n ++ q') = true ->
           Py.startswith_dot (name (child ["a"] n ++ q')) = true.
Proof.
  intros fs. apply (find_leaf_dirs_spec fs [] ["a"] false).
  repeat constructor; simpl; intuition discriminate.
Defined.

(** X18: without [include_empty], no directory returned by [find_leaf_dirs]
    lies below another one, and every directory returned is also returned
    with [include_empty]. *)
Theorem find_leaf_dirs_not_nested (fs : node) (root d q : Path) (leafs : list Path) :
  wf fs ->
  MakeCbz.find_leaf_dirs fs root false = Return leafs ->
  In d leafs ->
  (In (d ++ q) leafs -> q = [])
  /\ exists leafs',
       MakeCbz.find_leaf_dirs fs root true = Return leafs' /\ In d leafs'.
Proof.
  intros Hw E Hd.
  destruct (proj1 (find_leaf_dirs_paths fs root d false Hw) (ex_intro _ leafs (conj E Hd)))
    as (Hq & Hdir & Hdirect & Hnone).
  split.
  - intros Hdq.
    destruct (proj1 (find_leaf_dirs_paths fs root (d ++ q) false Hw)
                (ex_intro _ leafs (conj E Hdq)))
      as (_ & Hdir' & [Hf|(f & Hf & Hv)] & _); [discriminate|].
    destruct q as [|a q]; [reflexivity|]. exfalso.
    assert (Ha : is_dir fs (child d a) = true).
    { apply (is_dir_prefix fs (child d a) q). unfold child. now rewrite <- app_assoc. }
    specialize (Hnone a (q ++ [f]) Ha).
    unfold child in *. rewrite <- !app_assoc in *. simpl in *.
    specialize (Hnone Hf). unfold name in Hnone.
    replace (d ++ a :: q ++ [f]) with ((d ++ a :: q) ++ [f]) in Hnone
      by (rewrite <- app_assoc; reflexivity).
    rewrite last_last in Hnone. congruence.
  - apply (find_leaf_dirs_paths fs root d true Hw). repeat split; auto.
Qed.

Lemma find_leaf_dirs_not_nested_witness :
  let fs := Dir [("a", Dir [("p1", File "x"); ("b", Dir [(".keep", File "k")])])] in
  (In (["a"] ++ []) [["a"]] -> @nil string = [])
  /\ exists leafs', MakeCbz.find_leaf_dirs fs [] true = Return leafs' /\ In ["a"] leafs'.
Proof.
  intros fs. apply (find_leaf_dirs_not_nested fs [] ["a"] [] [["a"]]).
  - repeat constructor; simpl; intuition discriminate.
  - reflexivity.
  - now left.
Defined.

(* ================================================================== *)
(** ** Changes of the tree: [mkdir] and the creation of a file *)

Lemma assoc_set_child (m n : string) (c : node) (ch : list (string * node)) :
  assoc m (set_child n (Some c) ch) = if String.eqb m n then Some c else assoc m ch.
Proof.
  induction ch as [|[k c0] ch IH]; simpl.
  - destruct (String.eqb m n); reflexivity.
  - destruct (String.eqb_spec n k) as [->|Hnk]; simpl.
    + destruct (String.eqb m k); reflexivity.
    + destruct (String.eqb_spec m k) as [->|Hmk].
      * destruct (String.eqb_spec k n) as [->|_]; [congruence|reflexivity].
      * exact IH.
Qed.

Lemma set_child_same (n : string) (c : node) (ch : list (string * node)) :
  assoc n ch = Some c -> set_child n (Some c) ch = ch.
Proof.
  induction ch as [|[k c0] ch IH]; simpl; [discriminate|].
  destruct (String.eqb n k) eqn:E.
  - intros [= ->]. reflexivity.
  - intros H. now rewrite (IH H).
Qed.

Lemma set_child_present (n : string) (c c' : node) (ch : list (string * node)) :
  assoc n ch = Some c ->
  map fst (set_child n (Some c') ch) = map fst ch
  /\ forall e, In e (set_child n (Some c') ch) -> In e ch \/ e = (n, c').
Proof.
  induction ch as [|[k c0] ch IH]; simpl; [discriminate|].
  destruct (String.eqb_spec n k) as [->|Hne].
  - intros _. split; [reflexivity|]. intros e [<-|He]; auto.
  - intros Ea. destruct (IH Ea) as (Hn & Hin). simpl. split; [now rewrite Hn|].
    intros e [<-|He]; [auto|]. destruct (Hin e He); auto.
Qed.

Lemma set_child_absent (n : string) (c' : node) (ch : list (string * node)) :
  assoc n ch = None ->
  set_child n (Some c') ch = ch ++ [(n, c')] /\ ~ In n (map fst ch).
Proof.
  induction ch as [|[k c0] ch IH]; simpl; [auto|].
  destruct (String.eqb_spec n k) as [->|Hne]; [discriminate|].
  intros Ea. destruct (IH Ea) as (-> & Hnin). split; [reflexivity|].
  intros [E|Hin]; [congruence|contradiction].
Qed.

Lemma lookup_chain_file (p q : Path) (data : string) :
  lookup (chain p) q <> Some (File data).
Proof.
  revert q. induction p as [|n p IH]; intros q; simpl.
  - destruct q; simpl; discriminate.
  - destruct q as [|m q]; simpl; [discriminate|].
    destruct (String.eqb m n); [apply IH|discriminate].
Qed.

Lemma is_dir_chain (p : Path) : is_dir (chain p) p = true.
Proof.
  unfold is_dir. induction p as [|n p IH]; simpl; [reflexivity|].
  now rewrite String.eqb_refl.
Qed.

(** [mkdir] on a directory that exists changes nothing. *)
Lemma mkdir_parents_is_dir (p : Path) :
  forall t, is_dir t p = true -> mkdir_parents t p = Some t.
Proof.
  unfold is_dir.
  induction p as [|n p IH]; intros t Hd.
  - simpl in Hd. destruct t; [discriminate|reflexivity].
  - destruct t as [data|ch]; simpl in Hd; [discriminate|]. simpl.
    destruct (assoc n ch) as [c|] eqn:Ea; [|discriminate].
    rewrite (IH c Hd). now rewrite (set_child_same n c ch Ea).
Qed.

(** [mkdir] makes its path a directory; the files are the same before and
    after, and what was a directory still is. *)
Lemma mkdir_parents_keeps (p : Path) :
  forall t t',
    mkdir_parents t p = Some t' ->
    is_dir t' p = true
    /\ (forall q data, lookup t' q = Some (File data) <-> lookup t q = Some (File data))
    /\ (forall q, is_dir t q = true -> is_dir t' q = true).
Proof.
  induction p as [|n p IH]; intros t t' E.
  - destruct t as [data|ch]; simpl in E; [discriminate|]. injection E as <-.
    repeat split; auto.
  - destruct t as [data|ch]; simpl in E; [discriminate|].
    destruct (assoc n ch) as [c|] eqn:Ea.
    + destruct (mkdir_parents c p) as [c'|] eqn:Ec; [|discriminate]. injection E as <-.
      destruct (IH c c' Ec) as (Hd & Hfile & Hdir).
      split; [|split].
      * unfold is_dir in *. simpl. rewrite assoc_set_child, String.eqb_refl. exact Hd.
      * intros [|m q] data; simpl; [split; discriminate|].
        rewrite assoc_set_child.
        destruct (String.eqb_spec m n) as [->|_]; [|reflexivity].
        rewrite Ea. apply Hfile.
      * intros [|m q]; unfold is_dir in *; simpl; [reflexivity|].
        rewrite assoc_set_child.
        destruct (String.eqb_spec m n) as [->|_]; [|auto].
        rewrite Ea. apply Hdir.
    + injection E as <-. split; [|split].
      * unfold is_dir. simpl. rewrite assoc_set_child, String.eqb_refl.
        apply is_dir_chain.
      * intros [|m q] data; simpl; [split; discriminate|].
        rewrite assoc_set_child.
        destruct (String.eqb_spec m n) as [->|_]; [|reflexivity].
        rewrite Ea. split; [|discriminate].
        intros H. now apply lookup_chain_file in H.
      * intros [|m q]; unfold is_dir; simpl; [reflexivity|].
        rewrite assoc_set_child.
        destruct (String.eqb_spec m n) as [->|_]; [|auto].
        rewrite Ea. discriminate.
Qed.

Lemma alter_below (ch : list (string * node)) (n n2 : string) (c : Path) (v : option node) :
  alter (Dir ch) (n :: n2 :: c) v
  = match assoc n ch with
    | Some c0 =>
        match alter c0 (n2 :: c) v with
        | Some c' => Some (Dir (set_child n (Some c') ch))
        | None => None
        end
    | None => None
    end.
Proof. reflexivity. Qed.

(** A file written at [c]: the other files are the same before and after,
    and so are the directories. *)
Lemma alter_file_keeps (c : Path) (data : string) :
  forall t t',
    is_dir t c = false ->
    alter t c (Some (File data)) = Some t' ->
    lookup t' c = Some (File data)
    /\ (forall q d, q <> c -> (lookup t' q = Some (File d) <-> lookup t q = Some (File d)))
    /\ (forall q, is_dir t' q = is_dir t q).
Proof.
  induction c as [|n c IH]; intros t t' Hnd E; [discriminate|].
  destruct t as [d0|ch]; [discriminate|].
  destruct c as [|n2 c].
  - simpl in E. injection E as <-.
    assert (Hold : forall q, q <> [] -> lookup (Dir ch) (n :: q) = None).
    { intros q Hq. simpl. unfold is_dir in Hnd. simpl in Hnd.
      destruct (assoc n ch) as [[d1|ch1]|]; try discriminate; [|reflexivity].
      destruct q; [congruence|reflexivity]. }
    split; [|split].
    + simpl. now rewrite assoc_set_child, String.eqb_refl.
    + intros [|m q] d Hq; simpl; [split; discriminate|].
      rewrite assoc_set_child. destruct (String.eqb_spec m n) as [->|_]; [|reflexivity].
      assert (Hq' : q <> []) by congruence.
      pose proof (Hold q Hq') as Ho. simpl in Ho. rewrite Ho.
      destruct q; [congruence|]. simpl. split; discriminate.
    + intros [|m q]; unfold is_dir; simpl; [reflexivity|].
      rewrite assoc_set_child. destruct (String.eqb_spec m n) as [->|_]; [|reflexivity].
      unfold is_dir in Hnd. simpl in Hnd.
      destruct q as [|m2 q]; simpl.
      * destruct (assoc n ch) as [[d1|ch1]|]; try discriminate; reflexivity.
      * destruct (assoc n ch) as [[d1|ch1]|]; try discriminate; reflexivity.
  - rewrite alter_below in E.
    destruct (assoc n ch) as [c0|] eqn:Ea; [|discriminate].
    destruct (alter c0 (n2 :: c) (Some (File data))) as [c0'|] eqn:Ec; [|discriminate].
    injection E as <-.
    assert (Hnd0 : is_dir c0 (n2 :: c) = false).
    { unfold is_dir in *. cbn [lookup] in Hnd. now rewrite Ea in Hnd. }
    destruct (IH c0 c0' Hnd0 Ec) as (Hc & Hfile & Hdir).
    split; [|split].
    + cbn [lookup]. now rewrite assoc_set_child, String.eqb_refl.
    + intros [|m q] d Hq; cbn [lookup]; [split; discriminate|].
      rewrite assoc_set_child. destruct (String.eqb_spec m n) as [->|_]; [|reflexivity].
      rewrite Ea. apply Hfile. congruence.
    + intros [|m q]; unfold is_dir; cbn [lookup]; [reflexivity|].
      rewrite assoc_set_child. destruct (String.eqb_spec m n) as [->|_]; [|reflexivity].
      rewrite Ea. apply Hdir.
Qed.

(** A file can be written where the parent is a directory and the path is
    not one. *)
Lemma alter_file_succeeds (d : Path) (n : string) (data : string) :
  forall t, is_dir t d = true -> exists t', alter t (child d n) (Some (File data)) = Some t'.
Proof.
  unfold child, is_dir.
  induction d as [|m d IH]; intros t Hd.
  - simpl in Hd. destruct t as [?|ch]; [discriminate|]. simpl. eauto.
  - destruct t as [?|ch]; simpl in Hd; [discriminate|].
    destruct (assoc m ch) as [c|] eqn:Ea; [|discriminate].
    destruct (IH c Hd) as (c' & Ec).
    change ((m :: d) ++ [n]) with (m :: (d ++ [n])).
    destruct (d ++ [n]) as [|x l] eqn:El; [now destruct d|].
    rewrite alter_below, Ea, Ec. eauto.
Qed.

(** A file written at [c] changes the listing of the parent of [c] at
    most. *)
Lemma alter_file_listing (c : Path) (data : string) :
  forall t t',
    is_dir t c = false ->
    alter t c (Some (File data)) = Some t' ->
    forall q ch',
      q <> parent c ->
      lookup t' q = Some (Dir ch') ->
      exists ch, lookup t q = Some (Dir ch) /\ map fst ch = map fst ch'.
Proof.
  induction c as [|n c IH]; intros t t' Hnd E q ch' Hq Hl; [discriminate|].
  destruct t as [d0|ch]; [discriminate|].
  destruct c as [|n2 c].
  - simpl in E. injection E as <-.
    destruct q as [|m q]; [now contradiction Hq|].
    simpl in Hl. rewrite assoc_set_child in Hl. simpl.
    destruct (String.eqb_spec m n) as [->|_]; [|eauto].
    destruct q; simpl in Hl; discriminate.
  - rewrite alter_below in E.
    destruct (assoc n ch) as [c0|] eqn:Ea; [|discriminate].
    destruct (alter c0 (n2 :: c) (Some (File data))) as [c0'|] eqn:Ec; [|discriminate].
    injection E as <-.
    destruct q as [|m q].
    + simpl in Hl. injection Hl as <-. exists ch. split; [reflexivity|].
      symmetry. now destruct (set_child_present n c0 c0' ch Ea).
    + cbn [lookup] in Hl |- *. rewrite assoc_set_child in Hl.
      destruct (String.eqb_spec m n) as [->|_]; [|eauto].
      rewrite Ea. apply (IH c0 c0'); auto.
      * unfold is_dir in *. cbn [lookup] in Hnd. now rewrite Ea in Hnd.
      * intros ->. apply Hq. reflexivity.
Qed.

Lemma write_file_listing (fs fs' : node) (c : Path) (data : string) (q : Path) :
  MakeCbz.write_file fs c data = Some fs' ->
  q <> parent c ->
  iterdir fs' q = iterdir fs q.
Proof.
  intros E Hq.
  assert (Hnd : is_dir fs c = false).
  { unfold MakeCbz.write_file in E. unfold is_dir.
    destruct (lookup fs c) as [[?|?]|]; [reflexivity|discriminate|reflexivity]. }
  assert (Ea : alter fs c (Some (File data)) = Some fs').
  { unfold MakeCbz.write_file in E.
    destruct (lookup fs c) as [[?|?]|]; [exact E|discriminate|exact E]. }
  destruct (alter_file_keeps c data fs fs' Hnd Ea) as (_ & _ & Hdir).
  specialize (Hdir q). unfold iterdir. unfold is_dir in Hdir.
  destruct (lookup fs' q) as [[d'|ch']|] eqn:El'.
  - destruct (lookup fs q) as [[?|?]|]; [reflexivity|discriminate|reflexivity].
  - destruct (alter_file_listing c data fs fs' Hnd Ea q ch' Hq El') as (ch & -> & Hn).
    f_equal. transitivity (map (child q) (map fst ch')); [now rewrite map_map|].
    rewrite <- Hn. now rewrite map_map.
  - destruct (lookup fs q) as [[?|?]|]; [reflexivity|discriminate|reflexivity].
Qed.

(* ================================================================== *)
(** ** make_cbz.py: the name of the archive *)

Lemma to_int_not_nil (z : Z) : Z.to_int z <> Decimal.Pos Decimal.Nil
                               /\ Z.to_int z <> Decimal.Neg Decimal.Nil.
Proof.
  split; intros E; pose proof (DecimalZ.of_to z) as H; rewrite E in H;
    simpl in H; subst z; discriminate.
Qed.

Lemma str_inj (a b : Z) : Py.str a = Py.str b -> a = b.
Proof.
  unfold Py.str. intros E. apply DecimalZ.to_int_inj.
  destruct (to_int_not_nil a) as (Ha1 & Ha2), (to_int_not_nil b) as (Hb1 & Hb2).
  pose proof (NilZero.isi _ Ha1 Ha2) as Ia. pose proof (NilZero.isi _ Hb1 Hb2) as Ib.
  rewrite E in Ia. congruence.
Qed.

Lemma append_inv_head (a x y : string) : (a ++ x)%string = (a ++ y)%string -> x = y.
Proof. induction a as [|c a IH]; simpl; [auto|]. intros [= H]. now apply IH. Qed.

Lemma append_inv_tail (s : string) :
  forall x y : string, (x ++ s)%string = (y ++ s)%string -> x = y.
Proof.
  induction x as [|c x IH]; intros [|d y] E; simpl in E.
  - reflexivity.
  - exfalso. apply (f_equal String.length) in E. simpl in E.
    rewrite length_append in E. lia.
  - exfalso. apply (f_equal String.length) in E. simpl in E.
    rewrite length_append in E. lia.
  - injection E as -> E. now rewrite (IH y E).
Qed.

Lemma candidate_name_inj (base_name : string) (i j : Z) :
  MakeCbz.candidate_name base_name i = MakeCbz.candidate_name base_name j -> i = j.
Proof.
  unfold MakeCbz.candidate_name, MakeCbz.numbered_name.
  destruct (Z.eqb_spec i 0) as [->|Hi], (Z.eqb_spec j 0) as [->|Hj]; intros E.
  - reflexivity.
  - apply append_inv_head in E. discriminate.
  - apply append_inv_head in E. discriminate.
  - apply append_inv_head in E. injection E as E.
    apply append_inv_tail in E. now apply str_inj.
Qed.

Lemma exists_child (fs : node) (d : Path) (n : string) :
  exists_ fs (child d n) = true ->
  exists ch, lookup fs d = Some (Dir ch) /\ In n (map fst ch).
Proof.
  unfold exists_, child. rewrite lookup_app.
  destruct (lookup fs d) as [[data|ch]|]; simpl; try discriminate.
  destruct (assoc n ch) as [c|] eqn:Ea; [|discriminate].
  intros _. exists ch. split; [reflexivity|].
  apply assoc_in in Ea. now apply (in_map fst) in Ea.
Qed.

Lemma NoDup_map_inj (A B : Type) (f : A -> B) (l : list A) :
  (forall x y, f x = f y -> x = y) -> NoDup l -> NoDup (map f l).
Proof.
  intros Hinj ND. induction ND as [|x l Hnin ND IH]; simpl; constructor; [|exact IH].
  intros Hin. apply in_map_iff in Hin. destruct Hin as (y & E & Hy).
  apply Hinj in E. subst y. contradiction.
Qed.

(** The names tried cannot all be taken: a directory has fewer entries. *)
Lemma candidates_not_all_taken (fs : node) (dest_dir : Path) (base_name : string) :
  ~ (forall i, 0 <= i <= Z.of_nat (MakeCbz.entries_count fs dest_dir) ->
       exists_ fs (child dest_dir (MakeCbz.candidate_name base_name i)) = true).
Proof.
  intros Hall.
  destruct (exists_child fs dest_dir _ (Hall 0 ltac:(lia))) as (ch & Hl & _).
  unfold MakeCbz.entries_count in Hall. rewrite Hl in Hall.
  set (names := map (fun k => MakeCbz.candidate_name base_name (Z.of_nat k))
                  (seq 0 (S (List.length ch)))).
  assert (ND : NoDup names).
  { apply NoDup_map_inj; [|apply seq_NoDup].
    intros x y E. apply candidate_name_inj in E. lia. }
  assert (Hincl : incl names (map fst ch)).
  { intros nm Hnm. apply in_map_iff in Hnm. destruct Hnm as (k & <- & Hk).
    apply in_seq in Hk.
    destruct (exists_child fs dest_dir _ (Hall (Z.of_nat k) ltac:(lia))) as (ch' & Hl' & Hin).
    congruence. }
  pose proof (NoDup_incl_length ND Hincl) as Hlen.
  unfold names in Hlen. rewrite !length_map, length_seq in Hlen. lia.
Qed.

Lemma next_candidate_run (fs : node) (dest_dir : Path) (base_name : string) (fuel : nat) :
  forall k,
    0 <= k ->
    match MakeCbz.next_candidate fuel fs dest_dir base_name
            (child dest_dir (MakeCbz.candidate_name base_name k)) (k + 1) with
    | Some c =>
        exists j,
          k <= j <= k + Z.of_nat fuel
          /\ c = child dest_dir (MakeCbz.candidate_name base_name j)
          /\ exists_ fs c = false
          /\ forall i, k <= i < j ->
               exists_ fs (child dest_dir (MakeCbz.candidate_name base_name i)) = true
    | None =>
        forall i, k <= i <= k + Z.of_nat fuel ->
          exists_ fs (child dest_dir (MakeCbz.candidate_name base_name i)) = true
    end.
Proof.
  induction fuel as [|fuel IH]; intros k Hk; cbn [MakeCbz.next_candidate].
  - destruct (exists_ fs (child dest_dir (MakeCbz.candidate_name base_name k))) eqn:Ex;
      cbn [negb].
    + intros i Hi. replace i with k by lia. exact Ex.
    + exists k. repeat split; auto; try lia; intros i Hi; lia.
  - destruct (exists_ fs (child dest_dir (MakeCbz.candidate_name base_name k))) eqn:Ex;
      cbn [negb].
    + assert (En : MakeCbz.numbered_name base_name (k + 1)
                   = MakeCbz.candidate_name base_name (k + 1)).
      { unfold MakeCbz.candidate_name. destruct (Z.eqb_spec (k + 1) 0); [lia|reflexivity]. }
      rewrite En. specialize (IH (k + 1) ltac:(lia)).
      destruct (MakeCbz.next_candidate fuel fs dest_dir base_name _ (k + 1 + 1)) as [c|].
      * destruct IH as (j & Hj & Ec & Hfree & Hbefore). exists j.
        repeat split; auto; try lia.
        intros i Hi. destruct (Z.eq_dec i k) as [->|Hne]; [exact Ex|]. apply Hbefore. lia.
      * intros i Hi. destruct (Z.eq_dec i k) as [->|Hne]; [exact Ex|]. apply IH. lia.
    + exists k. repeat split; auto; try lia; intros i Hi; lia.
Qed.

Lemma next_candidate_first_free (fs : node) (dest_dir : Path) (base_name : string) :
  exists j,
    0 <= j <= Z.of_nat (MakeCbz.entries_count fs dest_dir)
    /\ MakeCbz.next_candidate (MakeCbz.entries_count fs dest_dir) fs dest_dir base_name
         (child dest_dir (base_name ++ ".cbz")) 1
       = Some (child dest_dir (MakeCbz.candidate_name base_name j))
    /\ exists_ fs (child dest_dir (MakeCbz.candidate_name base_name j)) = false
    /\ forall i, 0 <= i < j ->
         exists_ fs (child dest_dir (MakeCbz.candidate_name base_name i)) = true.
Proof.
  pose proof (next_candidate_run fs dest_dir base_name
                (MakeCbz.entries_count fs dest_dir) 0 ltac:(lia)) as H.
  change (MakeCbz.candidate_name base_name 0) with ((base_name ++ ".cbz")%string) in H at 1.
  change (0 + 1) with 1 in H.
  destruct (MakeCbz.next_candidate _ fs dest_dir base_name _ 1) as [c|].
  - destruct H as (j & Hj & -> & Hfree & Hbefore). exists j. repeat split; auto; lia.
  - exfalso. apply (candidates_not_all_taken fs dest_dir base_name). exact H.
Qed.

(** X19: the loop that looks for a free name always finds one within as many
    turns as the destination has entries.  The name found is the first
    free one of [base.cbz], [base_1.cbz], [base_2.cbz], ...: it does not
    exist, and all the names before it do. *)
Theorem next_candidate_finds (fs : node) (dest_dir : Path) (base_name : string) :
  exists j,
    0 <= j <= Z.of_nat (MakeCbz.entries_count fs dest_dir)
    /\ MakeCbz.next_candidate (MakeCbz.entries_count fs dest_dir) fs dest_dir base_name
         (child dest_dir (base_name ++ ".cbz")) 1
       = Some (child dest_dir (MakeCbz.candidate_name base_name j))
    /\ exists_ fs (child dest_dir (MakeCbz.candidate_name base_name j)) = false
    /\ forall i, 0 <= i < j ->
         exists_ fs (child dest_dir (MakeCbz.candidate_name base_name i)) = true.
Proof. apply next_candidate_first_free. Qed.

(* ================================================================== *)
(** ** make_cbz.py: [make_cbz_for_dir] *)

Lemma bind_run (A B : Type) (m : M node A) (k : A -> M node B) (w : world node) :
  bind m k w
  = match m w with
    | (Return a, w') => k a w'
    | (Raise e, w') => (Raise e, w')
    end.
Proof. reflexivity. Qed.

Lemma mkdir_run (p : Path) (w : world node) :
  mkdir p w
  = match mkdir_parents (w_fs w) p with
    | Some fs' =>
        (Return tt,
         mkWorld fs' (w_stdout w) (w_stderr w) (w_uuids w)
           (w_calls w ++ [(SysMkdir p, true)]))
    | None =>
        (Raise (OSError "system call failed"),
         mkWorld (w_fs w) (w_stdout w) (w_stderr w) (w_uuids w)
           (w_calls w ++ [(SysMkdir p, false)]))
    end.
Proof. reflexivity. Qed.

Lemma preserved_refl (fs : node) : MakeCbz.preserved fs fs.
Proof. split; auto. Qed.

Lemma preserved_trans (fs1 fs2 fs3 : node) :
  MakeCbz.preserved fs1 fs2 -> MakeCbz.preserved fs2 fs3 -> MakeCbz.preserved fs1 fs3.
Proof. intros (F1 & D1) (F2 & D2). split; auto. Qed.

Lemma mkdir_parents_preserved (fs fs' : node) (p : Path) :
  mkdir_parents fs p = Some fs' -> MakeCbz.preserved fs fs'.
Proof.
  intros E. destruct (mkdir_parents_keeps p fs fs' E) as (_ & Hfile & Hdir).
  split; [|exact Hdir]. intros q data. apply Hfile.
Qed.

Lemma write_file_keeps (fs fs' : node) (c : Path) (data : string) :
  MakeCbz.write_file fs c data = Some fs' ->
  lookup fs' c = Some (File data)
  /\ (forall q d, q <> c -> (lookup fs' q = Some (File d) <-> lookup fs q = Some (File d)))
  /\ (forall q, is_dir fs' q = is_dir fs q).
Proof.
  unfold MakeCbz.write_file. intros E. apply alter_file_keeps.
  - unfold is_dir. destruct (lookup fs c) as [[?|?]|]; [reflexivity|discriminate|reflexivity].
  - destruct (lookup fs c) as [[?|?]|]; [exact E|discriminate|exact E].
Qed.

Lemma write_file_preserved (fs fs' : node) (c : Path) (data : string) :
  MakeCbz.write_file fs c data = Some fs' ->
  is_file fs c = false ->
  MakeCbz.preserved fs fs'.
Proof.
  intros E Hc. destruct (write_file_keeps fs fs' c data E) as (_ & Hfile & Hdir).
  split.
  - intros q d Hq. apply Hfile; [|exact Hq].
    intros ->. unfold is_file in Hc. rewrite Hq in Hc. discriminate.
  - intros q Hq. now rewrite Hdir.
Qed.

Lemma write_file_succeeds (fs : node) (d : Path) (n data : string) :
  is_dir fs d = true ->
  is_dir fs (child d n) = false ->
  exists fs', MakeCbz.write_file fs (child d n) data = Some fs'.
Proof.
  intros Hd Hc. unfold MakeCbz.write_file.
  destruct (alter_file_succeeds d n data fs Hd) as (fs' & E).
  unfold is_dir in Hc.
  destruct (lookup fs (child d n)) as [[?|?]|]; [eauto|discriminate|eauto].
Qed.

Lemma visible_files_run (d : Path) (w : world node) :
  MakeCbz.visible_files d w
  = match iterdir (w_fs w) d with
    | None => (Raise (OSError "iterdir"), w)
    | Some listing => (Return (filter (visible_file (w_fs w)) listing), w)
    end.
Proof.
  unfold MakeCbz.visible_files. rewrite bind_run. unfold get_fs.
  destruct (iterdir (w_fs w) d); reflexivity.
Qed.

Lemma zip_members_run (files : list Path) :
  forall (members : list (string * string)) (w : world node),
    MakeCbz.zip_members files members w
    = (Return (members ++ map (fun f => (name f, MakeCbz.read_file (w_fs w) f)) files), w).
Proof.
  induction files as [|f rest IH]; intros members w; simpl.
  - now rewrite app_nil_r.
  - rewrite bind_run. unfold get_fs. rewrite IH, <- app_assoc. reflexivity.
Qed.

Lemma parent_child (d : Path) (n : string) : parent (child d n) = d.
Proof. unfold parent, child. apply removelast_last. Qed.

Lemma exists_false_kinds (fs : node) (c : Path) :
  exists_ fs c = false -> is_file fs c = false /\ is_dir fs c = false.
Proof.
  unfold exists_, is_file, is_dir. destruct (lookup fs c); [discriminate|auto].
Qed.

Section ArchiveFacts.
Variable zip_bytes : list (string * string) -> string.

(** Every run of [make_cbz_for_dir], whether it returns or raises: it
    prints nothing, loses nothing, and the archive it returns is a file
    that did not exist, in the destination directory. *)
Lemma make_cbz_for_dir_frame (src_dir dest_dir : Path) (w : world node) :
  exists o fs' calls',
    MakeCbz.make_cbz_for_dir zip_bytes src_dir dest_dir w
    = (o, mkWorld fs' (w_stdout w) (w_stderr w) (w_uuids w) calls')
    /\ MakeCbz.preserved (w_fs w) fs'
    /\ forall c, o = Return c ->
         exists_ (w_fs w) c = false /\ is_file fs' c = true /\ parent c = dest_dir.
Proof.
  unfold MakeCbz.make_cbz_for_dir. cbv zeta.
  set (base_name := match name src_dir with EmptyString => "root" | String a s => String a s end).
  rewrite bind_run. unfold get_fs at 1. cbv beta iota.
  destruct (next_candidate_first_free (w_fs w) dest_dir base_name) as (j & _ & -> & Hfree & _).
  set (c := child dest_dir (MakeCbz.candidate_name base_name j)) in *.
  destruct (exists_false_kinds _ _ Hfree) as (Hnf & Hnd).
  rewrite bind_run, mkdir_run.
  destruct (mkdir_parents (w_fs w) dest_dir) as [fs1|] eqn:Em.
  2:{ do 3 eexists. split; [reflexivity|]. split; [apply preserved_refl|discriminate]. }
  pose proof (mkdir_parents_preserved _ _ _ Em) as P1.
  destruct (mkdir_parents_keeps _ _ _ Em) as (Hd1 & Hfile1 & _).
  assert (Hnf1 : is_file fs1 c = false).
  { unfold is_file. destruct (lookup fs1 c) as [[d|?]|] eqn:El; try reflexivity.
    apply Hfile1 in El. unfold is_file in Hnf. now rewrite El in Hnf. }
  rewrite bind_run, visible_files_run. cbn [w_fs w_stdout w_stderr w_uuids w_calls].
  destruct (iterdir fs1 src_dir) as [listing|].
  2:{ do 3 eexists. split; [reflexivity|]. split; [exact P1|discriminate]. }
  rewrite bind_run. unfold MakeCbz.write at 1.
  cbn [w_fs w_stdout w_stderr w_uuids w_calls].
  destruct (MakeCbz.write_file fs1 c EmptyString) as [fs2|] eqn:Ew1.
  2:{ do 3 eexists. split; [reflexivity|]. split; [exact P1|discriminate]. }
  pose proof (write_file_preserved _ _ _ _ Ew1 Hnf1) as P2.
  destruct (write_file_keeps _ _ _ _ Ew1) as (Hc2 & Hfile2 & Hdir2).
  rewrite bind_run, zip_members_run. cbn [w_fs w_stdout w_stderr w_uuids w_calls].
  rewrite bind_run. unfold MakeCbz.write at 1.
  cbn [w_fs w_stdout w_stderr w_uuids w_calls].
  destruct (MakeCbz.write_file fs2 c _) as [fs3|] eqn:Ew2.
  2:{ do 3 eexists. split; [reflexivity|].
      split; [exact (preserved_trans _ _ _ P1 P2)|discriminate]. }
  destruct (write_file_keeps _ _ _ _ Ew2) as (Hc3 & Hfile3 & Hdir3).
  do 3 eexists. split; [reflexivity|]. split.
  - apply (preserved_trans _ fs1); [exact P1|]. split.
    + intros q d Hq. assert (Hqc : q <> c).
      { intros ->. unfold is_file in Hnf1. rewrite Hq in Hnf1. discriminate. }
      apply (Hfile3 q d Hqc). now apply (Hfile2 q d Hqc).
    + intros q Hq. now rewrite Hdir3, Hdir2.
  - intros c' [= <-]. split; [exact Hfree|]. split.
    + unfold is_file. now rewrite Hc3.
    + apply parent_child.
Qed.

(** On a destination that exists, as in every call that [main] makes. *)
Lemma make_cbz_for_dir_existing (src_dir dest_dir : Path) (w : world node)
  (listing : list Path) :
  is_dir (w_fs w) dest_dir = true ->
  iterdir (w_fs w) src_dir = Some listing ->
  let fs := w_fs w in
  let base_name := match name src_dir with EmptyString => "root" | n => n end in
  let files := filter (visible_file fs) listing in
  exists j fs',
    let candidate := child dest_dir (MakeCbz.candidate_name base_name j) in
    MakeCbz.make_cbz_for_dir zip_bytes src_dir dest_dir w
    = (Return candidate,
       mkWorld fs' (w_stdout w) (w_stderr w) (w_uuids w)
         (w_calls w ++ [(SysMkdir dest_dir, true)]))
    /\ exists_ fs candidate = false
    /\ (forall i, 0 <= i < j ->
          exists_ fs (child dest_dir (MakeCbz.candidate_name base_name i)) = true)
    /\ lookup fs' candidate
       = Some (File (zip_bytes (map (fun f => (name f, MakeCbz.read_file fs f)) files)))
    /\ (forall q d, q <> candidate ->
          (lookup fs' q = Some (File d) <-> lookup fs q = Some (File d)))
    /\ (forall q, is_dir fs' q = is_dir fs q)
    /\ (forall q, q <> dest_dir -> iterdir fs' q = iterdir fs q).
Proof.
  intros Hdest Hit fs base_name files. subst fs.
  unfold MakeCbz.make_cbz_for_dir. cbv zeta. fold base_name.
  rewrite bind_run. unfold get_fs at 1. cbv beta iota.
  destruct (next_candidate_first_free (w_fs w) dest_dir base_name) as (j & _ & -> & Hfree & Hbefore).
  exists j.
  set (c := child dest_dir (MakeCbz.candidate_name base_name j)) in *.
  destruct (exists_false_kinds _ _ Hfree) as (Hnf & Hnd).
  rewrite bind_run, mkdir_run. rewrite (mkdir_parents_is_dir dest_dir (w_fs w) Hdest).
  rewrite bind_run, visible_files_run. cbn [w_fs w_stdout w_stderr w_uuids w_calls].
  rewrite Hit. fold files.
  rewrite bind_run. unfold MakeCbz.write at 1.
  cbn [w_fs w_stdout w_stderr w_uuids w_calls].
  destruct (write_file_succeeds (w_fs w) dest_dir (MakeCbz.candidate_name base_name j)
              EmptyString Hdest Hnd) as (fs2 & Ew1).
  fold c in Ew1. rewrite Ew1.
  destruct (write_file_keeps _ _ _ _ Ew1) as (Hc2 & Hfile2 & Hdir2).
  rewrite bind_run, zip_members_run. cbn [w_fs w_stdout w_stderr w_uuids w_calls app].
  assert (Hmem : map (fun f => (name f, MakeCbz.read_file fs2 f)) files
                 = map (fun f => (name f, MakeCbz.read_file (w_fs w) f)) files).
  { apply map_ext_in. intros f Hf. f_equal.
    apply filter_In in Hf. destruct Hf as (_ & Hv).
    unfold visible_file in Hv. apply andb_true_iff in Hv. destruct Hv as (Hff & _).
    apply is_file_lookup in Hff. destruct Hff as (d & Hl).
    assert (Hne : f <> c).
    { intros ->. unfold is_file in Hnf. rewrite Hl in Hnf. discriminate. }
    unfold MakeCbz.read_file. rewrite Hl. now rewrite (proj2 (Hfile2 f d Hne) Hl). }
  rewrite Hmem.
  rewrite bind_run. unfold MakeCbz.write at 1.
  cbn [w_fs w_stdout w_stderr w_uuids w_calls].
  assert (Hdest2 : is_dir fs2 dest_dir = true) by (now rewrite Hdir2).
  assert (Hnd2 : is_dir fs2 c = false) by (now rewrite Hdir2).
  destruct (write_file_succeeds fs2 dest_dir (MakeCbz.candidate_name base_name j)
              (zip_bytes (map (fun f => (name f, MakeCbz.read_file (w_fs w) f)) files))
              Hdest2 Hnd2) as (fs3 & Ew2).
  fold c in Ew2. rewrite Ew2.
  destruct (write_file_keeps _ _ _ _ Ew2) as (Hc3 & Hfile3 & Hdir3).
  exists fs3. cbv zeta. split; [reflexivity|]. split; [exact Hfree|].
  split; [exact Hbefore|]. split; [exact Hc3|]. split; [|split].
  - intros q d Hq. rewrite (Hfile3 q d Hq). apply Hfile2. exact Hq.
  - intros q. now rewrite Hdir3, Hdir2.
  - intros q Hq.
    rewrite (write_file_listing _ _ c _ q Ew2), (write_file_listing _ _ c _ q Ew1);
      [reflexivity| |]; unfold c; now rewrite parent_child.
Qed.

(** X20: what [make_cbz_for_dir] creates in a destination that exists.  It
    returns the first free name of [base.cbz], [base_1.cbz], ... in the
    destination; that path becomes a file holding the archive of the
    visible files that lie directly in the source directory, in the order
    of its listing, under their own names; no other file is created,
    changed or removed, the directories are the same as before, and only
    the listing of the destination has changed. *)
Theorem make_cbz_for_dir_creates (src_dir dest_dir : Path) (w : world node)
  (listing : list Path) :
  is_dir (w_fs w) dest_dir = true ->
  iterdir (w_fs w) src_dir = Some listing ->
  let fs := w_fs w in
  let base_name := match name src_dir with EmptyString => "root" | n => n end in
  let files := filter (visible_file fs) listing in
  exists j fs',
    let candidate := child dest_dir (MakeCbz.candidate_name base_name j) in
    MakeCbz.make_cbz_for_dir zip_bytes src_dir dest_dir w
    = (Return candidate,
       mkWorld fs' (w_stdout w) (w_stderr w) (w_uuids w)
         (w_calls w ++ [(SysMkdir dest_dir, true)]))
    /\ exists_ fs candidate = false
    /\ (forall i, 0 <= i < j ->
          exists_ fs (child dest_dir (MakeCbz.candidate_name base_name i)) = true)
    /\ lookup fs' candidate
       = Some (File (zip_bytes (map (fun f => (name f, MakeCbz.read_file fs f)) files)))
    /\ (forall q d, q <> candidate ->
          (lookup fs' q = Some (File d) <-> lookup fs q = Some (File d)))
    /\ (forall q, is_dir fs' q = is_dir fs q)
    /\ (forall q, q <> dest_dir -> iterdir fs' q = iterdir fs q).
Proof. apply make_cbz_for_dir_existing. Qed.

(** X21: [make_cbz_for_dir] never overwrites and never removes.  Whatever
    the source and the destination are, and whether it returns or raises,
    every file that existed is still there with its content and every
    directory is still a directory; nothing is printed; the path returned
    did not exist before and is a file of the destination afterwards. *)
Theorem make_cbz_for_dir_keeps (src_dir dest_dir : Path) (w : world node) :
  let r := MakeCbz.make_cbz_for_dir zip_bytes src_dir dest_dir w in
  MakeCbz.preserved (w_fs w) (w_fs (snd r))
  /\ w_stdout (snd r) = w_stdout w
  /\ w_stderr (snd r) = w_stderr w
  /\ forall c, fst r = Return c ->
       exists_ (w_fs w) c = false
       /\ is_file (w_fs (snd r)) c = true
       /\ parent c = dest_dir.
Proof.
  intros r. subst r.
  destruct (make_cbz_for_dir_frame src_dir dest_dir w) as (o & fs' & calls' & -> & P & Hc).
  simpl. auto.
Qed.

End ArchiveFacts.

Lemma make_cbz_for_dir_creates_witness :
  let w := Sample.fresh Sample.library in
  exists j fs',
    let candidate := child ["lib"] (MakeCbz.candidate_name "ch1" j) in
    MakeCbz.make_cbz_for_dir Sample.zip ["lib"; "ch1"] ["lib"] w
    = (Return candidate, mkWorld fs' [] [] 0%nat ([] ++ [(SysMkdir ["lib"], true)]))
    /\ exists_ Sample.library candidate = false
    /\ (forall i, 0 <= i < j ->
          exists_ Sample.library (child ["lib"] (MakeCbz.candidate_name "ch1" i)) = true)
    /\ lookup fs' candidate
       = Some (File (Sample.zip
                       (map (fun f => (name f, MakeCbz.read_file Sample.library f))
                          [["lib"; "ch1"; "p1.png"]; ["lib"; "ch1"; "p2.png"]])))
    /\ (forall q d, q <> candidate ->
          (lookup fs' q = Some (File d) <-> lookup Sample.library q = Some (File d)))
    /\ (forall q, is_dir fs' q = is_dir Sample.library q)
    /\ (forall q, q <> ["lib"] -> iterdir fs' q = iterdir Sample.library q).
Proof.
  intros w.
  apply (make_cbz_for_dir_creates Sample.zip ["lib"; "ch1"] ["lib"] w
           [["lib"; "ch1"; "p1.png"]; ["lib"; "ch1"; ".thumbs"]; ["lib"; "ch1"; "p2.png"]]);
    reflexivity.
Defined.

(* ================================================================== *)
(** ** make_cbz.py: the loop over the leaf directories *)

Lemma print_files_frame (files : list Path) :
  forall w : world node,
    exists out,
      MakeCbz.print_files files w
      = (Return tt,
         mkWorld (w_fs w) (w_stdout w ++ out) (w_stderr w) (w_uuids w) (w_calls w)).
Proof.
  induction files as [|f rest IH]; intros w; simpl.
  - exists []. rewrite app_nil_r. now destruct w.
  - rewrite bind_run. unfold get_fs at 1. cbv beta iota.
    rewrite bind_run. unfold print at 1. cbv beta iota.
    match goal with
    | |- context [MakeCbz.print_files rest ?w'] => destruct (IH w') as (out & E); rewrite E
    end.
    simpl. eexists. rewrite <- app_assoc. reflexivity.
Qed.

Lemma print_details_frame (files : list Path) (total_bytes : Z) (w : world node) :
  exists out,
    MakeCbz.print_details files total_bytes w
    = (Return tt,
       mkWorld (w_fs w) (w_stdout w ++ out) (w_stderr w) (w_uuids w) (w_calls w)).
Proof.
  unfold MakeCbz.print_details.
  rewrite bind_run. unfold print at 1. cbv beta iota.
  rewrite bind_run.
  match goal with
  | |- context [MakeCbz.print_files files ?w'] =>
      destruct (print_files_frame files w') as (out & E); rewrite E
  end.
  unfold print. simpl. eexists. rewrite <- !app_assoc. reflexivity.
Qed.

Lemma is_dir_parent (fs : node) (d : Path) : is_dir fs d = true -> is_dir fs (parent d) = true.
Proof.
  intros Hd. destruct d as [|a d] using rev_ind; [exact Hd|].
  unfold parent. rewrite removelast_last. now apply (is_dir_prefix fs d [a]).
Qed.

Lemma preserved_exists (fs fs' : node) (c : Path) :
  MakeCbz.preserved fs fs' -> exists_ fs' c = false -> exists_ fs c = false.
Proof.
  intros (Hf & Hd) Hc. unfold exists_ in *.
  destruct (lookup fs c) as [[data|ch]|] eqn:El; [| |reflexivity].
  - now rewrite (Hf c data El) in Hc.
  - assert (Hdc : is_dir fs c = true) by (unfold is_dir; now rewrite El).
    apply Hd in Hdc. unfold is_dir in Hdc. destruct (lookup fs' c); [discriminate|discriminate].
Qed.

Lemma preserved_is_file (fs fs' : node) (c : Path) :
  MakeCbz.preserved fs fs' -> is_file fs c = true -> is_file fs' c = true.
Proof.
  intros (Hf & _) Hc. apply is_file_lookup in Hc. destruct Hc as (d & Hl).
  apply is_file_lookup. exists d. now apply Hf.
Qed.

Section ArchiveAllFacts.
Variable zip_bytes : list (string * string) -> string.

(** With [--dry-run] the loop only prints. *)
Lemma archive_all_dry (a : MakeCbz.args) (leafs : list Path) :
  MakeCbz.c_dry_run a = true ->
  forall (created : list Path) (w : world node),
    exists o out,
      MakeCbz.archive_all zip_bytes a leafs created w
      = (o, mkWorld (w_fs w) (w_stdout w ++ out) (w_stderr w) (w_uuids w) (w_calls w))
      /\ ((forall d, In d leafs -> is_dir (w_fs w) d = true) -> o = Return created).
Proof.
  intros Hdry. induction leafs as [|d rest IH]; intros created w.
  - simpl. exists (Return created), []. rewrite app_nil_r. split; [now destruct w|auto].
  - cbn [MakeCbz.archive_all]. rewrite bind_run, visible_files_run.
    destruct (iterdir (w_fs w) d) as [listing|] eqn:Hit.
    + rewrite bind_run. unfold get_fs at 1. cbv beta iota. rewrite Hdry.
      rewrite bind_run. unfold print at 1. cbv beta iota.
      rewrite bind_run.
      match goal with
      | |- context [(if ?b then ?m else ret tt) ?w'] =>
          assert (E2 : exists out2,
                    (if b then m else ret tt) w'
                    = (Return tt,
                       mkWorld (w_fs w') (w_stdout w' ++ out2) (w_stderr w') (w_uuids w')
                         (w_calls w')));
          [destruct b;
             [apply print_details_frame
             |exists []; unfold ret; rewrite app_nil_r; now destruct w']
          |destruct E2 as (out2 & E2); rewrite E2]
      end.
      cbn [w_fs w_stdout w_stderr w_uuids w_calls].
      match goal with
      | |- context [MakeCbz.archive_all zip_bytes a rest created ?w'] =>
          destruct (IH created w') as (o & out & E & Hret); rewrite E
      end.
      cbn [w_fs w_stdout w_stderr w_uuids w_calls].
      exists o. eexists. split; [rewrite <- !app_assoc; reflexivity|].
      intros Hall. apply Hret. intros d' Hd'. apply Hall. now right.
    + exists (Raise (OSError "iterdir")), []. rewrite app_nil_r.
      split; [now destruct w|].
      intros Hall. specialize (Hall d (or_introl eq_refl)).
      destruct (iterdir_is_dir _ _ Hall) as (l & El). congruence.
Qed.

(** Every run of the loop: nothing is lost. *)
Lemma archive_all_frame (a : MakeCbz.args) (leafs : list Path) :
  forall (created : list Path) (w : world node),
    exists o fs' out err calls',
      MakeCbz.archive_all zip_bytes a leafs created w
      = (o, mkWorld fs' (w_stdout w ++ out) (w_stderr w ++ err) (w_uuids w) calls')
      /\ MakeCbz.preserved (w_fs w) fs'.
Proof.
  induction leafs as [|d rest IH]; intros created w.
  - simpl. exists (Return created), (w_fs w), [], [], (w_calls w). rewrite !app_nil_r.
    split; [now destruct w|apply preserved_refl].
  - destruct (MakeCbz.c_dry_run a) eqn:Hdry.
    { destruct (archive_all_dry a (d :: rest) Hdry created w) as (o & out & E & _).
      exists o, (w_fs w), out, [], (w_calls w). rewrite app_nil_r.
      split; [exact E|apply preserved_refl]. }
    cbn [MakeCbz.archive_all]. rewrite bind_run, visible_files_run.
    destruct (iterdir (w_fs w) d) as [listing|] eqn:Hit.
    2:{ exists (Raise (OSError "iterdir")), (w_fs w), [], [], (w_calls w). rewrite !app_nil_r.
        split; [now destruct w|apply preserved_refl]. }
    rewrite bind_run. unfold get_fs at 1. cbv beta iota. rewrite Hdry.
    rewrite bind_run.
    match goal with
    | |- context [(if ?b then ?m else ret tt) ?w'] =>
        assert (E2 : exists out2,
                  (if b then m else ret tt) w'
                  = (Return tt,
                     mkWorld (w_fs w') (w_stdout w' ++ out2) (w_stderr w') (w_uuids w')
                       (w_calls w')));
        [destruct b;
           [rewrite bind_run; unfold print at 1; cbv beta iota;
            match goal with
            | |- context [MakeCbz.print_details ?fl ?tb ?w1] =>
                destruct (print_details_frame fl tb w1) as (o1 & E1); rewrite E1
            end;
            simpl; eexists; rewrite <- app_assoc; reflexivity
           |exists []; unfold ret; rewrite app_nil_r; now destruct w']
        |destruct E2 as (out2 & E2); rewrite E2]
    end.
    rewrite bind_run. unfold attempt at 1.
    match goal with
    | |- context [MakeCbz.make_cbz_for_dir zip_bytes d ?dest ?w'] =>
        destruct (make_cbz_for_dir_frame zip_bytes d dest w')
          as (o1 & fs1 & calls1 & E1 & P1 & _); rewrite E1
    end.
    cbn [w_fs w_stdout w_stderr w_uuids w_calls] in *.
    destruct o1 as [dest|exc].
    + rewrite bind_run. unfold print at 1. cbv beta iota.
      cbn [w_fs w_stdout w_stderr w_uuids w_calls].
      match goal with
      | |- context [MakeCbz.archive_all zip_bytes a rest ?cr ?w'] =>
          destruct (IH cr w') as (o & fs' & out & err & calls' & E & P); rewrite E
      end.
      cbn [w_fs w_stdout w_stderr w_uuids w_calls] in *.
      exists o, fs'. do 3 eexists. split; [rewrite <- !app_assoc; reflexivity|].
      exact (preserved_trans _ _ _ P1 P).
    + rewrite bind_run. unfold eprint at 1. cbv beta iota.
      cbn [w_fs w_stdout w_stderr w_uuids w_calls].
      match goal with
      | |- context [MakeCbz.archive_all zip_bytes a rest ?cr ?w'] =>
          destruct (IH cr w') as (o & fs' & out & err & calls' & E & P); rewrite E
      end.
      cbn [w_fs w_stdout w_stderr w_uuids w_calls] in *.
      exists o, fs'. do 3 eexists. split; [rewrite <- !app_assoc; reflexivity|].
      exact (preserved_trans _ _ _ P1 P).
Qed.

End ArchiveAllFacts.

Lemma wf_chain (p : Path) : wf (chain p).
Proof.
  induction p as [|n p IH]; simpl; constructor; simpl; repeat constructor; auto.
Qed.

(** [mkdir] keeps the names of every directory distinct. *)
Lemma wf_mkdir_parents (p : Path) :
  forall t t', wf t -> mkdir_parents t p = Some t' -> wf t'.
Proof.
  induction p as [|n p IH]; intros t t' Hw E.
  - destruct t; simpl in E; [discriminate|]. now injection E as <-.
  - destruct t as [data|ch]; simpl in E; [discriminate|].
    destruct (wf_children _ Hw) as (ND & Hall). rewrite Forall_forall in Hall.
    destruct (assoc n ch) as [c|] eqn:Ea.
    + destruct (mkdir_parents c p) as [c'|] eqn:Ec; [|discriminate]. injection E as <-.
      destruct (set_child_present n c c' ch Ea) as (Hn & Hin).
      constructor; [now rewrite Hn|].
      apply Forall_forall. intros e He. destruct (Hin e He) as [He'| ->]; [now apply Hall|].
      simpl. apply (IH c c'); [|exact Ec].
      apply (Hall (n, c)). now apply assoc_in.
    + injection E as <-. destruct (set_child_absent n (chain p) ch Ea) as (-> & Hnin).
      constructor.
      * rewrite map_app. simpl. apply NoDup_app; [exact ND|repeat constructor; auto|].
        intros x Hx [<-|[]]. contradiction.
      * apply Forall_forall. intros e He. apply in_app_or in He.
        destruct He as [He|[<-|[]]]; [now apply Hall|apply wf_chain].
Qed.

Lemma preserved_exists_true (fs fs' : node) (c : Path) :
  MakeCbz.preserved fs fs' -> exists_ fs c = true -> exists_ fs' c = true.
Proof.
  intros P Hc. destruct (exists_ fs' c) eqn:E; [reflexivity|].
  rewrite (preserved_exists fs fs' c P E) in Hc. discriminate.
Qed.

Section ArchiveLive.
Variable zip_bytes : list (string * string) -> string.

(** Without [--dry-run], over directories that exist: one new archive
    for each of them, and no failure. *)
Lemma archive_all_live (a : MakeCbz.args) (leafs : list Path) :
  MakeCbz.c_dry_run a = false ->
  forall (created : list Path) (w : world node),
    (forall d, In d leafs -> is_dir (w_fs w) d = true) ->
    (forall o, MakeCbz.c_output a = Some o -> is_dir (w_fs w) o = true) ->
    exists cs fs' out calls',
      MakeCbz.archive_all zip_bytes a leafs created w
      = (Return (created ++ cs),
         mkWorld fs' (w_stdout w ++ out) (w_stderr w) (w_uuids w) calls')
      /\ MakeCbz.preserved (w_fs w) fs'
      /\ NoDup cs
      /\ Forall (fun c => exists_ (w_fs w) c = false /\ is_file fs' c = true) cs
      /\ Forall2 (fun d c =>
                    parent c = match MakeCbz.c_output a with
                               | Some o => o
                               | None => parent d
                               end) leafs cs.
Proof.
  intros Hdry. induction leafs as [|d rest IH]; intros created w Hdirs Hout.
  - simpl. exists [], (w_fs w), [], (w_calls w). rewrite !app_nil_r.
    split; [now destruct w|]. split; [apply preserved_refl|].
    repeat constructor.
  - cbn [MakeCbz.archive_all]. rewrite bind_run, visible_files_run.
    pose proof (Hdirs d (or_introl eq_refl)) as Hd.
    destruct (iterdir_is_dir _ _ Hd) as (listing & Hit). rewrite Hit.
    rewrite bind_run. unfold get_fs at 1. cbv beta iota. rewrite Hdry.
    rewrite bind_run.
    match goal with
    | |- context [(if ?b then ?m else ret tt) ?w'] =>
        assert (E2 : exists out2,
                  (if b then m else ret tt) w'
                  = (Return tt,
                     mkWorld (w_fs w') (w_stdout w' ++ out2) (w_stderr w') (w_uuids w')
                       (w_calls w')));
        [destruct b;
           [rewrite bind_run; unfold print at 1; cbv beta iota;
            match goal with
            | |- context [MakeCbz.print_details ?fl ?tb ?w1] =>
                destruct (print_details_frame fl tb w1) as (o1 & E1); rewrite E1
            end;
            simpl; eexists; rewrite <- app_assoc; reflexivity
           |exists []; unfold ret; rewrite app_nil_r; now destruct w']
        |destruct E2 as (out2 & E2); rewrite E2]
    end.
    rewrite bind_run. unfold attempt at 1.
    set (dest := match MakeCbz.c_output a with Some o => o | None => parent d end).
    assert (Hdest : is_dir (w_fs w) dest = true).
    { unfold dest. destruct (MakeCbz.c_output a) as [o|] eqn:Eo; [now apply Hout|].
      now apply is_dir_parent. }
    match goal with
    | |- context [MakeCbz.make_cbz_for_dir zip_bytes d dest ?w'] =>
        destruct (make_cbz_for_dir_existing zip_bytes d dest w' listing Hdest Hit)
          as (j & fs1 & E1 & Hfree & _ & Hc1 & Hfile1 & Hdir1 & _); rewrite E1
    end.
    cbv zeta in *. cbn [w_fs w_stdout w_stderr w_uuids w_calls] in *.
    set (c := child dest (MakeCbz.candidate_name
                            match name d with EmptyString => "root" | String x s => String x s end
                            j)) in *.
    assert (P1 : MakeCbz.preserved (w_fs w) fs1).
    { split.
      - intros q data Hq. apply Hfile1; [|exact Hq].
        intros ->. unfold exists_ in Hfree. rewrite Hq in Hfree. discriminate.
      - intros q Hq. now rewrite Hdir1. }
    rewrite bind_run. unfold print at 1. cbv beta iota.
    cbn [w_fs w_stdout w_stderr w_uuids w_calls].
    match goal with
    | |- context [MakeCbz.archive_all zip_bytes a rest ?cr ?w'] =>
        destruct (IH cr w') as (cs & fs' & out & calls' & E & P & ND & Hnew & Hpar); [| |rewrite E]
    end.
    { cbn [w_fs]. intros d' Hd'. rewrite Hdir1. apply Hdirs. now right. }
    { cbn [w_fs]. intros o Ho. rewrite Hdir1. now apply Hout. }
    cbn [w_fs w_stdout w_stderr w_uuids w_calls] in *.
    exists (c :: cs), fs'. do 2 eexists. split; [|split; [|split; [|split]]].
    + rewrite <- !app_assoc. reflexivity.
    + exact (preserved_trans _ _ _ P1 P).
    + constructor; [|exact ND]. intros Hin.
      rewrite Forall_forall in Hnew. destruct (Hnew c Hin) as (Hex & _).
      unfold exists_ in Hex. rewrite Hc1 in Hex. discriminate.
    + constructor.
      * split; [exact Hfree|]. apply (preserved_is_file fs1 fs' c P).
        unfold is_file. now rewrite Hc1.
      * rewrite Forall_forall in *. intros c' Hc'. destruct (Hnew c' Hc') as (Hex & Hf).
        split; [|exact Hf]. now apply (preserved_exists _ fs1).
    + constructor; [|exact Hpar]. apply parent_child.
Qed.

End ArchiveLive.

(* ================================================================== *)
(** ** make_cbz.py: [main] *)

Lemma find_leaf_dirs_returns (fs : node) (root : Path) (include_empty : bool) :
  exists_ fs root = true ->
  exists leafs, MakeCbz.find_leaf_dirs fs root include_empty = Return leafs.
Proof. intros Hex. unfold MakeCbz.find_leaf_dirs. rewrite Hex. simpl. eauto. Qed.

Lemma find_leaf_dirs_dirs (fs : node) (root : Path) (include_empty : bool)
  (leafs : list Path) :
  wf fs ->
  MakeCbz.find_leaf_dirs fs root include_empty = Return leafs ->
  forall d, In d leafs -> is_dir fs d = true.
Proof.
  intros Hw E d Hd.
  destruct (proj1 (find_leaf_dirs_paths fs root d include_empty Hw)
              (ex_intro _ leafs (conj E Hd))) as (_ & Hdir & _).
  exact Hdir.
Qed.

Section CbzMainFacts.
Variable zip_bytes : list (string * string) -> string.

(** The world in which [main] looks for the leaves: after the [mkdir] of
    the output directory, when one is given. *)
Lemma cbz_main_start (a : MakeCbz.args) (w : world node) :
  exists_ (w_fs w) (MakeCbz.c_root a) = true ->
  (exists o,
     MakeCbz.c_output a = Some o
     /\ mkdir_parents (w_fs w) o = None
     /\ MakeCbz.main zip_bytes a w
        = (Raise (OSError "system call failed"),
           mkWorld (w_fs w) (w_stdout w) (w_stderr w) (w_uuids w)
             (w_calls w ++ [(SysMkdir o, false)])))
  \/ (exists fs1 calls1 leafs,
        match MakeCbz.c_output a with
        | Some o =>
            mkdir_parents (w_fs w) o = Some fs1
            /\ calls1 = w_calls w ++ [(SysMkdir o, true)]
        | None => fs1 = w_fs w /\ calls1 = w_calls w
        end
        /\ MakeCbz.find_leaf_dirs fs1 (MakeCbz.c_root a) (MakeCbz.c_include_empty a)
           = Return leafs
        /\ let w1 := mkWorld fs1 (w_stdout w) (w_stderr w) (w_uuids w) calls1 in
           MakeCbz.main zip_bytes a w
           = match leafs with
             | [] =>
                 (Return 0,
                  mkWorld fs1
                    (w_stdout w
                       ++ [Line ("No leaf directories with files found under '"
                                   ++ path_str (MakeCbz.c_root a) ++ "'. Nothing to do.")])
                    (w_stderr w) (w_uuids w) calls1)
             | _ :: _ =>
                 match MakeCbz.archive_all zip_bytes a leafs [] w1 with
                 | (Return created, w2) =>
                     (Return 0,
                      mkWorld (w_fs w2)
                        (w_stdout w2
                           ++ [Line match MakeCbz.c_output a with
                                    | Some output =>
                                        "Done. Created " ++ Py.str (Py.len created)
                                          ++ " .cbz file(s) in '" ++ path_str output ++ "'"
                                    | None =>
                                        "Done. Created " ++ Py.str (Py.len created)
                                          ++ " .cbz file(s) alongside their source parent folders"
                                    end])
                        (w_stderr w2) (w_uuids w2) (w_calls w2))
                 | (Raise e, w2) => (Raise e, w2)
                 end
             end).
Proof.
  intros Hroot.
  set (r := MakeCbz.main zip_bytes a w).
  assert (Er : r = MakeCbz.main zip_bytes a w) by reflexivity. clearbody r.
  unfold MakeCbz.main in Er. cbv zeta in Er.
  rewrite bind_run in Er. unfold get_fs at 1 in Er. cbv beta iota in Er.
  rewrite Hroot in Er. cbn [negb] in Er.
  rewrite bind_run in Er.
  destruct (MakeCbz.c_output a) as [o|] eqn:Eo.
  - rewrite mkdir_run in Er. destruct (mkdir_parents (w_fs w) o) as [fs1|] eqn:Em.
    + right.
      assert (Hroot1 : exists_ fs1 (MakeCbz.c_root a) = true).
      { apply (preserved_exists_true (w_fs w)); [|exact Hroot].
        now apply (mkdir_parents_preserved _ _ o). }
      destruct (find_leaf_dirs_returns fs1 _ (MakeCbz.c_include_empty a) Hroot1)
        as (leafs & El).
      exists fs1, (w_calls w ++ [(SysMkdir o, true)]), leafs.
      split; [auto|]. split; [exact El|]. cbv zeta.
      rewrite bind_run in Er. unfold get_fs at 1 in Er. cbv beta iota in Er.
      cbn [w_fs w_stdout w_stderr w_uuids w_calls] in Er.
      rewrite bind_run, El in Er. cbn [lift] in Er. unfold ret at 1 in Er.
      destruct leafs as [|d rest]; [exact Er|].
      rewrite bind_run in Er.
      destruct (MakeCbz.archive_all zip_bytes a (d :: rest) [] _) as [[created|e] w2];
        exact Er.
    + left. exists o. auto.
  - right. unfold ret at 1 in Er.
    destruct (find_leaf_dirs_returns (w_fs w) _ (MakeCbz.c_include_empty a) Hroot)
      as (leafs & El).
    exists (w_fs w), (w_calls w), leafs.
    split; [auto|]. split; [exact El|]. cbv zeta.
    rewrite bind_run in Er. unfold get_fs at 1 in Er. cbv beta iota in Er.
    rewrite bind_run, El in Er. cbn [lift] in Er. unfold ret at 1 in Er.
    assert (Ew : mkWorld (w_fs w) (w_stdout w) (w_stderr w) (w_uuids w) (w_calls w) = w)
      by (now destruct w).
    rewrite Ew.
    destruct leafs as [|d rest]; [exact Er|].
    rewrite bind_run in Er.
    destruct (MakeCbz.archive_all zip_bytes a (d :: rest) [] w) as [[created|e] w2];
      exact Er.
Qed.

Lemma cbz_main_missing (a : MakeCbz.args) (w : world node) :
  exists_ (w_fs w) (MakeCbz.c_root a) = false ->
  MakeCbz.main zip_bytes a w
  = (Return 2,
     mkWorld (w_fs w) (w_stdout w)
       (w_stderr w ++ [Line ("Root path '" ++ path_str (MakeCbz.c_root a)
                               ++ "' does not exist")])
       (w_uuids w) (w_calls w)).
Proof.
  intros Hroot. unfold MakeCbz.main. cbv zeta.
  rewrite bind_run. unfold get_fs at 1. cbv beta iota. rewrite Hroot. reflexivity.
Qed.

(** Every run of [main]. *)
Lemma cbz_main_cases (a : MakeCbz.args) (w : world node) :
  let r := MakeCbz.main zip_bytes a w in
  MakeCbz.preserved (w_fs w) (w_fs (snd r))
  /\ (fst r = Return 2 <-> exists_ (w_fs w) (MakeCbz.c_root a) = false)
  /\ (forall code, fst r = Return code -> code = 0 \/ code = 2)
  /\ (fst r = Return 2 ->
      w_fs (snd r) = w_fs w /\ w_calls (snd r) = w_calls w
      /\ w_stdout (snd r) = w_stdout w).
Proof.
  intros r. subst r.
  destruct (exists_ (w_fs w) (MakeCbz.c_root a)) eqn:Hroot.
  2:{ rewrite (cbz_main_missing a w Hroot). simpl.
      split; [apply preserved_refl|]. split; [tauto|].
      split; [intros code [= <-]; auto|auto]. }
  destruct (cbz_main_start a w Hroot)
    as [(o & Eo & Em & ->)|(fs1 & calls1 & leafs & Hfs1 & El & E)].
  { simpl. split; [apply preserved_refl|]. split; [split; discriminate|].
    split; discriminate. }
  cbv zeta in E. rewrite E. clear E.
  assert (P1 : MakeCbz.preserved (w_fs w) fs1).
  { destruct (MakeCbz.c_output a) as [o|].
    - destruct Hfs1 as (Em & _). now apply (mkdir_parents_preserved _ _ o).
    - destruct Hfs1 as (-> & _). apply preserved_refl. }
  destruct leafs as [|d rest].
  { simpl. split; [exact P1|]. split; [split; discriminate|].
    split; [intros code [= <-]; auto|discriminate]. }
  match goal with
  | |- context [MakeCbz.archive_all zip_bytes a ?l [] ?w1] =>
      destruct (archive_all_frame zip_bytes a l [] w1)
        as (o & fs' & out & err & calls' & -> & P)
  end.
  cbn [w_fs] in P. pose proof (preserved_trans _ _ _ P1 P) as P2.
  destruct o as [created|e]; simpl.
  - split; [exact P2|]. split; [split; discriminate|].
    split; [intros code [= <-]; auto|discriminate].
  - split; [exact P2|]. split; [split; discriminate|]. split; discriminate.
Qed.

(** X22: [main] of make_cbz.py never overwrites and never removes: in every
    mode, and whether it returns or raises, every file that existed is
    still there with its content and every directory is still a
    directory. *)
Theorem cbz_main_keeps (a : MakeCbz.args) (w : world node) :
  MakeCbz.preserved (w_fs w) (w_fs (snd (MakeCbz.main zip_bytes a w))).
Proof. apply (cbz_main_cases a w). Qed.

(** X23: the exit code of make_cbz.py.  [main] returns 2 exactly when the
    root does not exist, and then it has changed nothing and printed
    nothing on the standard output; every other value it returns is 0,
    also when no leaf was found. *)
Theorem cbz_main_exit_code (a : MakeCbz.args) (w : world node) :
  let r := MakeCbz.main zip_bytes a w in
  (fst r = Return 2 <-> exists_ (w_fs w) (MakeCbz.c_root a) = false)
  /\ (forall code, fst r = Return code -> code = 0 \/ code = 2)
  /\ (fst r = Return 2 ->
      w_fs (snd r) = w_fs w /\ w_calls (snd r) = w_calls w
      /\ w_stdout (snd r) = w_stdout w).
Proof. apply (cbz_main_cases a w). Qed.

(** X24: what [--dry-run] leaves behind.  Without [--output] the file system
    is untouched and no call is made.  With [--output] the output
    directory is created all the same, before the leaves are looked for:
    the one call made is that [mkdir], and the file system is the one it
    leaves.  No archive is written in either case. *)
Theorem cbz_main_dry_run (a : MakeCbz.args) (w : world node) :
  MakeCbz.c_dry_run a = true ->
  exists_ (w_fs w) (MakeCbz.c_root a) = true ->
  let r := MakeCbz.main zip_bytes a w in
  w_stderr (snd r) = w_stderr w
  /\ match MakeCbz.c_output a with
     | None => w_fs (snd r) = w_fs w /\ w_calls (snd r) = w_calls w
     | Some o =>
         match mkdir_parents (w_fs w) o with
         | Some fs1 =>
             w_fs (snd r) = fs1 /\ w_calls (snd r) = w_calls w ++ [(SysMkdir o, true)]
         | None =>
             w_fs (snd r) = w_fs w /\ w_calls (snd r) = w_calls w ++ [(SysMkdir o, false)]
         end
     end.
Proof.
  intros Hdry Hroot r. subst r.
  destruct (cbz_main_start a w Hroot)
    as [(o & Eo & Em & ->)|(fs1 & calls1 & leafs & Hfs1 & El & E)].
  { rewrite Eo, Em. simpl. auto. }
  cbv zeta in E. rewrite E. clear E.
  assert (Hgoal : forall w2 : world node,
            w_fs w2 = fs1 -> w_calls w2 = calls1 -> w_stderr w2 = w_stderr w ->
            w_stderr w2 = w_stderr w
            /\ match MakeCbz.c_output a with
               | None => w_fs w2 = w_fs w /\ w_calls w2 = w_calls w
               | Some o =>
                   match mkdir_parents (w_fs w) o with
                   | Some fs1 =>
                       w_fs w2 = fs1 /\ w_calls w2 = w_calls w ++ [(SysMkdir o, true)]
                   | None =>
                       w_fs w2 = w_fs w /\ w_calls w2 = w_calls w ++ [(SysMkdir o, false)]
                   end
               end).
  { intros w2 Hf Hc He. split; [exact He|].
    destruct (MakeCbz.c_output a) as [o|].
    - destruct Hfs1 as (-> & ->). auto.
    - destruct Hfs1 as (-> & ->). auto. }
  destruct leafs as [|d rest]; [apply Hgoal; reflexivity|].
  match goal with
  | |- context [MakeCbz.archive_all zip_bytes a ?l [] ?w1] =>
      destruct (archive_all_dry zip_bytes a l Hdry [] w1) as (o & out & -> & _)
  end.
  destruct o as [created|e]; apply Hgoal; reflexivity.
Qed.

(** X25: a run without [--dry-run] on a tree with distinct names in every
    directory, when the root exists and the output directory, if one is
    given, can be made.  [main] returns 0 and reports no failure; it
    creates one archive for each leaf directory found, in the output
    directory or else beside the leaf; the archives are pairwise distinct
    files that did not exist before. *)
Theorem cbz_main_archives (a : MakeCbz.args) (w : world node) (fs1 : node) :
  wf (w_fs w) ->
  exists_ (w_fs w) (MakeCbz.c_root a) = true ->
  MakeCbz.c_dry_run a = false ->
  match MakeCbz.c_output a with
  | Some o => mkdir_parents (w_fs w) o
  | None => Some (w_fs w)
  end = Some fs1 ->
  let r := MakeCbz.main zip_bytes a w in
  exists leafs created,
    MakeCbz.find_leaf_dirs fs1 (MakeCbz.c_root a) (MakeCbz.c_include_empty a)
    = Return leafs
    /\ fst r = Return 0
    /\ w_stderr (snd r) = w_stderr w
    /\ NoDup created
    /\ Forall (fun c => exists_ fs1 c = false /\ is_file (w_fs (snd r)) c = true) created
    /\ Forall2 (fun d c =>
                  parent c = match MakeCbz.c_output a with
                             | Some o => o
                             | None => parent d
                             end) leafs created.
Proof.
  intros Hw Hroot Hdry Hmk r. subst r.
  destruct (cbz_main_start a w Hroot)
    as [(o & Eo & Em & _)|(fs1' & calls1 & leafs & Hfs1 & El & E)].
  { rewrite Eo, Em in Hmk. discriminate. }
  assert (fs1' = fs1 /\ wf fs1
          /\ forall o, MakeCbz.c_output a = Some o -> is_dir fs1 o = true)
    as (-> & Hw1 & Hout).
  { destruct (MakeCbz.c_output a) as [o|].
    - destruct Hfs1 as (Em & _). rewrite Em in Hmk. injection Hmk as ->.
      split; [reflexivity|]. split; [now apply (wf_mkdir_parents o (w_fs w))|].
      intros o' [= <-]. now destruct (mkdir_parents_keeps o _ _ Em).
    - destruct Hfs1 as (-> & _). injection Hmk as <-.
      split; [reflexivity|]. split; [exact Hw|discriminate]. }
  cbv zeta in E. rewrite E. clear E.
  exists leafs.
  destruct leafs as [|d rest] eqn:Eleafs.
  { exists []. simpl. repeat split; auto; constructor. }
  rewrite <- Eleafs in *.
  match goal with
  | |- context [MakeCbz.archive_all zip_bytes a leafs [] ?w1] =>
      destruct (archive_all_live zip_bytes a leafs Hdry [] w1)
        as (cs & fs' & out & calls' & Erun & P & ND & Hnew & Hpar)
  end.
  { cbn [w_fs]. now apply (find_leaf_dirs_dirs fs1 _ _ leafs Hw1 El). }
  { cbn [w_fs]. exact Hout. }
  rewrite Erun. cbn [w_fs] in Hnew.
  exists cs. rewrite Eleafs at 1. simpl. repeat split; auto.
  rewrite <- Eleafs. exact El.
Qed.

End CbzMainFacts.

Lemma cbz_main_dry_run_witness :
  let a := MakeCbz.mkArgs [] (Some ["out"]) false true true in
  let w := Sample.fresh Sample.library in
  let r := MakeCbz.main Sample.zip a w in
  w_stderr (snd r) = []
  /\ w_fs (snd r)
     = Dir [("lib", Dir [("ch1", Dir [("p1.png", File "a"); (".thumbs", File "t");
                                       ("p2.png", File "b")]);
                         ("ch1.cbz", File "old")]);
            ("out", Dir [])]
  /\ w_calls (snd r) = [] ++ [(SysMkdir ["out"], true)].
Proof.
  intros a w. apply (cbz_main_dry_run Sample.zip a w); reflexivity.
Defined.

Lemma cbz_main_archives_witness :
  let a := MakeCbz.mkArgs [] None false false false in
  let w := Sample.fresh Sample.library in
  let r := MakeCbz.main Sample.zip a w in
  exists leafs created,
    MakeCbz.find_leaf_dirs Sample.library [] false = Return leafs
    /\ fst r = Return 0
    /\ w_stderr (snd r) = []
    /\ NoDup created
    /\ Forall (fun c => exists_ Sample.library c = false
                        /\ is_file (w_fs (snd r)) c = true) created
    /\ Forall2 (fun d c => parent c = parent d) leafs created.
Proof.
  intros a w.
  apply (cbz_main_archives Sample.zip a w Sample.library).
  - repeat constructor; simpl; intuition discriminate.
  - reflexivity.
  - reflexivity.
  - reflexivity.
Defined.

(* ================================================================== *)
(** ** make_cbz.py: every leaf once, every archive with its files *)

Lemma walk_paths_below (t : node) :
  forall top e, In e (walk top t) -> exists q, fst (fst e) = top ++ q.
Proof.
  induction t as [data|ch IH] using node_tree_ind; intros top e Hin; simpl in Hin.
  - destruct Hin.
  - destruct Hin as [<-|Hin]; [exists []; simpl; now rewrite app_nil_r|].
    apply in_flat_map in Hin. destruct Hin as ([n c] & Hnc & Hin). simpl in Hin.
    rewrite Forall_forall in IH.
    destruct (IH (n, c) Hnc (child top n) e Hin) as (q & ->).
    exists (n :: q). unfold child. now rewrite <- app_assoc.
Qed.

(** [os.walk] yields every directory once. *)
Lemma walk_nodup (t : node) :
  forall top, wf t -> NoDup (map (fun e => fst (fst e)) (walk top t)).
Proof.
  induction t as [data|ch IH] using node_tree_ind; intros top Hw; simpl; [constructor|].
  destruct (wf_children _ Hw) as (ND & Hall).
  constructor.
  - intros Hin. apply in_map_iff in Hin. destruct Hin as (e & He & Hin).
    apply in_flat_map in Hin. destruct Hin as ([n c] & _ & Hin). simpl in Hin.
    destruct (walk_paths_below c _ e Hin) as (q & Hq).
    rewrite Hq in He. unfold child in He. rewrite <- app_assoc in He.
    apply (f_equal (@List.length string)) in He. rewrite length_app in He. simpl in He. lia.
  - clear Hw. induction ch as [|[n c] ch IHch]; simpl; [constructor|].
    inversion ND as [|? ? Hnin ND']; subst.
    inversion Hall as [|? ? Hwc Hall']; subst.
    inversion IH as [|? ? IHc IH']; subst.
    rewrite map_app. apply NoDup_app.
    + apply IHc. exact Hwc.
    + now apply IHch.
    + intros p Hp1 Hp2.
      apply in_map_iff in Hp1. destruct Hp1 as (e1 & <- & He1).
      apply in_map_iff in Hp2. destruct Hp2 as (e2 & E & He2).
      apply in_flat_map in He2. destruct He2 as ([n2 c2] & Hnc2 & He2). simpl in He2.
      destruct (walk_paths_below c _ e1 He1) as (q1 & Hq1).
      destruct (walk_paths_below c2 _ e2 He2) as (q2 & Hq2).
      rewrite Hq1, Hq2 in E. unfold child in E. rewrite <- !app_assoc in E.
      apply app_inv_head in E. simpl in E. injection E as -> _.
      apply Hnin. simpl. now apply (in_map fst) in Hnc2.
Qed.

Lemma NoDup_map_filter (A B : Type) (g : A -> B) (p : A -> bool) (l : list A) :
  NoDup (map g l) -> NoDup (map g (filter p l)).
Proof.
  induction l as [|x l IH]; simpl; intros ND; [constructor|].
  inversion ND as [|? ? Hnin ND']; subst.
  destruct (p x); simpl; [|now apply IH].
  constructor; [|now apply IH].
  intros Hin. apply Hnin. apply in_map_iff in Hin. destruct Hin as (y & E & Hy).
  apply filter_In in Hy. rewrite <- E. apply in_map. tauto.
Qed.

Lemma find_leaf_dirs_distinct (fs : node) (root : Path) (include_empty : bool)
  (leafs : list Path) :
  wf fs ->
  MakeCbz.find_leaf_dirs fs root include_empty = Return leafs ->
  NoDup leafs.
Proof.
  intros Hw E. unfold MakeCbz.find_leaf_dirs in E.
  destruct (exists_ fs root) eqn:Hex; simpl in E; [|discriminate].
  injection E as <-. apply NoDup_map_filter.
  unfold os_walk, exists_ in *. destruct (lookup fs root) as [t|] eqn:Hl; [|constructor].
  apply walk_nodup. now apply (wf_lookup root fs).
Qed.

(** X26: [find_leaf_dirs] returns no directory twice, in a tree whose
    directories have distinct names each. *)
Theorem find_leaf_dirs_nodup (fs : node) (root : Path) (include_empty : bool)
  (leafs : list Path) :
  wf fs ->
  MakeCbz.find_leaf_dirs fs root include_empty = Return leafs ->
  NoDup leafs.
Proof. apply find_leaf_dirs_distinct. Qed.

Lemma find_leaf_dirs_nodup_witness : NoDup [["lib"; "ch1"]].
Proof.
  apply (find_leaf_dirs_nodup Sample.library [] false).
  - repeat constructor; simpl; intuition discriminate.
  - reflexivity.
Defined.

Lemma listed_exists (fs : node) (d : Path) (listing : list Path) (f : Path) :
  iterdir fs d = Some listing -> In f listing -> exists_ fs f = true.
Proof.
  unfold iterdir. destruct (lookup fs d) as [[?|ch]|] eqn:Hl; try discriminate.
  intros [= <-] Hin. apply in_map_iff in Hin. destruct Hin as ([n c] & <- & He).
  unfold exists_, child. rewrite lookup_app, Hl. simpl.
  destruct (assoc n ch) eqn:Ea; [reflexivity|].
  exfalso. clear Hl. induction ch as [|[m c0] ch IH]; [destruct He|].
  simpl in Ea. destruct (String.eqb_spec n m) as [->|Hne]; [discriminate|].
  destruct He as [[= -> _]|He]; [congruence|auto].
Qed.

Lemma ordered_pairs (A : Type) (R : A -> A -> Prop) (l : list A) :
  NoDup l ->
  (forall a b, In a l -> In b l -> a <> b -> R a b) ->
  ForallOrdPairs R l.
Proof.
  induction l as [|x l IH]; intros ND H; constructor.
  - inversion ND as [|? ? Hnin _]; subst. apply Forall_forall. intros y Hy.
    apply H; simpl; auto. intros ->. contradiction.
  - inversion ND; subst. apply IH; [assumption|]. intros a b Ha Hb. apply H; simpl; auto.
Qed.

Section ArchiveContents.
Variable zip_bytes : list (string * string) -> string.

(** Without [--output] and without [--dry-run], over directories none of
    which holds a later one: the archive of each directory holds the
    visible files that the directory had before the loop. *)
Lemma archive_all_contents (a : MakeCbz.args) (fs0 : node) (leafs : list Path) :
  MakeCbz.c_dry_run a = false ->
  MakeCbz.c_output a = None ->
  ForallOrdPairs (fun d d' => parent d <> d') leafs ->
  forall (created : list Path) (w : world node),
    MakeCbz.preserved fs0 (w_fs w) ->
    (forall q data, exists_ fs0 q = true ->
       (lookup (w_fs w) q = Some (File data) <-> lookup fs0 q = Some (File data))) ->
    (forall d, In d leafs ->
       is_dir (w_fs w) d = true /\ iterdir (w_fs w) d = iterdir fs0 d) ->
    exists cs fs' out calls',
      MakeCbz.archive_all zip_bytes a leafs created w
      = (Return (created ++ cs),
         mkWorld fs' (w_stdout w ++ out) (w_stderr w) (w_uuids w) calls')
      /\ MakeCbz.preserved (w_fs w) fs'
      /\ Forall2 (fun d c =>
                    parent c = parent d
                    /\ exists_ fs0 c = false
                    /\ exists listing,
                         iterdir fs0 d = Some listing
                         /\ lookup fs' c
                            = Some (File (zip_bytes
                                            (map (fun f => (name f, MakeCbz.read_file fs0 f))
                                               (filter (visible_file fs0) listing)))))
           leafs cs.
Proof.
  intros Hdry Hnone.
  induction leafs as [|d rest IH]; intros Hord created w P0 Hfiles Hdirs.
  - simpl. exists [], (w_fs w), [], (w_calls w). rewrite !app_nil_r.
    split; [now destruct w|]. split; [apply preserved_refl|constructor].
  - inversion Hord as [|? ? Hhead Hord']; subst. rewrite Forall_forall in Hhead.
    cbn [MakeCbz.archive_all]. rewrite bind_run, visible_files_run.
    destruct (Hdirs d (or_introl eq_refl)) as (Hd & Hit0).
    destruct (iterdir_is_dir _ _ Hd) as (listing & Hit). rewrite Hit.
    rewrite bind_run. unfold get_fs at 1. cbv beta iota. rewrite Hdry.
    rewrite bind_run.
    match goal with
    | |- context [(if ?b then ?m else ret tt) ?w'] =>
        assert (E2 : exists out2,
                  (if b then m else ret tt) w'
                  = (Return tt,
                     mkWorld (w_fs w') (w_stdout w' ++ out2) (w_stderr w') (w_uuids w')
                       (w_calls w')));
        [destruct b;
           [rewrite bind_run; unfold print at 1; cbv beta iota;
            match goal with
            | |- context [MakeCbz.print_details ?fl ?tb ?w1] =>
                destruct (print_details_frame fl tb w1) as (o1 & E1); rewrite E1
            end;
            simpl; eexists; rewrite <- app_assoc; reflexivity
           |exists []; unfold ret; rewrite app_nil_r; now destruct w']
        |destruct E2 as (out2 & E2); rewrite E2]
    end.
    rewrite bind_run. unfold attempt at 1. rewrite Hnone.
    pose proof (is_dir_parent _ _ Hd) as Hdest.
    match goal with
    | |- context [MakeCbz.make_cbz_for_dir zip_bytes d (parent d) ?w'] =>
        destruct (make_cbz_for_dir_existing zip_bytes d (parent d) w' listing Hdest Hit)
          as (j & fs1 & E1 & Hfree & _ & Hc1 & Hfile1 & Hdir1 & Hlist1); rewrite E1
    end.
    cbv zeta in *. cbn [w_fs w_stdout w_stderr w_uuids w_calls] in *.
    set (c := child (parent d)
                (MakeCbz.candidate_name
                   match name d with EmptyString => "root" | String x s => String x s end
                   j)) in *.
    assert (P1 : MakeCbz.preserved (w_fs w) fs1).
    { split.
      - intros q data Hq. apply Hfile1; [|exact Hq].
        intros ->. unfold exists_ in Hfree. rewrite Hq in Hfree. discriminate.
      - intros q Hq. now rewrite Hdir1. }
    assert (Hfree0 : exists_ fs0 c = false) by (now apply (preserved_exists fs0 (w_fs w))).
    rewrite bind_run. unfold print at 1. cbv beta iota.
    cbn [w_fs w_stdout w_stderr w_uuids w_calls].
    match goal with
    | |- context [MakeCbz.archive_all zip_bytes a rest ?cr ?w'] =>
        destruct (IH Hord' cr w') as (cs & fs' & out & calls' & E & P & Hcont);
          [| | |rewrite E]
    end.
    { cbn [w_fs]. exact (preserved_trans _ _ _ P0 P1). }
    { cbn [w_fs]. intros q data Hq. rewrite <- (Hfiles q data Hq). apply Hfile1.
      intros ->. congruence. }
    { cbn [w_fs]. intros d' Hd'. destruct (Hdirs d' (or_intror Hd')) as (Hdd & Hitd).
      split; [now rewrite Hdir1|]. rewrite <- Hitd. apply Hlist1.
      intros ->. now apply (Hhead _ Hd'). }
    cbn [w_fs w_stdout w_stderr w_uuids w_calls] in *.
    exists (c :: cs), fs'. do 2 eexists. split; [|split].
    + rewrite <- !app_assoc. reflexivity.
    + exact (preserved_trans _ _ _ P1 P).
    + constructor; [|exact Hcont].
      split; [apply parent_child|]. split; [exact Hfree0|].
      exists listing. split; [congruence|].
      destruct P as (Pf & _). rewrite (Pf c _ Hc1). do 3 f_equal.
      assert (Hvis : forall f, In f listing -> visible_file (w_fs w) f = visible_file fs0 f).
      { intros f Hf. unfold visible_file. f_equal.
        assert (Hex : exists_ fs0 f = true)
          by (apply (listed_exists fs0 d listing); congruence).
        unfold is_file.
        destruct (lookup fs0 f) as [[data|?]|] eqn:El0.
        - now rewrite (proj2 (Hfiles f data Hex) El0).
        - destruct (lookup (w_fs w) f) as [[data|?]|] eqn:El; try reflexivity.
          apply (Hfiles f data Hex) in El. congruence.
        - unfold exists_ in Hex. rewrite El0 in Hex. discriminate. }
      rewrite (filter_ext_in _ _ _ Hvis).
      apply map_ext_in. intros f Hf. f_equal.
      apply filter_In in Hf. destruct Hf as (Hf & Hv).
      unfold visible_file in Hv. apply andb_true_iff in Hv. destruct Hv as (Hff & _).
      apply is_file_lookup in Hff. destruct Hff as (data & El0).
      assert (Hex : exists_ fs0 f = true) by (unfold exists_; now rewrite El0).
      unfold MakeCbz.read_file. now rewrite El0, (proj2 (Hfiles f data Hex) El0).
Qed.

(** X27: what make_cbz.py does by default.  On a tree whose directories
    have distinct names each, without [--output], [--include-empty] and
    [--dry-run], and with a root that exists, [main] returns 0 and leaves,
    for every leaf directory that [find_leaf_dirs] finds, one new file
    beside that directory: the archive of the visible files that lay
    directly in the directory when [main] started, under their names and
    with their contents, in the order of the listing. *)
Theorem cbz_main_contents (a : MakeCbz.args) (w : world node) :
  wf (w_fs w) ->
  exists_ (w_fs w) (MakeCbz.c_root a) = true ->
  MakeCbz.c_output a = None ->
  MakeCbz.c_include_empty a = false ->
  MakeCbz.c_dry_run a = false ->
  let fs := w_fs w in
  let r := MakeCbz.main zip_bytes a w in
  exists leafs created,
    MakeCbz.find_leaf_dirs fs (MakeCbz.c_root a) false = Return leafs
    /\ fst r = Return 0
    /\ Forall2 (fun d c =>
                  parent c = parent d
                  /\ exists_ fs c = false
                  /\ exists listing,
                       iterdir fs d = Some listing
                       /\ lookup (w_fs (snd r)) c
                          = Some (File (zip_bytes
                                          (map (fun f => (name f, MakeCbz.read_file fs f))
                                             (filter (visible_file fs) listing)))))
         leafs created.
Proof.
  intros Hw Hroot Hnone Hie Hdry fs r. subst fs r.
  destruct (cbz_main_start zip_bytes a w Hroot)
    as [(o & Eo & _)|(fs1 & calls1 & leafs & Hfs1 & El & E)]; [congruence|].
  rewrite Hnone in Hfs1, E. destruct Hfs1 as (-> & ->). rewrite Hie in El.
  cbv zeta in E. rewrite E. clear E.
  exists leafs.
  destruct leafs as [|d0 rest0] eqn:Eleafs.
  { exists []. simpl. repeat split; auto; constructor. }
  rewrite <- Eleafs in *.
  assert (Hord : ForallOrdPairs (fun d d' => parent d <> d') leafs).
  { apply ordered_pairs; [now apply (find_leaf_dirs_distinct _ _ _ _ Hw El)|].
    intros x y Hx Hy Hne Hp.
    destruct x as [|b x] using rev_ind; [simpl in Hp; congruence|].
    unfold parent in Hp. rewrite removelast_last in Hp. subst y.
    destruct (proj1 (find_leaf_dirs_paths _ _ x false Hw) (ex_intro _ leafs (conj El Hy)))
      as (_ & _ & _ & Hnone_below).
    destruct (proj1 (find_leaf_dirs_paths _ _ (x ++ [b]) false Hw)
                (ex_intro _ leafs (conj El Hx)))
      as (_ & Hdirx & [Hf|(f & Hf & Hv)] & _); [discriminate|].
    specialize (Hnone_below b [f] Hdirx Hf).
    unfold name, child in Hnone_below. rewrite last_last in Hnone_below. congruence. }
  match goal with
  | |- context [MakeCbz.archive_all zip_bytes a leafs [] ?w1] =>
      destruct (archive_all_contents a (w_fs w) leafs Hdry Hnone Hord [] w1)
        as (cs & fs' & out & calls' & Erun & _ & Hcont)
  end.
  { apply preserved_refl. }
  { cbn [w_fs]. tauto. }
  { cbn [w_fs]. intros d Hd. split; [|reflexivity].
    now apply (find_leaf_dirs_dirs _ _ _ leafs Hw El). }
  rewrite Erun. exists cs. rewrite Eleafs at 1. simpl.
  split; [now rewrite <- Eleafs|]. split; [reflexivity|exact Hcont].
Qed.

End ArchiveContents.

Lemma cbz_main_contents_witness :
  let a := MakeCbz.mkArgs [] None false false true in
  let w := Sample.fresh Sample.library in
  let r := MakeCbz.main Sample.zip a w in
  exists leafs created,
    MakeCbz.find_leaf_dirs Sample.library [] false = Return leafs
    /\ fst r = Return 0
    /\ Forall2 (fun d c =>
                  parent c = parent d
                  /\ exists_ Sample.library c = false
                  /\ exists listing,
                       iterdir Sample.library d = Some listing
                       /\ lookup (w_fs (snd r)) c
                          = Some (File (Sample.zip
                                          (map (fun f =>
                                                  (name f, MakeCbz.read_file Sample.library f))
                                             (filter (visible_file Sample.library) listing)))))
         leafs created.
Proof.
  intros a w.
  apply (cbz_main_contents Sample.zip a w).
  - repeat constructor; simpl; intuition discriminate.
  - reflexivity.
  - reflexivity.
  - reflexivity.
  - reflexivity.
Defined.

(* ================================================================== *)
(** ** [find_problem_dirs]: every directory at most once *)

Lemma descendants_nonempty (t : node) (q : Path) : In q (descendants t) -> q <> [].
Proof.
  destruct t as [data|ch]; simpl; [intros []|].
  intros Hin. apply in_app_or in Hin. destruct Hin as [Hin|Hin].
  - apply in_map_iff in Hin. destruct Hin as (e & <- & _). discriminate.
  - apply in_flat_map in Hin. destruct Hin as (e & _ & Hin).
    apply in_map_iff in Hin. destruct Hin as (q' & <- & _). discriminate.
Qed.

Lemma below_children_nodup (ch : list (string * node)) :
  NoDup (map fst ch) ->
  Forall (fun e => NoDup (descendants (snd e))) ch ->
  NoDup (flat_map (fun e => map (cons (fst e)) (descendants (snd e))) ch).
Proof.
  induction ch as [|[n c] ch IH]; simpl; intros ND Hall; [constructor|].
  inversion ND as [|? ? Hnin ND']; subst.
  inversion Hall as [|? ? Hc Hall']; subst. simpl in Hc.
  apply NoDup_app.
  - apply NoDup_map_inj; [intros x y [= ->]; reflexivity|exact Hc].
  - now apply IH.
  - intros p Hp1 Hp2. apply in_map_iff in Hp1. destruct Hp1 as (q1 & <- & _).
    apply in_flat_map in Hp2. destruct Hp2 as ([n2 c2] & Hnc2 & Hin). simpl in Hin.
    apply in_map_iff in Hin. destruct Hin as (q & [= -> _] & _).
    apply Hnin. now apply (in_map fst) in Hnc2.
Qed.

Lemma descendants_nodup (t : node) : wf t -> NoDup (descendants t).
Proof.
  induction t as [data|ch IH] using node_tree_ind; intros Hw; simpl; [constructor|].
  destruct (wf_children _ Hw) as (ND & Hall).
  apply NoDup_app.
  - rewrite <- (map_map fst (fun n => [n])).
    apply NoDup_map_inj; [intros x y [= ->]; reflexivity|exact ND].
  - apply below_children_nodup; [exact ND|].
    rewrite Forall_forall in *. intros e He. apply (IH e He). now apply Hall.
  - intros p Hp1 Hp2. apply in_map_iff in Hp1. destruct Hp1 as (e1 & <- & _).
    apply in_flat_map in Hp2. destruct Hp2 as (e2 & _ & Hin).
    apply in_map_iff in Hin. destruct Hin as (q & [= _ ->] & Hq).
    now apply descendants_nonempty in Hq.
Qed.

Lemma visited_nodup (fs : node) (root : Path) :
  wf fs -> NoDup (root :: filter (is_dir fs) (rglob fs root)).
Proof.
  intros Hw. unfold rglob.
  destruct (lookup fs root) as [t|] eqn:Hl; [|repeat constructor; auto].
  constructor.
  - intros Hin. apply filter_In in Hin. destruct Hin as (Hin & _).
    apply in_map_iff in Hin. destruct Hin as (q & E & Hq).
    apply descendants_nonempty in Hq. apply Hq.
    apply (app_inv_head root). now rewrite app_nil_r.
  - apply NoDup_filter. apply NoDup_map_inj; [intros x y; apply app_inv_head|].
    apply descendants_nodup. now apply (wf_lookup root fs).
Qed.

Lemma scan_dirs_nodup (fs : node) (min_files : Z) (dirs : list Path) :
  NoDup dirs ->
  forall results,
    scan_dirs fs min_files dirs = Return results -> NoDup (map r_dir results).
Proof.
  induction dirs as [|d dirs IH]; intros ND results E; simpl in E.
  - injection E as <-. constructor.
  - inversion ND as [|? ? Hnin ND']; subst.
    destruct (is_leaf_dir fs d) eqn:Hleaf; simpl in E; [|now apply IH].
    destruct (analyze_dir fs d min_files) as [res|e] eqn:Ea; [|discriminate].
    destruct (scan_dirs fs min_files dirs) as [rest|e] eqn:Es; [|discriminate].
    destruct res as [r0|]; injection E as <-; [|now apply IH].
    simpl. constructor; [|now apply IH].
    destruct (reported_has_file _ _ _ _ Ea) as (-> & _).
    intros Hin. apply in_map_iff in Hin. destruct Hin as (r & Er & Hr).
    apply (scan_dirs_in fs min_files dirs rest Es) in Hr.
    destruct Hr as (d' & Hd' & _ & Ha').
    destruct (reported_has_file _ _ _ _ Ha') as (Er' & _).
    apply Hnin. congruence.
Qed.

(** X28: in a tree whose directories have distinct names each,
    [find_problem_dirs] reports no directory twice. *)
Theorem find_problem_dirs_nodup (fs : node) (root : Path) (min_files : Z)
  (results : list report) :
  wf fs ->
  find_problem_dirs fs root min_files = Return results ->
  NoDup (map r_dir results).
Proof.
  intros Hw E. apply (scan_dirs_nodup fs min_files _ (visited_nodup fs root Hw) _ E).
Qed.

Lemma find_problem_dirs_nodup_witness : NoDup [["a"]; ["b"; "c"]].
Proof.
  apply (find_problem_dirs_nodup
           (Dir [("b", Dir [("c", Dir [("f9", File "p"); ("f10", File "q")])]);
                 ("a", Dir [("x9", File "p"); ("x10", File "q")])])
           [] 2
           [{| r_dir := ["a"]; r_count := 2; r_min := 9; r_max := 10;
               r_desired_width := 2; r_token_lengths_sample := [1; 2];
               r_lex_order_sample := ["x10"; "x9"];
               r_numeric_order_sample := ["x9"; "x10"] |};
            {| r_dir := ["b"; "c"]; r_count := 2; r_min := 9; r_max := 10;
               r_desired_width := 2; r_token_lengths_sample := [1; 2];
               r_lex_order_sample := ["f10"; "f9"];
               r_numeric_order_sample := ["f9"; "f10"] |}]).
  - repeat constructor; simpl; intuition discriminate.
  - reflexivity.
Defined.

(* ================================================================== *)
(** ** [analyze_dir] and the order of the listing *)

Lemma path_ltb_irrefl (p : Path) : path_ltb p p = false.
Proof. induction p as [|a p IH]; simpl; [reflexivity|]. now rewrite string_compare_refl. Qed.

Lemma path_ltb_trans (p : Path) :
  forall q r, path_ltb p q = true -> path_ltb q r = true -> path_ltb p r = true.
Proof.
  induction p as [|a p IH]; intros [|b q] [|c r]; simpl; try discriminate; auto.
  destruct (String.compare a b) eqn:Eab; try discriminate.
  - apply String.compare_eq_iff in Eab. subst b.
    destruct (String.compare a c); try discriminate; auto. apply IH.
  - destruct (String.compare b c) eqn:Ebc; try discriminate; intros _ H.
    + apply String.compare_eq_iff in Ebc. subst c. now rewrite Eab.
    + now rewrite (string_lt_trans a b c Eab Ebc).
Qed.

Lemma path_ltb_total (p : Path) :
  forall q, path_ltb p q = false -> path_ltb q p = false -> p = q.
Proof.
  induction p as [|a p IH]; intros [|b q]; simpl; try discriminate; auto.
  pose proof (String.compare_antisym b a) as Hba.
  destruct (String.compare a b) eqn:Eab; simpl in Hba; rewrite Hba;
    intros H1 H2; try discriminate.
  apply String.compare_eq_iff in Eab. subst b. f_equal. now apply IH.
Qed.

Lemma insert_path_sorted (x : Path) (l : list Path) :
  ~ In x l ->
  StronglySorted (fun p q => path_ltb p q = true) l ->
  StronglySorted (fun p q => path_ltb p q = true) (Py.insert (fun p => p) path_ltb x l).
Proof.
  intros Hnin Hs. induction Hs as [|y l Hs IH Hall]; simpl.
  - repeat constructor.
  - rewrite Forall_forall in Hall. destruct (path_ltb y x) eqn:E.
    + constructor; [apply IH; intros Hx; apply Hnin; now right|].
      apply Forall_forall. intros z Hz.
      apply (Permutation_in _ (insert_perm _ _ x l)) in Hz.
      destruct Hz as [<-|Hz]; [exact E|now apply Hall].
    + assert (Hxy : path_ltb x y = true).
      { destruct (path_ltb x y) eqn:E'; [reflexivity|].
        exfalso. apply Hnin. left. symmetry. now apply path_ltb_total. }
      constructor; [now constructor; [|apply Forall_forall]|].
      constructor; [exact Hxy|].
      apply Forall_forall. intros z Hz. apply (path_ltb_trans x y z Hxy). now apply Hall.
Qed.

Lemma sorted_paths_sorted (l : list Path) :
  NoDup l ->
  StronglySorted (fun p q => path_ltb p q = true) (Py.sorted (fun p => p) path_ltb l).
Proof.
  induction 1 as [|x l Hnin ND IH]; simpl; [constructor|].
  apply insert_path_sorted; [|exact IH].
  intros Hin. apply Hnin. now apply (sorted_in (fun p => p) path_ltb l x).
Qed.

Lemma sorted_paths_unique (l1 : list Path) :
  forall l2,
    StronglySorted (fun p q => path_ltb p q = true) l1 ->
    StronglySorted (fun p q => path_ltb p q = true) l2 ->
    Permutation l1 l2 ->
    l1 = l2.
Proof.
  induction l1 as [|x l1 IH]; intros l2 S1 S2 HP.
  - apply Permutation_nil in HP. now subst.
  - destruct l2 as [|y l2]; [apply Permutation_sym, Permutation_nil in HP; discriminate|].
    inversion S1 as [|? ? S1' H1]; subst. inversion S2 as [|? ? S2' H2]; subst.
    rewrite Forall_forall in H1, H2.
    assert (x = y).
    { assert (Hx : In x (y :: l2)) by (apply (Permutation_in _ HP); now left).
      assert (Hy : In y (x :: l1))
        by (apply (Permutation_in _ (Permutation_sym HP)); now left).
      destruct Hx as [->|Hx]; [reflexivity|]. destruct Hy as [->|Hy]; [reflexivity|].
      pose proof (path_ltb_trans x y x (H1 y Hy) (H2 x Hx)) as Hxx.
      rewrite path_ltb_irrefl in Hxx. discriminate. }
    subst y. f_equal. apply IH; auto. now apply Permutation_cons_inv in HP.
Qed.

(** The files that [analyze_dir] looks at do not depend on the order in
    which the directory is listed. *)
Lemma list_files_order (fs1 fs2 : node) (l1 l2 : list Path) :
  NoDup l1 ->
  Permutation l1 l2 ->
  (forall p, In p l1 -> visible_file fs1 p = visible_file fs2 p) ->
  list_files fs1 l1 = list_files fs2 l2.
Proof.
  intros ND HP Hvis. unfold list_files.
  assert (ND2 : NoDup l2) by (now apply (Permutation_NoDup HP)).
  assert (Es : Py.sorted (fun p => p) path_ltb l1 = Py.sorted (fun p => p) path_ltb l2).
  { apply sorted_paths_unique; try now apply sorted_paths_sorted.
    rewrite !sorted_perm. exact HP. }
  rewrite <- Es. apply filter_ext_in. intros p Hp. apply Hvis.
  now apply (sorted_in (fun p => p) path_ltb l1 p).
Qed.

(** X29: the analysis of a directory does not depend on the order in which
    the operating system lists it: two trees that list the same paths in
    [d], in any order, with the same visible files among them, get the
    same result. *)
Theorem analyze_dir_listing_order (fs1 fs2 : node) (d : Path) (min_files : Z)
  (l1 l2 : list Path) :
  iterdir fs1 d = Some l1 ->
  iterdir fs2 d = Some l2 ->
  NoDup l1 ->
  Permutation l1 l2 ->
  (forall p, In p l1 -> visible_file fs1 p = visible_file fs2 p) ->
  analyze_dir fs1 d min_files = analyze_dir fs2 d min_files.
Proof.
  intros H1 H2 ND HP Hvis.
  rewrite (analyze_dir_entries fs1 d min_files l1 H1).
  rewrite (analyze_dir_entries fs2 d min_files l2 H2).
  cbv zeta. now rewrite (list_files_order fs1 fs2 l1 l2 ND HP Hvis).
Qed.

Lemma analyze_dir_listing_order_witness :
  analyze_dir (Sample.flat ["a9"; "a10"; "a8"]) ["d"] 2
  = analyze_dir (Sample.flat ["a10"; "a8"; "a9"]) ["d"] 2.
Proof.
  apply (analyze_dir_listing_order _ _ ["d"] 2
           [["d"; "a9"]; ["d"; "a10"]; ["d"; "a8"]]
           [["d"; "a10"]; ["d"; "a8"]; ["d"; "a9"]]).
  - reflexivity.
  - reflexivity.
  - repeat constructor; simpl; intuition discriminate.
  - apply perm_trans with (l' := [["d"; "a10"]; ["d"; "a9"]; ["d"; "a8"]]);
      [apply perm_swap | apply perm_skip, perm_swap].
  - intros p [<-|[<-|[<-|[]]]]; reflexivity.
Defined.
